(** * LungsModel3D: the pledge-driven lungs progress component

    Shallow embedding of [src/components/LungsModel3D.tsx].

    The component computes with JavaScript numbers, that is IEEE 754
    binary64 values.  They are modelled here by [spec_float] at precision
    53 and maximal exponent 1024: every arithmetic operation of the source
    is the correctly rounded operation of the standard library's
    [SpecFloat], so that the model evaluates to the very doubles the
    browser computes. *)

From Stdlib Require Import String ZArith List Bool Lia SpecFloat.
From Stdlib Require QArith Qround Qminmax.
Import ListNotations.

#[local] Set Warnings "-register-all".

Local Open Scope Z_scope.

(** ** ECMAScript numbers *)

Module JS.

Definition number : Type := spec_float.

Definition prec : Z := 53.
Definition emax : Z := 1024.

(** The Number denoted by an integer numeral (or handed over as an integer
    by the caller): the nearest double. *)
Definition of_Z (n : Z) : number := binary_normalize prec emax n 0 false.

Definition add (x y : number) : number := SFadd prec emax x y.
Definition sub (x y : number) : number := SFsub prec emax x y.
Definition mul (x y : number) : number := SFmul prec emax x y.
Definition div (x y : number) : number := SFdiv prec emax x y.

(** The decimal numeral whose value is [a / b], [b] a power of ten ([dec 25
    100] is [0.25]), read as the source text is read: the double nearest to
    the quotient, which is what the correctly rounded division of two
    exactly represented integers returns. *)
Definition dec (a b : Z) : number := div (of_Z a) (of_Z b).

(** [x < y] and [x >= y]; both are false as soon as an operand is NaN. *)
Definition lt (x y : number) : bool := SFltb x y.
Definition le (x y : number) : bool := SFleb x y.
Definition ge (x y : number) : bool := SFleb y x.

Definition is_nan (x : number) : bool :=
  match x with S754_nan => true | _ => false end.

Definition valid (x : number) : bool := valid_binary prec emax x.

(** [Math.min(x, y)]: NaN if an operand is NaN, and -0 is below +0. *)
Definition Math_min (x y : number) : number :=
  match SFcompare x y with
  | None => S754_nan
  | Some Lt => x
  | Some Gt => y
  | Some Eq =>
      match x with
      | S754_zero true => x
      | _ => y
      end
  end.

(** [Math.max(x, y)], used by the specification's [clamp] only. *)
Definition Math_max (x y : number) : number :=
  match SFcompare x y with
  | None => S754_nan
  | Some Gt => x
  | Some Lt => y
  | Some Eq =>
      match x with
      | S754_zero false => x
      | _ => y
      end
  end.

Definition signed (s : bool) (m : positive) : Z :=
  if s then Zneg m else Zpos m.

(** [Math.floor(x)]: the greatest integral Number not above [x]; zeros,
    infinities and NaN are returned as they are, and a positive value
    below 1 gives +0. *)
Definition Math_floor (x : number) : number :=
  match x with
  | S754_finite s m e =>
      if 0 <=? e then x
      else
        let z := Z.shiftr (signed s m) (- e) in
        if z =? 0 then S754_zero s else of_Z z
  | _ => x
  end.

(** [Math.round(x)]: the integral Number nearest to [x], a tie going to
    the one closer to +infinity; a value in [-0.5, 0) gives -0. *)
Definition Math_round (x : number) : number :=
  match x with
  | S754_finite s m e =>
      if 0 <=? e then x
      else
        let z := Z.shiftr (2 * signed s m + 2 ^ (- e)) (1 - e) in
        if z =? 0 then S754_zero s else of_Z z
  | _ => x
  end.

(** [ToLength(x)]: truncate, then clamp to [0, 2^53 - 1]; NaN gives 0. *)
Definition ToLength (x : number) : Z :=
  match x with
  | S754_finite false m e =>
      Z.min (if 0 <=? e then Z.shiftl (Zpos m) e else Z.shiftr (Zpos m) (- e))
            (2 ^ 53 - 1)
  | S754_infinity false => 2 ^ 53 - 1
  | _ => 0
  end.

(** [Array.from({ length: x })]: an array of [ToLength(x)] undefined
    elements, here the list of its indices; a length above 2^32 - 1 raises
    a RangeError. *)
Definition Array_from_length (x : number) : option (list nat) :=
  let len := ToLength x in
  if len <=? 2 ^ 32 - 1 then Some (seq 0 (Z.to_nat len)) else None.

End JS.

Import JS.

Declare Scope js_scope.
Delimit Scope js_scope with js.
Bind Scope js_scope with number.
Infix "+" := JS.add : js_scope.
Infix "-" := JS.sub : js_scope.
Infix "*" := JS.mul : js_scope.
Infix "/" := JS.div : js_scope.
Infix "<" := JS.lt : js_scope.
Infix ">=" := JS.ge : js_scope.
Notation "# n" := (JS.of_Z n) (at level 1, format "# n") : js_scope.

(** ** The derived state of [LungsModel3D] (lines 74-76) *)

Definition fillLevel (pledgeCount : number) : number :=
  Math_min (pledgeCount / #200)%js #1%js.

Definition fillPercentage (pledgeCount : number) : number :=
  Math_round (fillLevel pledgeCount * #100)%js.

(** ** The status messages (lines 117-143) *)

Inductive Tier : Type :=
  | starting
  | growing
  | halfway
  | almost_full
  | complete.

(** Text of each message (after its leading emoji) and the colour classes
    of its badge. *)
Definition message (t : Tier) : string :=
  match t with
  | starting => "Just getting started! Keep growing!"
  | growing => "Great progress! Lungs are getting healthier!"
  | halfway => "Halfway there! Amazing commitment!"
  | almost_full => "Almost at full capacity! Incredible!"
  | complete => "Maximum health achieved! Outstanding!"
  end.

Definition className (t : Tier) : string :=
  match t with
  | starting => "bg-blue-100 text-blue-800"
  | growing => "bg-green-100 text-green-800"
  | halfway => "bg-emerald-100 text-emerald-800"
  | almost_full => "bg-teal-100 text-teal-800"
  | complete => "bg-yellow-100 text-yellow-800"
  end.

(** [{cond && <div/>}] renders the element when [cond] holds and nothing
    otherwise. *)
Definition when {A : Type} (cond : bool) (a : A) : list A :=
  if cond then [a] else [].

(** The children of the status container, in document order: five
    independent conditionals on [fillLevel]. *)
Definition statusMessages (fillLevel : number) : list Tier :=
  when (fillLevel < dec 25 100)%js starting
  ++ when ((fillLevel >= dec 25 100)%js && (fillLevel < dec 5 10)%js) growing
  ++ when ((fillLevel >= dec 5 10)%js && (fillLevel < dec 75 100)%js) halfway
  ++ when ((fillLevel >= dec 75 100)%js && (fillLevel < #1)%js) almost_full
  ++ when (fillLevel >= #1)%js complete.

(** The tier selection as the specification words it: the first of the
    five conditions that matches. *)
Definition tier (ratio : number) : option Tier :=
  if (ratio < dec 25 100)%js then Some starting
  else if (ratio >= dec 25 100)%js && (ratio < dec 5 10)%js then Some growing
  else if (ratio >= dec 5 10)%js && (ratio < dec 75 100)%js then Some halfway
  else if (ratio >= dec 75 100)%js && (ratio < #1)%js then Some almost_full
  else if (ratio >= #1)%js then Some complete
  else None.

(** The specification's [clamp(x, lo, hi)]. *)
Definition clamp (x lo hi : number) : number := Math_max lo (Math_min x hi).

(** The specification's quantities in exact arithmetic, over the
    rationals: the ratio min(count / 200, 1), the percentage
    round(ratio * 100), halves rounded up as [Math.round] does, and the
    number floor(ratio * 50) of 3D markers. *)
Definition ratio_exact (count : Z) : QArith_base.Q :=
  Qminmax.Qmin (QArith_base.Qmake count 200) (QArith_base.Qmake 1 1).

Definition percentage_exact (count : Z) : Z :=
  Qround.Qfloor
    (QArith_base.Qplus
       (QArith_base.Qmult (ratio_exact count) (QArith_base.Qmake 100 1))
       (QArith_base.Qmake 1 2)).

Definition markers_exact (count : Z) : Z :=
  Qround.Qfloor (QArith_base.Qmult (ratio_exact count) (QArith_base.Qmake 50 1)).

(** ** [Math.random()] as threaded state

    The host's generator is a stream of the Numbers it is going to return;
    a computation consumes it from the front. *)

Definition Rng : Type := nat -> number.

Definition M (A : Type) : Type := Rng -> A * Rng.

Definition ret {A : Type} (a : A) : M A := fun r => (a, r).

Definition bind {A B : Type} (c : M A) (k : A -> M B) : M B :=
  fun r => let (a, r') := c r in k a r'.

Notation "x <- c ;; k" := (bind c (fun x => k))
  (at level 61, c at next level, right associativity).

Definition Math_random : M number := fun r => (r 0%nat, fun i => r (S i)).

(** [array.map(f)], the callback run on the elements from left to right. *)
Fixpoint mapM {A B : Type} (f : A -> M B) (l : list A) : M (list B) :=
  match l with
  | [] => ret []
  | a :: l' => b <- f a ;; bs <- mapM f l' ;; ret (b :: bs)
  end.

(** What [Math.random] promises: a Number in [0, 1). *)
Definition unit_interval (u : number) : bool :=
  valid u && le #0%js u && (u < #1)%js.

(** ** The 3D scene of [LungsModel] (lines 11-68) *)

Definition vec3 : Type := (number * number * number)%type.

(** The group held by [meshRef]. *)
Record Group : Type := mkGroup {
  scale : vec3;
  rotation : vec3
}.

(** The argument of [new THREE.Color(`hsl(h, 70%, l%)`)]. *)
Record Color : Type := hsl {
  hue : number;
  saturation : number;
  lightness : number
}.

Record Material : Type := mkMaterial {
  color : option Color;
  opacity : number;
  transparent : bool
}.

(** A node of the loaded scene graph: whether it is a [THREE.Mesh], the
    material it refers to (materials are shared objects, named here by
    their index in the store), and its children. *)
Inductive Object3D : Type :=
  | Obj (isMesh : bool) (material : option nat) (children : list Object3D).

Definition Materials : Type := nat -> Material.

Definition set (k : nat) (m : Material) (st : Materials) : Materials :=
  fun j => if Nat.eqb j k then m else st j.

(** One fill-level indicator particle (lines 50-64). *)
Record Particle : Type := mkParticle {
  key : nat;
  position : vec3;
  radius : number;
  emissiveIntensity : number
}.

(** One floating health particle of the overlay (lines 148-157). *)
Record Floating : Type := mkFloating {
  fkey : nat;
  left : number;
  top : number;
  animationDelay : number;
  animationDuration : number
}.

Section LungsModel.

(** [Math.sin] is implementation-approximated; the animation is written
    over whichever one the host provides. *)
Variable Math_sin : number -> number.

(** The [useFrame] callback (lines 18-25) at elapsed time [time]. *)
Definition useFrame (time : number) (meshRef : option Group) : option Group :=
  match meshRef with
  | Some current =>
      let breatheScale := (#1 + Math_sin (time * dec 5 10) * dec 1 10)%js in
      let '(rx, _, rz) := rotation current in
      Some {| scale := (breatheScale, breatheScale, breatheScale);
              rotation := (rx, (Math_sin (time * dec 2 10) * dec 1 10)%js, rz) |}
  | None => None
  end.

End LungsModel.

(** The body of the [traverse] callback (lines 31-38) on one node. *)
Definition recolor (fillLevel : number) (st : Materials)
    (isMesh : bool) (material : option nat) : Materials :=
  match isMesh, material with
  | true, Some k =>
      match color (st k) with
      | Some _ =>
          set k {| color := Some (hsl (#120 + fillLevel * #60)%js #70%js
                                      (#40 + fillLevel * #20)%js);
                   opacity := (dec 8 10 + fillLevel * dec 2 10)%js;
                   transparent := true |} st
      | None => st
      end
  | _, _ => st
  end.

(** [scene.traverse(callback)]: the node itself, then its children in
    order, each with its own subtree. *)
Fixpoint traverse (fillLevel : number) (o : Object3D) (st : Materials) : Materials :=
  match o with
  | Obj isMesh material children =>
      fold_left (fun st' child => traverse fillLevel child st') children
                (recolor fillLevel st isMesh material)
  end.

(** The effect of lines 28-41. *)
Definition useEffect (fillLevel : number) (scene : option Object3D)
    (st : Materials) : Materials :=
  match scene with
  | Some o => traverse fillLevel o st
  | None => st
  end.

(** The map callback of lines 49-65. *)
Definition particle (fillLevel : number) (i : nat) : M Particle :=
  x <- Math_random ;;
  y <- Math_random ;;
  z <- Math_random ;;
  ret {| key := i;
         position := (((x - dec 5 10) * #2)%js,
                      ((y - dec 5 10) * dec 15 10)%js,
                      ((z - dec 5 10) * dec 5 10)%js);
         radius := dec 2 100;
         emissiveIntensity := fillLevel |}.

(** The particles rendered by [LungsModel]; [None] is the RangeError of
    [Array.from]. *)
Definition LungsModel (pledgeCount fillLevel : number) : M (option (list Particle)) :=
  match Array_from_length (Math_floor (fillLevel * #50)%js) with
  | Some indices => ps <- mapM (particle fillLevel) indices ;; ret (Some ps)
  | None => ret None
  end.

(** ** The overlay of [LungsModel3D] (lines 102-159) *)

(** The map callback of lines 147-158. *)
Definition floating (i : nat) : M Floating :=
  let n := #(Z.of_nat i)%js in
  u <- Math_random ;;
  ret {| fkey := i;
         left := (#10 + n * #8)%js;
         top := (#15 + n * #6)%js;
         animationDelay := (n * dec 5 10)%js;
         animationDuration := (#2 + u * #2)%js |}.

Definition floatingParticles (fillLevel : number) : M (option (list Floating)) :=
  match Array_from_length (Math_floor (fillLevel * #10)%js) with
  | Some indices => fs <- mapM floating indices ;; ret (Some fs)
  | None => ret None
  end.

(** What one render of [LungsModel3D] puts on the page. *)
Record View : Type := mkView {
  caption : number * number;
  barWidth : number;
  status : list Tier;
  floats : list Floating;
  particles : list Particle
}.

(** One render pass: the body of [LungsModel3D] first, then its child
    [LungsModel]. *)
Definition LungsModel3D (pledgeCount : number) : M (option View) :=
  let fillLevel := fillLevel pledgeCount in
  let fillPercentage := fillPercentage pledgeCount in
  fs <- floatingParticles fillLevel ;;
  match fs with
  | None => ret None
  | Some fs =>
      ps <- LungsModel pledgeCount fillLevel ;;
      match ps with
      | None => ret None
      | Some ps =>
          ret (Some {| caption := (pledgeCount, fillPercentage);
                       barWidth := fillPercentage;
                       status := statusMessages fillLevel;
                       floats := fs;
                       particles := ps |})
      end
  end.

(** ** Vocabulary of the proofs *)

(** A rounded mantissa and its exponent, put back into a Number. *)
Definition pack (s : bool) (m e : Z) : number :=
  match m with
  | Z0 => S754_zero s
  | Zpos p => if e <=? emax - prec then S754_finite s p e else S754_infinity s
  | Zneg _ => S754_nan
  end.

(** [below s k x]: [x] is a zero or a finite Number of sign [s] and of
    magnitude at most 2^k. *)
Definition below (s : bool) (k : Z) (x : number) : Prop :=
  match x with
  | S754_zero s' => s' = s
  | S754_finite s' m e =>
      s' = s /\ Zpos m < 2 ^ 53 /\
      (e <= k - 53 \/ (e = k - 52 /\ Zpos m = 2 ^ 52))
  | _ => False
  end.

(** [above s k x]: [x] is a normal Number of sign [s] and of magnitude at
    least 2^k, or the infinity of that sign. *)
Definition above (s : bool) (k : Z) (x : number) : Prop :=
  match x with
  | S754_infinity s' => s' = s
  | S754_finite s' m e =>
      s' = s /\ 2 ^ 52 <= Zpos m < 2 ^ 53 /\ k - 52 <= e
  | _ => False
  end.

(** [upto mc ec x]: [x] is a zero or a finite Number whose magnitude is at
    most [mc * 2^ec], whatever its sign. *)
Definition upto (mc : Z) (ec : Z) (x : number) : Prop :=
  match x with
  | S754_zero _ => True
  | S754_finite _ m e =>
      Zpos m < 2 ^ 53 /\ (e < ec \/ (e = ec /\ Zpos m <= mc))
  | _ => False
  end.

(** What [Math.floor] returns for a non-negative value of integer part
    [z]: +0, or the Number [z]. *)
Definition integral (z : Z) : number :=
  if z =? 0 then S754_zero false else of_Z z.

(** The bounded volume of the 3D particles: x in [-1, 1],
    y in [-0.75, 0.75] and z in [-0.25, 0.25]. *)
Definition in_volume (p : vec3) : bool :=
  let '(x, y, z) := p in
  le #(-1)%js x && le x #1%js
  && le (dec (-75) 100) y && le y (dec 75 100)
  && le (dec (-25) 100) z && le z (dec 25 100).

(** A generator that keeps the promise of [Math.random]. *)
Definition fair (rng : Rng) : Prop := forall i, unit_interval (rng i) = true.

(** The materials of the meshes of a scene graph, in traversal order. *)
Fixpoint meshes (o : Object3D) : list nat :=
  match o with
  | Obj isMesh material children =>
      match isMesh, material with
      | true, Some k => [k]
      | _, _ => []
      end ++ flat_map meshes children
  end.

(** What the effect makes of one material: recoloured when it carries a
    colour, left alone otherwise. *)
Definition paint (fillLevel : number) (m : Material) : Material :=
  match color m with
  | Some _ =>
      {| color := Some (hsl (#120 + fillLevel * #60)%js #70%js
                            (#40 + fillLevel * #20)%js);
         opacity := (dec 8 10 + fillLevel * dec 2 10)%js;
         transparent := true |}
  | None => m
  end.

(** Structural induction on scene graphs, through the lists of children. *)
Fixpoint Object3D_forall (P : Object3D -> Prop)
    (step : forall isMesh material children,
        Forall P children -> P (Obj isMesh material children))
    (o : Object3D) : P o :=
  match o with
  | Obj isMesh material children =>
      step isMesh material children
        ((fix all (l : list Object3D) : Forall P l :=
            match l with
            | [] => Forall_nil P
            | c :: l' => Forall_cons c (Object3D_forall P step c) (all l')
            end) children)
  end.

(** A list of Numbers in which every element is below all later ones. *)
Fixpoint increasing (l : list number) : bool :=
  match l with
  | [] => true
  | x :: l' => forallb (fun y => lt x y) l' && increasing l'
  end.

(** JavaScript's [x === y] on Numbers. *)
Definition strict_eq (x y : number) : bool := SFeqb x y.

(** Structural equality of two Numbers (it tells +0 from -0, and NaN is
    equal to itself), and the integers [lo, lo + len). *)
Definition same (x y : number) : bool :=
  match x, y with
  | S754_zero s, S754_zero s' => Bool.eqb s s'
  | S754_infinity s, S754_infinity s' => Bool.eqb s s'
  | S754_nan, S754_nan => true
  | S754_finite s m e, S754_finite s' m' e' =>
      Bool.eqb s s' && Pos.eqb m m' && Z.eqb e e'
  | _, _ => false
  end.

Definition range (lo : Z) (len : nat) : list Z :=
  map (fun i => lo + Z.of_nat i) (seq 0 len).

(** The tier of a pledge count, by its bracket of 50 pledges. *)
Definition tier_of_count (n : Z) : Tier :=
  if n <? 50 then starting
  else if n <? 100 then growing
  else if n <? 150 then halfway
  else if n <? 200 then almost_full
  else complete.

Definition Tier_eqb (a b : Tier) : bool :=
  match a, b with
  | starting, starting | growing, growing | halfway, halfway
  | almost_full, almost_full | complete, complete => true
  | _, _ => false
  end.

(** The pledge counts whose percentage the doubles display one below the
    exact one. *)
Definition short_percentage (count : Z) : bool :=
  existsb (Z.eqb count) [29; 57; 113; 115].

(** The generator after [n] calls of [Math.random]. *)
Fixpoint drop (n : nat) (rng : Rng) : Rng :=
  match n with
  | O => rng
  | S n' => drop n' (fun i => rng (S i))
  end.

(** [atmost s B eb x]: [x] is a zero or a finite Number of sign [s] and of
    magnitude at most [B * 2^eb]; [atleast s B eb x]: [x] is a finite
    Number of sign [s] and of magnitude at least [B * 2^eb], or the
    infinity of that sign. *)
Definition atmost (s : bool) (B eb : Z) (x : number) : Prop :=
  match x with
  | S754_zero s' => s' = s
  | S754_finite s' m e =>
      s' = s /\ Zpos m < 2 ^ 53 /\ (e < eb \/ (e = eb /\ Zpos m <= B))
  | _ => False
  end.

Definition atleast (s : bool) (B eb : Z) (x : number) : Prop :=
  match x with
  | S754_infinity s' => s' = s
  | S754_finite s' m e => s' = s /\ (eb < e \/ (e = eb /\ B <= Zpos m))
  | _ => False
  end.

(** Where the bits shifted out of [m] after [k] steps stand against half a
    unit: the round and sticky bits of the record. *)
Definition tracks (m k : Z) (mrs : shr_record) : Prop :=
  shr_m mrs = m / 2 ^ k /\
  match shr_r mrs, shr_s mrs with
  | false, false => m mod 2 ^ k = 0
  | false, true => 0 < 2 * (m mod 2 ^ k) < 2 ^ k
  | true, false => 2 * (m mod 2 ^ k) = 2 ^ k
  | true, true => 2 ^ k < 2 * (m mod 2 ^ k)
  end.


(** The Numbers that are not above zero with a negative sign bit (-0
    included), and those not below zero with a positive one. *)
Definition nonpos (x : number) : Prop :=
  match x with
  | S754_zero true | S754_finite true _ _ | S754_infinity true => True
  | _ => False
  end.

Definition nonneg (x : number) : Prop :=
  match x with
  | S754_zero false | S754_finite false _ _ | S754_infinity false => True
  | _ => False
  end.

(** [x] lies in the closed interval [lo, hi]. *)
Definition within (lo hi x : number) : bool := le lo x && le x hi.

(** Closed comparisons of integers, by evaluation. *)
Ltac numeric :=
  vm_compute;
  first [ reflexivity | discriminate | split; first [reflexivity | discriminate] ].

(** * Properties *)

(** ** The Numbers of the model are the doubles of the browser *)

Example tenth_is_rounded :
  dec 1 10 = S754_finite false 7205759403792794 (-56) /\
  strict_eq (dec 1 10 + dec 2 10)%js (dec 3 10) = false.
Proof. split; vm_compute; reflexivity. Qed.

Example Math_round_ties :
  Math_round (dec 25 10) = #3%js /\
  Math_round (dec (-25) 10) = #(-2)%js /\
  Math_round (dec (-5) 10) = S754_zero true /\
  Math_round (dec 4 10) = S754_zero false.
Proof. repeat split; vm_compute; reflexivity. Qed.

Example Math_floor_values :
  Math_floor (dec 29 10) = #2%js /\
  Math_floor (dec (-29) 10) = #(-3)%js /\
  Math_floor (dec 5 10) = S754_zero false.
Proof. repeat split; vm_compute; reflexivity. Qed.

Example Math_min_values :
  Math_min S754_nan #1%js = S754_nan /\
  Math_min (S754_zero false) (S754_zero true) = S754_zero true /\
  Math_min #3%js #1%js = #1%js.
Proof. repeat split; vm_compute; reflexivity. Qed.

Example Array_from_length_values :
  Array_from_length (dec 29 10) = Some [0; 1]%nat /\
  Array_from_length #(-3)%js = Some [] /\
  Array_from_length S754_nan = Some [] /\
  Array_from_length #4294967296%js = None.
Proof. repeat split; vm_compute; reflexivity. Qed.

(** The derived state is computed on doubles: 57 / 200 is the double just
    below 0.285 and its product by 100 the double just below 28.5, so that
    57 pledges are displayed as 28 percent; likewise 116 pledges, a ratio
    of 0.58, give 28 particles. *)
Example rounded_products :
  fillPercentage #57%js = #28%js /\
  Math_floor (fillLevel #116 * #50)%js = #28%js.
Proof. split; vm_compute; reflexivity. Qed.

(** ** Correctly rounded results

    What [binary_round_aux], the rounding shared by every operation of
    [SpecFloat], returns: the mantissa is shifted down to the exponent of
    the target format, moved up by at most one unit, and renormalised when
    that reaches 2^53. *)

Module Rounding.

Lemma fexp_eq (e : Z) : fexp prec emax e = Z.max (e - 53) (-1074).
Proof. reflexivity. Qed.

Lemma digits2_pos_bounds (p : positive) :
  2 ^ (Zpos (digits2_pos p) - 1) <= Zpos p < 2 ^ Zpos (digits2_pos p).
Proof.
  induction p as [p IH | p IH | ]; cbn [digits2_pos].
  - rewrite Pos2Z.inj_succ, Z.pow_succ_r by lia.
    replace (Z.succ (Zpos (digits2_pos p)) - 1) with (Z.succ (Zpos (digits2_pos p) - 1)) by lia.
    rewrite Z.pow_succ_r by lia. lia.
  - rewrite Pos2Z.inj_succ, Z.pow_succ_r by lia.
    replace (Z.succ (Zpos (digits2_pos p)) - 1) with (Z.succ (Zpos (digits2_pos p) - 1)) by lia.
    rewrite Z.pow_succ_r by lia. lia.
  - simpl. lia.
Qed.

Lemma Zdigits2_bounds (m : Z) :
  0 < m -> 2 ^ (Zdigits2 m - 1) <= m < 2 ^ Zdigits2 m.
Proof.
  destruct m as [ | p | p]; try lia. intros _. apply digits2_pos_bounds.
Qed.

Lemma Zdigits2_pos (m : Z) : 0 < m -> 0 < Zdigits2 m.
Proof. destruct m; simpl; lia. Qed.

(** The number of digits is determined by the binade. *)
Lemma Zdigits2_unique (m d : Z) :
  2 ^ (d - 1) <= m < 2 ^ d -> 0 < d -> Zdigits2 m = d.
Proof.
  intros [Hlo Hhi] Hd.
  assert (Hm : 0 < m) by (pose proof (Z.pow_pos_nonneg 2 (d - 1)); lia).
  pose proof (Zdigits2_bounds m Hm) as [Hlo' Hhi'].
  pose proof (Zdigits2_pos m Hm) as Hd'.
  destruct (Z.lt_trichotomy (Zdigits2 m) d) as [Hlt | [Heq | Hgt]]; [ | exact Heq | ].
  - assert (2 ^ Zdigits2 m <= 2 ^ (d - 1)) by (apply Z.pow_le_mono_r; lia). lia.
  - assert (2 ^ d <= 2 ^ (Zdigits2 m - 1)) by (apply Z.pow_le_mono_r; lia). lia.
Qed.

Lemma Zdigits2_le (m d : Z) : 0 < m -> m < 2 ^ d -> 0 <= d -> Zdigits2 m <= d.
Proof.
  intros Hm Hhi Hd.
  pose proof (Zdigits2_bounds m Hm) as [Hlo' _].
  destruct (Z_le_gt_dec (Zdigits2 m) d) as [Hle | Hgt]; [exact Hle | ].
  assert (2 ^ d <= 2 ^ (Zdigits2 m - 1)) by (apply Z.pow_le_mono_r; lia). lia.
Qed.

Lemma Zdigits2_ge (m d : Z) : 2 ^ (d - 1) <= m -> 0 < d -> d <= Zdigits2 m.
Proof.
  intros Hlo Hd.
  assert (Hm : 0 < m) by (pose proof (Z.pow_pos_nonneg 2 (d - 1)); lia).
  pose proof (Zdigits2_bounds m Hm) as [_ Hhi'].
  pose proof (Zdigits2_pos m Hm).
  destruct (Z_le_gt_dec d (Zdigits2 m)) as [Hle | Hgt]; [exact Hle | ].
  assert (2 ^ Zdigits2 m <= 2 ^ (d - 1)) by (apply Z.pow_le_mono_r; lia). lia.
Qed.

(** Shifting a mantissa to the left adds as many digits. *)
Lemma Zdigits2_shift (m k : Z) :
  0 < m -> 0 <= k -> Zdigits2 (m * 2 ^ k) = Zdigits2 m + k.
Proof.
  intros Hm Hk.
  pose proof (Zdigits2_bounds m Hm) as [Hlo Hhi].
  pose proof (Zdigits2_pos m Hm).
  assert (0 < 2 ^ k) by (apply Z.pow_pos_nonneg; lia).
  apply Zdigits2_unique; [ | lia].
  replace (Zdigits2 m + k - 1) with (Zdigits2 m - 1 + k) by lia.
  rewrite !Z.pow_add_r by lia. nia.
Qed.

(** A product has at most the digits of its factors together. *)
Lemma Zdigits2_mul (a b : Z) :
  0 < a -> 0 < b -> Zdigits2 (a * b) <= Zdigits2 a + Zdigits2 b.
Proof.
  intros Ha Hb.
  pose proof (Zdigits2_bounds a Ha) as [_ Ha'].
  pose proof (Zdigits2_bounds b Hb) as [_ Hb'].
  pose proof (Zdigits2_pos a Ha). pose proof (Zdigits2_pos b Hb).
  apply Zdigits2_le; [nia | | lia].
  rewrite Z.pow_add_r by lia. nia.
Qed.

Lemma shr_1_m (mrs : shr_record) :
  0 <= shr_m mrs -> shr_m (shr_1 mrs) = shr_m mrs / 2.
Proof.
  destruct mrs as [m r s]; cbn [shr_m]; intros Hm.
  destruct m as [ | [p | p | ] | p]; cbn [shr_1 shr_m]; try lia.
  - reflexivity.
  - apply Z.div_unique with (r := 1); lia.
  - apply Z.div_unique with (r := 0); lia.
  - reflexivity.
Qed.

Lemma iter_shr_1_m (p : positive) (mrs : shr_record) :
  0 <= shr_m mrs ->
  shr_m (iter_pos shr_1 p mrs) = shr_m mrs / 2 ^ Zpos p.
Proof.
  revert mrs.
  induction p as [p IH | p IH | ]; intros mrs Hm; cbn [iter_pos].
  - assert (Hp : 0 < 2 ^ Zpos p) by (apply Z.pow_pos_nonneg; lia).
    pose proof (shr_1_m mrs Hm) as E1.
    assert (H1 : 0 <= shr_m (shr_1 mrs)) by (rewrite E1; apply Z.div_pos; lia).
    pose proof (IH _ H1) as E2.
    assert (H2 : 0 <= shr_m (iter_pos shr_1 p (shr_1 mrs)))
      by (rewrite E2; apply Z.div_pos; lia).
    rewrite (IH _ H2), E2, E1, !Z.div_div by lia.
    f_equal. rewrite Pos2Z.inj_xI.
    replace (2 * Zpos p + 1) with (1 + Zpos p + Zpos p) by lia.
    rewrite !Z.pow_add_r by lia. lia.
  - assert (Hp : 0 < 2 ^ Zpos p) by (apply Z.pow_pos_nonneg; lia).
    pose proof (IH _ Hm) as E1.
    assert (H1 : 0 <= shr_m (iter_pos shr_1 p mrs))
      by (rewrite E1; apply Z.div_pos; lia).
    rewrite (IH _ H1), E1, !Z.div_div by lia.
    f_equal. change (Zpos p~0) with (2 * Zpos p).
    replace (2 * Zpos p) with (Zpos p + Zpos p) by lia.
    rewrite !Z.pow_add_r by lia. lia.
  - rewrite shr_1_m by assumption. reflexivity.
Qed.

Lemma shr_fexp_spec (m e : Z) (l : location) :
  0 <= m ->
  snd (shr_fexp prec emax m e l) = Z.max e (fexp prec emax (Zdigits2 m + e)) /\
  shr_m (fst (shr_fexp prec emax m e l)) =
    m / 2 ^ (Z.max e (fexp prec emax (Zdigits2 m + e)) - e).
Proof.
  intros Hm. unfold shr_fexp, shr.
  assert (Hl : shr_m (shr_record_of_loc m l) = m) by (destruct l as [ | [ | | ]]; reflexivity).
  destruct (fexp prec emax (Zdigits2 m + e) - e) as [ | p | p] eqn:En; cbn [fst snd].
  - replace (Z.max e (fexp prec emax (Zdigits2 m + e))) with e by lia.
    rewrite Z.sub_diag, Z.div_1_r. auto.
  - replace (Z.max e (fexp prec emax (Zdigits2 m + e))) with (e + Zpos p) by lia.
    rewrite iter_shr_1_m, Hl by (rewrite Hl; exact Hm).
    split; [reflexivity | f_equal; f_equal; lia].
  - replace (Z.max e (fexp prec emax (Zdigits2 m + e))) with e by lia.
    rewrite Z.sub_diag, Z.div_1_r. auto.
Qed.

Lemma round_nearest_even_range (m : Z) (l : location) :
  m <= round_nearest_even m l <= m + 1.
Proof.
  destruct l as [ | [ | | ]]; cbn [round_nearest_even];
    try destruct (Z.even m); lia.
Qed.

(** The shape of every correctly rounded result. *)
Lemma binary_round_aux_spec (s : bool) (m e : Z) (l : location) :
  0 < m ->
  let e1 := Z.max e (fexp prec emax (Zdigits2 m + e)) in
  let m1 := m / 2 ^ (e1 - e) in
  m1 < 2 ^ 53 /\
  exists m2, m1 <= m2 <= m1 + 1 /\
    binary_round_aux prec emax s m e l =
      if m2 =? 2 ^ 53 then pack s (2 ^ 52) (e1 + 1) else pack s m2 e1.
Proof.
  intros Hm e1 m1.
  pose proof (Zdigits2_bounds m Hm) as [_ Hhi].
  pose proof (Zdigits2_pos m Hm) as Hd.
  assert (He1 : -1074 <= e1) by (unfold e1; rewrite fexp_eq; lia).
  assert (Hm1 : 0 <= m1 < 2 ^ 53).
  { assert (0 < 2 ^ (e1 - e)) by (apply Z.pow_pos_nonneg; unfold e1; lia).
    split; [apply Z.div_pos; lia | ].
    apply Z.div_lt_upper_bound; [lia | ].
    rewrite <- Z.pow_add_r by (unfold e1; lia).
    apply Z.lt_le_trans with (1 := Hhi).
    apply Z.pow_le_mono_r; [lia | ].
    unfold e1; rewrite fexp_eq; lia. }
  split; [lia | ].
  unfold binary_round_aux.
  pose proof (shr_fexp_spec m e l (Z.lt_le_incl _ _ Hm)) as [Hs1 Hs2].
  destruct (shr_fexp prec emax m e l) as [mrs' e'] eqn:E1.
  cbn [fst snd] in Hs1, Hs2. fold e1 in Hs1, Hs2. fold m1 in Hs2.
  subst e'. rewrite Hs2.
  set (m2 := round_nearest_even m1 (loc_of_shr_record mrs')).
  pose proof (round_nearest_even_range m1 (loc_of_shr_record mrs')) as Hr.
  fold m2 in Hr.
  exists m2. split; [exact Hr | ].
  assert (Hm2 : 0 <= m2) by lia.
  pose proof (shr_fexp_spec m2 e1 loc_Exact Hm2) as [Ht1 Ht2].
  destruct (shr_fexp prec emax m2 e1 loc_Exact) as [mrs'' e''] eqn:E2.
  cbn [fst snd] in Ht1, Ht2. subst e''. rewrite Ht2.
  destruct (Z.eqb_spec m2 (2 ^ 53)) as [Heq | Hne].
  - rewrite Heq. change (Zdigits2 (2 ^ 53)) with 54.
    rewrite fexp_eq.
    replace (Z.max e1 (Z.max (54 + e1 - 53) (-1074))) with (e1 + 1) by lia.
    replace (e1 + 1 - e1) with 1 by lia. reflexivity.
  - assert (Hf : fexp prec emax (Zdigits2 m2 + e1) <= e1).
    { rewrite fexp_eq.
      destruct (Z.eq_dec m2 0) as [-> | Hnz]; [simpl; lia | ].
      assert (Zdigits2 m2 <= 53) by (apply Zdigits2_le; lia). lia. }
    replace (Z.max e1 (fexp prec emax (Zdigits2 m2 + e1))) with e1 by lia.
    rewrite Z.sub_diag, Z.div_1_r. reflexivity.
Qed.

(** A value below 2^k is rounded to a Number that is at most 2^k. *)
Lemma binary_round_aux_below (s : bool) (m e : Z) (l : location) (k : Z) :
  0 < m ->
  e <= fexp prec emax (Zdigits2 m + e) ->
  Zdigits2 m + e <= k ->
  -1021 <= k <= 1023 ->
  below s k (binary_round_aux prec emax s m e l).
Proof.
  intros Hm He Hk Hr.
  destruct (binary_round_aux_spec s m e l Hm) as [Hm1 [m2 [Hm2 ->]]].
  assert (H0 : 0 <= m / 2 ^ (Z.max e (fexp prec emax (Zdigits2 m + e)) - e)).
  { apply Z.div_pos; [lia | apply Z.pow_pos_nonneg; lia]. }
  rewrite fexp_eq in *.
  set (e1 := Z.max e (Z.max (Zdigits2 m + e - 53) (-1074))) in *.
  assert (He1 : e1 <= k - 53) by (unfold e1; lia).
  destruct (Z.eqb_spec m2 (2 ^ 53)) as [Heq | Hne].
  - unfold pack. change (2 ^ 52) with (Zpos 4503599627370496).
    cbv beta iota. destruct (Z.leb_spec (e1 + 1) (emax - prec)) as [_ | Hgt].
    + cbn [below]. change (Zpos 4503599627370496) with (2 ^ 52).
      split; [reflexivity | lia].
    + unfold emax, prec in Hgt. lia.
  - unfold pack. destruct m2 as [ | p | p]; [reflexivity | | lia].
    destruct (Z.leb_spec e1 (emax - prec)) as [_ | Hgt].
    + cbn [below]. split; [reflexivity | lia].
    + unfold emax, prec in Hgt. lia.
Qed.

(** A value of at least 2^k, in the normal range, is rounded to a normal
    Number that is at least 2^k, or overflows. *)
Lemma binary_round_aux_above (s : bool) (m e : Z) (l : location) (k : Z) :
  0 < m ->
  e <= fexp prec emax (Zdigits2 m + e) ->
  k + 1 <= Zdigits2 m + e ->
  -1022 <= k ->
  above s k (binary_round_aux prec emax s m e l).
Proof.
  intros Hm He Hk Hr.
  destruct (binary_round_aux_spec s m e l Hm) as [Hm1 [m2 [Hm2 ->]]].
  pose proof (Zdigits2_bounds m Hm) as [Hlo _].
  rewrite fexp_eq in *.
  set (d := Zdigits2 m) in *.
  replace (Z.max e (Z.max (d + e - 53) (-1074))) with (d + e - 53) in * by lia.
  replace (d + e - 53 - e) with (d - 53) in * by lia.
  assert (Hd : 53 <= d) by lia.
  assert (Hp : 0 < 2 ^ (d - 53)) by (apply Z.pow_pos_nonneg; lia).
  assert (Hm1' : 2 ^ 52 <= m / 2 ^ (d - 53)).
  { apply Z.div_le_lower_bound; [lia | ].
    rewrite Z.mul_comm, <- Z.pow_add_r by lia.
    replace (52 + (d - 53)) with (d - 1) by lia. exact Hlo. }
  destruct (Z.eqb_spec m2 (2 ^ 53)) as [Heq | Hne].
  - unfold pack. change (2 ^ 52) with (Zpos 4503599627370496).
    cbv beta iota. destruct (d + e - 53 + 1 <=? emax - prec).
    + cbn [above]. change (Zpos 4503599627370496) with (2 ^ 52).
      split; [reflexivity | lia].
    + reflexivity.
  - unfold pack. destruct m2 as [ | p | p]; [lia | | lia].
    destruct (d + e - 53 <=? emax - prec).
    + cbn [above]. split; [reflexivity | lia].
    + reflexivity.
Qed.

Lemma iter_xO (m d : positive) :
  Zpos (Pos.iter xO m d) = Zpos m * 2 ^ Zpos d.
Proof.
  induction d as [ | d IH] using Pos.peano_ind.
  - cbn [Pos.iter]. lia.
  - rewrite Pos.iter_succ, Pos2Z.inj_succ, Z.pow_succ_r by lia.
    change (Zpos (Pos.iter xO m d)~0) with (2 * Zpos (Pos.iter xO m d)).
    rewrite IH. lia.
Qed.

Lemma shl_align_spec (mx : positive) (ex ex' : Z) :
  snd (shl_align mx ex ex') = Z.min ex ex' /\
  Zpos (fst (shl_align mx ex ex')) = Zpos mx * 2 ^ (ex - Z.min ex ex').
Proof.
  unfold shl_align.
  destruct (ex' - ex) as [ | d | d] eqn:Ed; cbn [fst snd].
  - replace (Z.min ex ex') with ex by lia. rewrite Z.sub_diag. lia.
  - replace (Z.min ex ex') with ex by lia. rewrite Z.sub_diag. lia.
  - replace (Z.min ex ex') with ex' by lia.
    rewrite iter_xO. split; [reflexivity | f_equal; f_equal; lia].
Qed.

(** [binary_round] first aligns the mantissa on the target exponent, which
    changes neither the value nor the binade. *)
Lemma binary_round_align (s : bool) (m : positive) (e : Z) :
  exists m' e',
    binary_round prec emax s m e = binary_round_aux prec emax s (Zpos m') e' loc_Exact /\
    e' <= fexp prec emax (Zdigits2 (Zpos m') + e') /\
    Zdigits2 (Zpos m') + e' = Zdigits2 (Zpos m) + e.
Proof.
  unfold binary_round.
  pose proof (shl_align_spec m e (fexp prec emax (Zpos (digits2_pos m) + e))) as [H1 H2].
  destruct (shl_align m e (fexp prec emax (Zpos (digits2_pos m) + e))) as [mz ez].
  cbn [fst snd] in H1, H2.
  exists mz, ez. split; [reflexivity | ].
  assert (Hd : Zdigits2 (Zpos mz) + ez = Zdigits2 (Zpos m) + e).
  { rewrite H2, Zdigits2_shift by lia. lia. }
  split; [ | exact Hd].
  rewrite Hd. cbn [Zdigits2]. lia.
Qed.

Lemma binary_round_below (s : bool) (m : positive) (e k : Z) :
  Zdigits2 (Zpos m) + e <= k -> -1021 <= k <= 1023 ->
  below s k (binary_round prec emax s m e).
Proof.
  intros Hk Hr.
  destruct (binary_round_align s m e) as [m' [e' [-> [He Hd]]]].
  apply binary_round_aux_below; lia.
Qed.

Lemma binary_round_above (s : bool) (m : positive) (e k : Z) :
  k + 1 <= Zdigits2 (Zpos m) + e -> -1022 <= k ->
  above s k (binary_round prec emax s m e).
Proof.
  intros Hk Hr.
  destruct (binary_round_align s m e) as [m' [e' [-> [He Hd]]]].
  apply binary_round_aux_above; lia.
Qed.

(** The sign of a result is the sign it was rounded with. *)
Lemma binary_round_aux_opp (m e : Z) (l : location) :
  binary_round_aux prec emax true m e l =
  SFopp (binary_round_aux prec emax false m e l).
Proof.
  unfold binary_round_aux.
  destruct (shr_fexp prec emax m e l) as [mrs' e'].
  destruct (shr_fexp prec emax _ e' loc_Exact) as [mrs'' e''].
  destruct (shr_m mrs''); [reflexivity | | reflexivity].
  destruct (e'' <=? emax - prec); reflexivity.
Qed.

Lemma of_Z_opp (n : Z) : 0 < n -> of_Z (- n) = SFopp (of_Z n).
Proof.
  destruct n as [ | p | p]; try lia. intros _.
  unfold of_Z. cbn [Z.opp binary_normalize]. unfold binary_round.
  destruct (shl_align p 0 _) as [mz ez]. apply binary_round_aux_opp.
Qed.

(** An integer of at least 2^k becomes a Number of at least 2^k. *)
Lemma of_Z_above (n k : Z) : 0 <= k -> 2 ^ k <= n -> above false k (of_Z n).
Proof.
  intros Hk Hn.
  assert (0 < 2 ^ k) by (apply Z.pow_pos_nonneg; lia).
  destruct n as [ | p | p]; try lia.
  unfold of_Z. cbn [binary_normalize].
  apply binary_round_above; [ | lia].
  assert (k + 1 <= Zdigits2 (Zpos p)); [ | lia].
  apply Zdigits2_ge; [ | lia].
  replace (k + 1 - 1) with k by lia. exact Hn.
Qed.

(** The quotient of two normal Numbers: the dividend is shifted by 53 bits
    and the integer quotient is rounded. *)
Lemma div_normal (sx : bool) (mx : positive) (ex : Z)
    (sy : bool) (my : positive) (ey : Z) :
  Zdigits2 (Zpos mx) = 53 -> Zdigits2 (Zpos my) = 53 ->
  -1074 <= ex - ey - 53 ->
  div (S754_finite sx mx ex) (S754_finite sy my ey) =
  binary_round_aux prec emax (xorb sx sy)
    (Zpos mx * 2 ^ 53 / Zpos my) (ex - ey - 53)
    (new_location (Zpos my) ((Zpos mx * 2 ^ 53) mod Zpos my)).
Proof.
  intros Hx Hy He.
  unfold div, SFdiv, SFdiv_core_binary.
  rewrite Hx, Hy, fexp_eq.
  replace (Z.min (Z.max (53 + ex - (53 + ey) - 53) (-1074)) (ex - ey))
    with (ex - ey - 53) by lia.
  replace (ex - ey - (ex - ey - 53)) with 53 by lia.
  cbv iota. rewrite Z.shiftl_mul_pow2 by lia.
  unfold Z.div, Z.modulo.
  destruct (Z.div_eucl (Zpos mx * 2 ^ 53) (Zpos my)) as [q r].
  reflexivity.
Qed.

(** Mantissas are compared as integers. *)
Lemma compare_cont_Eq (p q : positive) :
  Pos.compare_cont Eq p q = (Zpos p ?= Zpos q).
Proof. reflexivity. Qed.

Lemma xorb_false_r' (s : bool) : xorb s false = s.
Proof. destruct s; reflexivity. Qed.

(** Dividing by 200 loses at most eight binades. *)
Lemma div_200_above (s : bool) (k : Z) (x : number) :
  above s k x -> -1014 <= k -> above s (k - 8) (x / #200)%js.
Proof.
  intros Hx Hk.
  change (#200)%js with (S754_finite false 7036874417766400 (-45)).
  destruct x as [ | s' | | s' m e]; cbn [above] in Hx; try contradiction.
  - subst s'. unfold div. cbn [SFdiv]. rewrite xorb_false_r'. reflexivity.
  - destruct Hx as [-> [Hm He]].
    rewrite div_normal;
      [ | apply Zdigits2_unique; [exact Hm | lia] | reflexivity | lia ].
    rewrite xorb_false_r'.
    assert (Hq : 2 ^ 52 <= Zpos m * 2 ^ 53 / 7036874417766400)
      by (apply Z.div_le_lower_bound; lia).
    assert (Hd : 53 <= Zdigits2 (Zpos m * 2 ^ 53 / 7036874417766400))
      by (apply Zdigits2_ge; [exact Hq | lia]).
    apply binary_round_aux_above; rewrite ?fexp_eq; lia.
Qed.

(** Whatever is at least 1 is cut down to 1 by [Math.min]. *)
Lemma min_one_above (x : number) :
  above false 0 x -> Math_min x #1%js = #1%js.
Proof.
  change (#1)%js with (S754_finite false 4503599627370496 (-52)).
  destruct x as [ | s | | s m e]; cbn [above]; try contradiction.
  - intros ->. reflexivity.
  - intros [-> [Hm He]]. unfold Math_min, SFcompare.
    destruct (Z.compare_spec e (-52)) as [-> | Hlt | Hgt]; try lia; [ | reflexivity].
    rewrite compare_cont_Eq.
    destruct (Z.compare_spec (Zpos m) 4503599627370496) as [Heq | Hlt | Hgt];
      [reflexivity | lia | reflexivity].
Qed.

End Rounding.

(** ** Checking finitely many counts by evaluation *)

Lemma same_eq (x y : number) : same x y = true -> x = y.
Proof.
  destruct x as [s | s | | s m e], y as [s' | s' | | s' m' e'];
    cbn [same]; try discriminate; try reflexivity.
  - intros H. apply Bool.eqb_prop in H. congruence.
  - intros H. apply Bool.eqb_prop in H. congruence.
  - intros H. apply andb_prop in H as [H He]. apply andb_prop in H as [Hs Hm].
    apply Bool.eqb_prop in Hs. apply Pos.eqb_eq in Hm. apply Z.eqb_eq in He.
    congruence.
Qed.

Lemma range_forall (P : Z -> bool) (lo : Z) (len : nat) :
  forallb P (range lo len) = true ->
  forall n, lo <= n < lo + Z.of_nat len -> P n = true.
Proof.
  intros H n Hn. rewrite forallb_forall in H. apply H.
  unfold range. apply in_map_iff. exists (Z.to_nat (n - lo)).
  split; [lia | apply in_seq; lia].
Qed.

(** ** Saturation of the fill level *)

Lemma fillLevel_200_255 :
  forallb (fun n => same (fillLevel #n%js) #1%js) (range 200 56) = true.
Proof. vm_compute. reflexivity. Qed.

Lemma fillLevel_saturates (n : Z) : 200 <= n -> fillLevel #n%js = #1%js.
Proof.
  intros Hn. destruct (Z_lt_le_dec n 256) as [Hlt | Hge].
  - apply same_eq.
    apply (range_forall _ 200 56 fillLevel_200_255). lia.
  - unfold fillLevel. apply Rounding.min_one_above.
    change 0 with (8 - 8). apply Rounding.div_200_above; [ | lia].
    apply Rounding.of_Z_above; lia.
Qed.


(** ** The exact ratio of the specification *)

Lemma ratio_exact_saturates (n : Z) :
  200 <= n ->
  ratio_exact n = QArith_base.Qmake 1 1 \/ ratio_exact n = QArith_base.Qmake 200 200.
Proof.
  intros Hn. unfold ratio_exact, Qminmax.Qmin, GenericMinMax.gmin, QArith_base.Qcompare.
  cbn [QArith_base.Qnum QArith_base.Qden].
  destruct (Z.compare_spec (n * 1) (1 * 200)) as [E | E | E]; [ | lia | left; reflexivity].
  right. replace n with 200 by lia. reflexivity.
Qed.

Lemma percentage_exact_saturates (n : Z) : 200 <= n -> percentage_exact n = 100.
Proof.
  intros Hn. unfold percentage_exact.
  destruct (ratio_exact_saturates n Hn) as [-> | ->]; vm_compute; reflexivity.
Qed.

Lemma markers_exact_saturates (n : Z) : 200 <= n -> markers_exact n = 50.
Proof.
  intros Hn. unfold markers_exact.
  destruct (ratio_exact_saturates n Hn) as [-> | ->]; vm_compute; reflexivity.
Qed.

(** ** The derived state *)

Lemma fillLevel_below_200 :
  forallb (fun n => same (fillLevel #n%js) (#n / #200)%js
                    && same (fillLevel #n%js) (clamp (#n / #200) #0 #1)%js
                    && (fillLevel #n < #1)%js)
          (range 0 200) = true.
Proof. vm_compute. reflexivity. Qed.

(** C1.  For every non-negative integer pledge count the fill ratio is
    clamp(count / 200, 0, 1), that is min(count / 200, 1): it is
    count / 200 below 200 pledges and exactly 1 from 200 pledges on. *)
Theorem fillLevel_is_clamped_ratio (n : Z) :
  0 <= n ->
  fillLevel #n%js = clamp (#n / #200)%js #0%js #1%js /\
  fillLevel #n%js = Math_min (#n / #200)%js #1%js /\
  fillLevel #n%js = if n <? 200 then (#n / #200)%js else #1%js.
Proof.
  intros Hn. destruct (Z.ltb_spec n 200) as [Hlt | Hge].
  - pose proof (range_forall _ 0 200 fillLevel_below_200 n ltac:(lia)) as H.
    apply andb_prop in H as [H _]. apply andb_prop in H as [H1 H2].
    apply same_eq in H1, H2. auto.
  - pose proof (fillLevel_saturates n Hge) as H.
    split; [ | split; [reflexivity | exact H]].
    unfold clamp. change (Math_min (#n / #200)%js #1%js) with (fillLevel #n%js).
    rewrite H. reflexivity.
Qed.

Lemma fillLevel_is_clamped_ratio_witness :
  fillLevel #57%js = clamp (#57 / #200)%js #0%js #1%js /\
  fillLevel #57%js = Math_min (#57 / #200)%js #1%js /\
  fillLevel #57%js = (#57 / #200)%js.
Proof. apply (fillLevel_is_clamped_ratio 57). lia. Defined.

Lemma increasing_nth (l : list number) (d : number) :
  increasing l = true ->
  forall i j, (i < j < length l)%nat -> (nth i l d < nth j l d)%js = true.
Proof.
  induction l as [ | x l IH]; intros H i j Hij; cbn [length] in Hij; [lia | ].
  cbn [increasing] in H. apply andb_prop in H as [H1 H2].
  destruct j as [ | j]; [lia | ]. destruct i as [ | i]; cbn [nth].
  - rewrite forallb_forall in H1. apply H1, nth_In. lia.
  - apply IH; [exact H2 | lia].
Qed.

Lemma range_nth (lo : Z) (len i : nat) (d : Z) :
  (i < len)%nat -> nth i (range lo len) d = lo + Z.of_nat i.
Proof.
  intros Hi. unfold range.
  rewrite (nth_indep _ d (lo + Z.of_nat 0)) by (rewrite length_map, length_seq; exact Hi).
  rewrite (map_nth (fun i => lo + Z.of_nat i)), seq_nth by exact Hi.
  reflexivity.
Qed.

Lemma increasing_range (f : Z -> number) (lo : Z) (len : nat) :
  increasing (map f (range lo len)) = true ->
  forall x y, lo <= x -> x < y -> y < lo + Z.of_nat len -> (f x < f y)%js = true.
Proof.
  intros H x y Hx Hxy Hy.
  assert (Hlen : length (range lo len) = len)
    by (unfold range; rewrite length_map, length_seq; reflexivity).
  pose proof (increasing_nth _ (f lo) H (Z.to_nat (x - lo)) (Z.to_nat (y - lo))) as Hn.
  rewrite length_map, Hlen in Hn. specialize (Hn ltac:(lia)).
  rewrite !(map_nth f), !range_nth in Hn by lia.
  replace (lo + Z.of_nat (Z.to_nat (x - lo))) with x in Hn by lia.
  replace (lo + Z.of_nat (Z.to_nat (y - lo))) with y in Hn by lia.
  exact Hn.
Qed.

Lemma fillLevels_increasing :
  increasing (map (fun n => fillLevel #n%js) (range 0 200)) = true.
Proof. vm_compute. reflexivity. Qed.

Lemma fillLevel_increasing (x y : Z) :
  0 <= x -> x < y -> y < 200 -> (fillLevel #x < fillLevel #y)%js = true.
Proof.
  intros Hx Hxy Hy.
  apply (increasing_range (fun n => fillLevel #n%js) 0 200 fillLevels_increasing); lia.
Qed.

(** C9.  The fill ratio is non-decreasing in the pledge count, strictly
    increasing as long as the smaller count is below 200, and constant at
    1 from 200 pledges on. *)
Theorem fillLevel_monotone (a b : Z) :
  0 <= a <= b ->
  le (fillLevel #a%js) (fillLevel #b%js) = true /\
  (a < b -> a < 200 -> (fillLevel #a < fillLevel #b)%js = true) /\
  (200 <= a -> fillLevel #a%js = #1%js /\ fillLevel #b%js = #1%js).
Proof.
  intros [Ha Hab].
  assert (Hlt1 : forall n, 0 <= n < 200 -> (fillLevel #n < #1)%js = true).
  { intros n Hn.
    pose proof (range_forall _ 0 200 fillLevel_below_200 n ltac:(lia)) as H.
    apply andb_prop in H as [_ H]. exact H. }
  assert (Hrefl : forall n, 0 <= n < 200 ->
            le (fillLevel #n%js) (fillLevel #n%js) = true).
  { intros n Hn. specialize (Hlt1 n Hn). revert Hlt1.
    unfold lt, le, SFltb, SFleb.
    destruct (fillLevel #n%js) as [s | s | | s m e]; cbn [SFcompare];
      try discriminate; try reflexivity.
    - destruct s; reflexivity.
    - intros _. rewrite Z.compare_refl, Rounding.compare_cont_Eq, Z.compare_refl.
      destruct s; reflexivity. }
  assert (Hle : forall x y : number, (x < y)%js = true -> le x y = true).
  { intros x y. unfold lt, le, SFltb, SFleb.
    destruct (SFcompare x y) as [[ | | ] | ]; auto. }
  destruct (Z_lt_le_dec b 200) as [Hb | Hb].
  - split; [ | split; [intros; apply fillLevel_increasing; lia | lia]].
    destruct (Z.eq_dec a b) as [<- | E];
      [apply Hrefl; lia | apply Hle, fillLevel_increasing; lia].
  - rewrite (fillLevel_saturates b Hb).
    destruct (Z_lt_le_dec a 200) as [Ha' | Ha'].
    + split; [apply Hle, Hlt1; lia | split; [intros; apply Hlt1; lia | lia]].
    + rewrite (fillLevel_saturates a Ha').
      split; [reflexivity | split; [lia | auto]].
Qed.

Lemma fillLevel_monotone_witness :
  le (fillLevel #57%js) (fillLevel #300%js) = true /\
  (57 < 300 -> 57 < 200 -> (fillLevel #57 < fillLevel #300)%js = true) /\
  (200 <= 57 -> fillLevel #57%js = #1%js /\ fillLevel #300%js = #1%js).
Proof. apply (fillLevel_monotone 57 300). lia. Defined.

Lemma fillPercentage_below_200 :
  forallb (fun n => same (fillPercentage #n%js) #(ToLength (fillPercentage #n%js))%js
                    && (ToLength (fillPercentage #n%js) <=? 100))
          (range 0 200) = true.
Proof. vm_compute. reflexivity. Qed.

Lemma percent_range :
  forallb (fun k => le #0%js #k%js && le #k%js #100%js) (range 0 101) = true.
Proof. vm_compute. reflexivity. Qed.

(** ** The status messages *)

Lemma dec_25_100 : dec 25 100 = S754_finite false 4503599627370496 (-54).
Proof. vm_compute. reflexivity. Qed.

Lemma dec_5_10 : dec 5 10 = S754_finite false 4503599627370496 (-53).
Proof. vm_compute. reflexivity. Qed.

Lemma dec_75_100 : dec 75 100 = S754_finite false 6755399441055744 (-53).
Proof. vm_compute. reflexivity. Qed.

Lemma of_Z_1 : #1%js = S754_finite false 4503599627370496 (-52).
Proof. vm_compute. reflexivity. Qed.

(** Below a positive threshold means not at or above a larger one. *)
Lemma lt_then_not_ge (r : number) (mc : positive) (ec : Z) (mc' : positive) (ec' : Z) :
  ec < ec' \/ (ec = ec' /\ Zpos mc <= Zpos mc') ->
  (r < S754_finite false mc ec)%js = true ->
  (r >= S754_finite false mc' ec')%js = false.
Proof.
  intros Hc.
  destruct r as [s | [ | ] | | [ | ] m e]; unfold lt, ge, SFltb, SFleb, SFcompare;
    try reflexivity; try discriminate.
  rewrite !Rounding.compare_cont_Eq.
  destruct (Z.compare_spec e ec); destruct (Z.compare_spec ec' e);
    try discriminate; try reflexivity; try lia;
    destruct (Z.compare_spec (Zpos m) (Zpos mc));
    destruct (Z.compare_spec (Zpos mc') (Zpos m));
    try discriminate; try reflexivity; lia.
Qed.

(** A Number that is not below a threshold is at or above it. *)
Lemma not_lt_then_ge (r : number) (mc : positive) (ec : Z) :
  is_nan r = false ->
  (r < S754_finite false mc ec)%js = false ->
  (r >= S754_finite false mc ec)%js = true.
Proof.
  destruct r as [s | [ | ] | | [ | ] m e]; unfold lt, ge, SFltb, SFleb, SFcompare;
    cbn [is_nan]; try reflexivity; try discriminate.
  intros _. rewrite !Rounding.compare_cont_Eq.
  destruct (Z.compare_spec e ec); destruct (Z.compare_spec ec e);
    try discriminate; try reflexivity; try lia;
    destruct (Z.compare_spec (Zpos m) (Zpos mc));
    destruct (Z.compare_spec (Zpos mc) (Zpos m));
    try discriminate; try reflexivity; lia.
Qed.


(** The five conditionals render what the first matching one selects. *)
Lemma statusMessages_tier (r : number) :
  statusMessages r = match tier r with Some t => [t] | None => [] end.
Proof.
  unfold statusMessages, tier.
  rewrite dec_25_100, dec_5_10, dec_75_100, of_Z_1.
  assert (Hx : forall mc ec, (r < S754_finite false mc ec)%js = true ->
            forall mc' ec', ec < ec' \/ (ec = ec' /\ Zpos mc <= Zpos mc') ->
            (r >= S754_finite false mc' ec')%js = false).
  { intros mc ec H mc' ec' Hc. exact (lt_then_not_ge r mc ec mc' ec' Hc H). }
  destruct (r < S754_finite false 4503599627370496 (-54))%js eqn:A.
  { rewrite (Hx _ _ A 4503599627370496%positive (-54)),
            (Hx _ _ A 4503599627370496%positive (-53)),
            (Hx _ _ A 6755399441055744%positive (-53)),
            (Hx _ _ A 4503599627370496%positive (-52)) by lia.
    reflexivity. }
  destruct (r < S754_finite false 4503599627370496 (-53))%js eqn:B.
  { rewrite (Hx _ _ B 4503599627370496%positive (-53)),
            (Hx _ _ B 6755399441055744%positive (-53)),
            (Hx _ _ B 4503599627370496%positive (-52)) by lia.
    destruct (r >= S754_finite false 4503599627370496 (-54))%js; reflexivity. }
  destruct (r < S754_finite false 6755399441055744 (-53))%js eqn:C.
  { rewrite (Hx _ _ C 6755399441055744%positive (-53)),
            (Hx _ _ C 4503599627370496%positive (-52)) by lia.
    destruct (r >= S754_finite false 4503599627370496 (-54))%js;
    destruct (r >= S754_finite false 4503599627370496 (-53))%js; reflexivity. }
  destruct (r < S754_finite false 4503599627370496 (-52))%js eqn:D.
  { rewrite (Hx _ _ D 4503599627370496%positive (-52)) by lia.
    destruct (r >= S754_finite false 4503599627370496 (-54))%js;
    destruct (r >= S754_finite false 4503599627370496 (-53))%js;
    destruct (r >= S754_finite false 6755399441055744 (-53))%js; reflexivity. }
  destruct (r >= S754_finite false 4503599627370496 (-54))%js;
  destruct (r >= S754_finite false 4503599627370496 (-53))%js;
  destruct (r >= S754_finite false 6755399441055744 (-53))%js;
  destruct (r >= S754_finite false 4503599627370496 (-52))%js; reflexivity.
Qed.

Lemma Tier_eqb_eq (a b : Tier) : Tier_eqb a b = true -> a = b.
Proof. destruct a, b; cbn; congruence. Qed.

Lemma tier_below_200 :
  forallb (fun n => match tier (fillLevel #n%js) with
                    | Some t => Tier_eqb t (tier_of_count n)
                    | None => false
                    end) (range 0 200) = true.
Proof. vm_compute. reflexivity. Qed.

Lemma tier_of_fillLevel (n : Z) :
  0 <= n -> tier (fillLevel #n%js) = Some (tier_of_count n).
Proof.
  intros Hn. destruct (Z_lt_le_dec n 200) as [Hlt | Hge].
  - pose proof (range_forall _ 0 200 tier_below_200 n ltac:(lia)) as H.
    cbv beta in H. destruct (tier (fillLevel #n%js)) as [t | ]; [ | discriminate].
    apply Tier_eqb_eq in H. congruence.
  - rewrite (fillLevel_saturates n Hge).
    unfold tier_of_count.
    destruct (Z.ltb_spec n 50); [lia | ]. destruct (Z.ltb_spec n 100); [lia | ].
    destruct (Z.ltb_spec n 150); [lia | ]. destruct (Z.ltb_spec n 200); [lia | ].
    vm_compute. reflexivity.
Qed.

(** A Number that is not NaN falls in one of the five brackets. *)
Lemma tier_total (r : number) : is_nan r = false -> exists t, tier r = Some t.
Proof.
  intros Hr. unfold tier.
  rewrite dec_25_100, dec_5_10, dec_75_100, of_Z_1.
  destruct (r < S754_finite false 4503599627370496 (-54))%js eqn:A; [cbn; eauto | ].
  rewrite (not_lt_then_ge r _ _ Hr A).
  destruct (r < S754_finite false 4503599627370496 (-53))%js eqn:B; [cbn; eauto | ].
  rewrite (not_lt_then_ge r _ _ Hr B).
  destruct (r < S754_finite false 6755399441055744 (-53))%js eqn:C; [cbn; eauto | ].
  rewrite (not_lt_then_ge r _ _ Hr C).
  destruct (r < S754_finite false 4503599627370496 (-52))%js eqn:D; [cbn; eauto | ].
  rewrite (not_lt_then_ge r _ _ Hr D). cbn. eauto.
Qed.

(** ** Numbers of the unit interval *)

Lemma valid_mantissa (s : bool) (m : positive) (e : Z) :
  valid (S754_finite s m e) = true ->
  Zpos m < 2 ^ 53 /\ -1074 <= e /\ (e = -1074 \/ 2 ^ 52 <= Zpos m).
Proof.
  unfold valid, valid_binary, bounded, canonical_mantissa.
  intros H. apply andb_prop in H as [H _]. apply Z.eqb_eq in H.
  rewrite Rounding.fexp_eq in H.
  pose proof (Rounding.digits2_pos_bounds m) as [Hlo Hhi].
  assert (Hd : Zpos (digits2_pos m) <= 53) by lia.
  split.
  - apply Z.lt_le_trans with (1 := Hhi). apply Z.pow_le_mono_r; lia.
  - split; [lia | ].
    destruct (Z.eq_dec e (-1074)) as [He | He]; [left; exact He | right].
    replace (Zpos (digits2_pos m)) with 53 in Hlo by lia. exact Hlo.
Qed.

(** A valid Number of [0, 1] is a zero or a positive Number of magnitude
    at most 2^0. *)
Lemma unit_below (r : number) :
  valid r = true -> le #0%js r = true -> le r #1%js = true ->
  (exists s, r = S754_zero s) \/
  (exists m e, r = S754_finite false m e /\ below false 0 r).
Proof.
  intros Hv H0 H1. rewrite of_Z_1 in H1.
  destruct r as [s | s | | s m e].
  - left. eauto.
  - destruct s; discriminate.
  - discriminate.
  - right. destruct s; [discriminate | ].
    exists m, e. split; [reflexivity | ].
    destruct (valid_mantissa _ _ _ Hv) as [Hm [He Hn]].
    cbn [below]. split; [reflexivity | split; [exact Hm | ]].
    unfold le, SFleb, SFcompare in H1. rewrite Rounding.compare_cont_Eq in H1.
    destruct (Z.compare_spec e (-52)) as [He' | He' | He']; [ | lia | discriminate].
    destruct (Z.compare_spec (Zpos m) 4503599627370496); try discriminate; lia.
Qed.

Lemma below_mono (s : bool) (k k' : Z) (x : number) :
  k < k' -> below s k x -> below s k' x.
Proof.
  intros Hk. destruct x as [s' | s' | | s' m e]; cbn [below]; auto.
  intros [Hs [Hm He]]. split; [exact Hs | split; [exact Hm | lia]].
Qed.

Lemma below_upto (s : bool) (k : Z) (x : number) :
  below s k x -> upto (2 ^ 52) (k - 52) x.
Proof.
  destruct x as [s' | s' | | s' m e]; cbn [below upto]; auto.
  intros [Hs [Hm He]]. split; [exact Hm | lia].
Qed.

(** The product of a finite Number by a normal one, rounded. *)
Lemma mul_below (sx : bool) (mx : positive) (ex : Z)
    (sy : bool) (my : positive) (ey : Z) (k : Z) :
  2 ^ 52 <= Zpos my ->
  Zdigits2 (Zpos mx * Zpos my) + ex + ey <= k ->
  -1021 <= k <= 1023 ->
  below (xorb sx sy) k (S754_finite sx mx ex * S754_finite sy my ey)%js.
Proof.
  intros Hy Hd Hk. unfold mul. cbn [SFmul].
  rewrite Pos2Z.inj_mul.
  assert (H52 : 53 <= Zdigits2 (Zpos mx * Zpos my)).
  { apply Rounding.Zdigits2_ge; [ | lia]. nia. }
  apply Rounding.binary_round_aux_below; rewrite ?Rounding.fexp_eq; lia.
Qed.

Lemma mul_zero_l (s sy : bool) (my : positive) (ey : Z) :
  (S754_zero s * S754_finite sy my ey)%js = S754_zero (xorb s sy).
Proof. reflexivity. Qed.

(** A fill level of [0, 1] times a small integer constant [c] (50 for the
    3D particles, 10 for the overlay) stays below 2^6. *)
Lemma level_times (r : number) (c : Z) :
  valid r = true -> le #0%js r = true -> le r #1%js = true ->
  c = 50 \/ c = 10 ->
  (exists s, (r * #c)%js = S754_zero s) \/ below false 6 (r * #c)%js.
Proof.
  intros Hv H0 H1 Hc.
  assert (Hc' : exists my ey, #c%js = S754_finite false my ey /\
                  2 ^ 52 <= Zpos my < 2 ^ 53 /\ ey <= -47 /\
                  below false 6 (#1 * #c)%js).
  { destruct Hc as [-> | ->].
    - exists 7036874417766400%positive, (-47). vm_compute. intuition congruence.
    - exists 5629499534213120%positive, (-49). vm_compute. intuition congruence. }
  destruct Hc' as [my [ey [-> [Hmy [Hey H1c]]]]].
  destruct (unit_below r Hv H0 H1) as [[s ->] | [m [e [-> Hb]]]].
  - left. rewrite mul_zero_l. eauto.
  - right. cbn [below] in Hb. destruct Hb as [_ [Hm [He | [He Hm']]]].
    + change false with (xorb false false). apply mul_below; [lia | | lia].
      pose proof (Rounding.Zdigits2_mul (Zpos m) (Zpos my) ltac:(lia) ltac:(lia)).
      assert (Zdigits2 (Zpos m) <= 53) by (apply Rounding.Zdigits2_le; lia).
      assert (Zdigits2 (Zpos my) <= 53) by (apply Rounding.Zdigits2_le; lia).
      lia.
    + subst e. replace m with 4503599627370496%positive by lia.
      rewrite of_Z_1 in H1c. exact H1c.
Qed.

(** ** The two particle systems: how many markers *)

Lemma floor_small (y : number) :
  below false 6 y ->
  exists z, 0 <= z <= 64 /\
    Math_floor y = integral z.
Proof.
  destruct y as [s | s | | s m e]; cbn [below]; try contradiction.
  - intros ->. exists 0. split; [lia | reflexivity].
  - intros [-> [Hm He]].
    exists (Zpos m / 2 ^ (- e)).
    assert (Hp : 0 < 2 ^ (- e)) by (apply Z.pow_pos_nonneg; lia).
    split.
    + split; [apply Z.div_pos; lia | ].
      destruct He as [He | [-> Hm']].
      * apply Z.le_trans with (Zpos m / 2 ^ 47).
        -- apply Z.div_le_compat_l; [lia | ].
           split; [lia | apply Z.pow_le_mono_r; lia].
        -- assert (Zpos m / 2 ^ 47 < 64) by (apply Z.div_lt_upper_bound; lia). lia.
      * rewrite Hm'. vm_compute. discriminate.
    + unfold Math_floor. destruct (Z.leb_spec 0 e) as [Hge | _]; [lia | ].
      cbn [signed]. rewrite Z.shiftr_div_pow2 by lia. reflexivity.
Qed.

Lemma Array_from_small :
  forallb (fun z =>
    (ToLength (integral z) =? z) && strict_eq #z%js (integral z)) (range 0 65) = true.
Proof. vm_compute. reflexivity. Qed.

(** The markers of a particle system: [Array.from] succeeds and the array
    has [Math.floor(fillLevel * c)] elements. *)
Lemma markers_count (r : number) (c : Z) :
  valid r = true -> le #0%js r = true -> le r #1%js = true ->
  c = 50 \/ c = 10 ->
  exists z, 0 <= z <= 64 /\
    Array_from_length (Math_floor (r * #c)%js) = Some (seq 0 (Z.to_nat z)) /\
    strict_eq #z%js (Math_floor (r * #c)%js) = true.
Proof.
  intros Hv H0 H1 Hc.
  destruct (level_times r c Hv H0 H1 Hc) as [[s ->] | Hb].
  - exists 0. split; [lia | ]. destruct s; split; reflexivity.
  - destruct (floor_small _ Hb) as [z [Hz ->]].
    exists z. split; [exact Hz | ].
    pose proof (range_forall _ 0 65 Array_from_small z ltac:(lia)) as H.
    cbv beta zeta in H. apply andb_prop in H as [H1' H2]. apply Z.eqb_eq in H1'.
    split; [ | exact H2].
    unfold Array_from_length. cbv zeta. rewrite H1'.
    destruct (Z.leb_spec z (2 ^ 32 - 1)); [reflexivity | lia].
Qed.

(** ** Mapping a callback that draws random numbers *)

Lemma mapM_cons {A B : Type} (f : A -> M B) (a : A) (l : list A) (rng : Rng) :
  mapM f (a :: l) rng =
  (fst (f a rng) :: fst (mapM f l (snd (f a rng))),
   snd (mapM f l (snd (f a rng)))).
Proof.
  cbn [mapM]. unfold bind, ret.
  destruct (f a rng) as [b r']. cbn [fst snd].
  destruct (mapM f l r') as [bs r'']. reflexivity.
Qed.

Lemma mapM_length {A B : Type} (f : A -> M B) (l : list A) (rng : Rng) :
  length (fst (mapM f l rng)) = length l.
Proof.
  revert rng. induction l as [ | a l IH]; intros rng; [reflexivity | ].
  rewrite mapM_cons. cbn [fst length]. rewrite IH. reflexivity.
Qed.

(** A field that the callback computes from the element alone is the same
    whatever the generator returns. *)
Lemma mapM_map {A B C : Type} (f : A -> M B) (g : B -> C) (h : A -> C)
    (l : list A) (rng : Rng) :
  (forall a r, g (fst (f a r)) = h a) ->
  map g (fst (mapM f l rng)) = map h l.
Proof.
  intros Hf. revert rng. induction l as [ | a l IH]; intros rng; [reflexivity | ].
  rewrite mapM_cons. cbn [fst map]. rewrite IH, Hf. reflexivity.
Qed.

(** A property of the stream that survives each call passes to every
    element. *)
Lemma mapM_Forall {A B : Type} (f : A -> M B) (P : B -> Prop) (I : Rng -> Prop)
    (l : list A) (rng : Rng) :
  (forall a r, I r -> P (fst (f a r)) /\ I (snd (f a r))) ->
  I rng -> Forall P (fst (mapM f l rng)).
Proof.
  intros Hf. revert rng. induction l as [ | a l IH]; intros rng Hr.
  - constructor.
  - rewrite mapM_cons. cbn [fst]. destruct (Hf a rng Hr) as [HP HI].
    constructor; [exact HP | apply IH; exact HI].
Qed.

(** ** The floating health particles of the overlay *)

Lemma floating_spots :
  forallb (fun i => same (#10 + #i * #8)%js #(10 + 8 * i)%js
                    && same (#15 + #i * #6)%js #(15 + 6 * i)%js)
          (range 0 65) = true.
Proof. vm_compute. reflexivity. Qed.

Lemma floatingParticles_some (r : number) (rng : Rng) (z : Z) :
  Array_from_length (Math_floor (r * #10)%js) = Some (seq 0 (Z.to_nat z)) ->
  fst (floatingParticles r rng) =
  Some (fst (mapM floating (seq 0 (Z.to_nat z)) rng)).
Proof.
  intros H. unfold floatingParticles. rewrite H. unfold bind, ret.
  destruct (mapM floating (seq 0 (Z.to_nat z)) rng) as [fs r']. reflexivity.
Qed.

Lemma floating_fields (l : list nat) (rng : Rng) :
  map (fun f => (fkey f, left f, top f)) (fst (mapM floating l rng)) =
  map (fun i => (i, (#10 + #(Z.of_nat i) * #8)%js, (#15 + #(Z.of_nat i) * #6)%js)) l.
Proof. apply mapM_map. intros a r. reflexivity. Qed.

(** C8.  For every fill ratio of [0, 1] the overlay renders exactly
    floor(ratio * 10) floating markers; marker i sits at left = 10 + 8 i
    percent and top = 15 + 6 i percent, whatever the random generator
    returns; 0 pledges give no marker and 200 pledges give exactly 10. *)
Theorem overlay_markers (r : number) (rng rng' : Rng) :
  valid r = true -> le #0%js r = true -> le r #1%js = true ->
  exists fs fs',
    fst (floatingParticles r rng) = Some fs /\
    fst (floatingParticles r rng') = Some fs' /\
    strict_eq #(Z.of_nat (length fs))%js (Math_floor (r * #10)%js) = true /\
    map (fun f => (fkey f, left f, top f)) fs =
      map (fun i => (i, #(10 + 8 * Z.of_nat i)%js, #(15 + 6 * Z.of_nat i)%js))
          (seq 0 (length fs)) /\
    map (fun f => (fkey f, left f, top f)) fs' =
      map (fun f => (fkey f, left f, top f)) fs /\
    fst (floatingParticles (fillLevel #0%js) rng) = Some [] /\
    option_map (@length Floating) (fst (floatingParticles (fillLevel #200%js) rng))
      = Some 10%nat.
Proof.
  intros Hv H0 H1.
  destruct (markers_count r 10 Hv H0 H1 ltac:(lia)) as [z [Hz [Ha He]]].
  exists (fst (mapM floating (seq 0 (Z.to_nat z)) rng)),
         (fst (mapM floating (seq 0 (Z.to_nat z)) rng')).
  rewrite !mapM_length, !length_seq, Z2Nat.id by lia.
  split; [apply floatingParticles_some; exact Ha | ].
  split; [apply floatingParticles_some; exact Ha | ].
  split; [exact He | ].
  rewrite !floating_fields.
  split; [ | split; [reflexivity | split; reflexivity]].
  apply map_ext_in. intros i Hi. apply in_seq in Hi.
  pose proof (range_forall _ 0 65 floating_spots (Z.of_nat i) ltac:(lia)) as H.
  cbv beta in H. apply andb_prop in H as [Hl Ht].
  apply same_eq in Hl, Ht. rewrite Hl, Ht. reflexivity.
Qed.

Lemma overlay_markers_witness :
  exists fs fs',
    fst (floatingParticles (dec 58 100) (fun _ => dec 1 10)) = Some fs /\
    fst (floatingParticles (dec 58 100) (fun _ => dec 9 10)) = Some fs' /\
    strict_eq #(Z.of_nat (length fs))%js (Math_floor (dec 58 100 * #10)%js) = true /\
    map (fun f => (fkey f, left f, top f)) fs =
      map (fun i => (i, #(10 + 8 * Z.of_nat i)%js, #(15 + 6 * Z.of_nat i)%js))
          (seq 0 (length fs)) /\
    map (fun f => (fkey f, left f, top f)) fs' =
      map (fun f => (fkey f, left f, top f)) fs /\
    fst (floatingParticles (fillLevel #0%js) (fun _ => dec 1 10)) = Some [] /\
    option_map (@length Floating)
      (fst (floatingParticles (fillLevel #200%js) (fun _ => dec 1 10))) = Some 10%nat.
Proof.
  apply (overlay_markers (dec 58 100) (fun _ => dec 1 10) (fun _ => dec 9 10));
    reflexivity.
Defined.

(** ** The fill-level indicator particles: where they are *)

Lemma unit_interval_cases (u : number) :
  unit_interval u = true ->
  (exists s, u = S754_zero s) \/
  (exists m e, u = S754_finite false m e /\ Zpos m < 2 ^ 53 /\ -1074 <= e <= -53).
Proof.
  unfold unit_interval. intros H.
  apply andb_prop in H as [H H1]. apply andb_prop in H as [Hv H0].
  rewrite of_Z_1 in H1.
  destruct u as [s | s | | s m e].
  - left. eauto.
  - destruct s; discriminate.
  - discriminate.
  - right. destruct s; [discriminate | ].
    exists m, e. split; [reflexivity | ].
    destruct (valid_mantissa _ _ _ Hv) as [Hm [He Hn]].
    split; [exact Hm | ].
    unfold lt, SFltb, SFcompare in H1. rewrite Rounding.compare_cont_Eq in H1.
    destruct (Z.compare_spec e (-52)) as [He' | He' | He']; [ | lia | discriminate].
    destruct (Z.compare_spec (Zpos m) 4503599627370496); try discriminate; lia.
Qed.

(** A draw of [Math.random] minus 0.5 has magnitude at most 0.5. *)
Lemma sub_half (u : number) :
  unit_interval u = true ->
  (exists s, (u - dec 5 10)%js = S754_zero s) \/
  (exists s m e, (u - dec 5 10)%js = S754_finite s m e /\
                 below s (-1) (S754_finite s m e)).
Proof.
  intros Hu. rewrite dec_5_10.
  destruct (unit_interval_cases u Hu) as [[s ->] | [m [e [-> [Hm He]]]]].
  - right. exists true, 4503599627370496%positive, (-53).
    split; [reflexivity | ]. cbn [below]. split; [reflexivity | ]. lia.
  - unfold sub, SFsub. cbn [cond_Zopp].
    replace (Z.min e (-53)) with e by lia.
    destruct (Rounding.shl_align_spec m e e) as [_ ->].
    destruct (Rounding.shl_align_spec 4503599627370496 (-53) e) as [_ ->].
    replace (e - Z.min e e) with 0 by lia.
    replace (-53 - Z.min (-53) e) with (-53 - e) by lia.
    change (Zpos 4503599627370496) with (2 ^ 52).
    rewrite <- Z.pow_add_r by lia.
    replace (52 + (-53 - e)) with (-1 - e) by lia.
    rewrite Z.pow_0_r, Z.mul_1_r.
    assert (HP : 2 ^ 53 <= 2 * 2 ^ (-1 - e)).
    { rewrite <- Z.pow_succ_r by lia. apply Z.pow_le_mono_r; lia. }
    destruct (Zpos m - 2 ^ (-1 - e)) as [ | p | p] eqn:Ed; cbn [binary_normalize].
    + left. eauto.
    + pose proof (Rounding.binary_round_below false p e (-1)) as Hb.
      assert (Hd : Zdigits2 (Zpos p) <= -1 - e) by (apply Rounding.Zdigits2_le; lia).
      specialize (Hb ltac:(lia) ltac:(lia)).
      destruct (binary_round prec emax false p e) as [s' | s' | | s' m' e'];
        cbn [below] in Hb; try contradiction; [left; eauto | ].
      right. destruct Hb as [-> Hb]. exists false, m', e'.
      split; [reflexivity | cbn [below]; auto].
    + pose proof (Rounding.binary_round_below true p e (-1)) as Hb.
      assert (Hd : Zdigits2 (Zpos p) <= -1 - e) by (apply Rounding.Zdigits2_le; lia).
      specialize (Hb ltac:(lia) ltac:(lia)).
      destruct (binary_round prec emax true p e) as [s' | s' | | s' m' e'];
        cbn [below] in Hb; try contradiction; [left; eauto | ].
      right. destruct Hb as [-> Hb]. exists true, m', e'.
      split; [reflexivity | cbn [below]; auto].
Qed.

Lemma upto_le (mc : positive) (ec : Z) (x : number) :
  upto (Zpos mc) ec x ->
  le (S754_finite true mc ec) x = true /\ le x (S754_finite false mc ec) = true.
Proof.
  destruct x as [[ | ] | s | | [ | ] m e]; cbn [upto]; try contradiction;
    try (intros _; split; reflexivity);
    intros [Hm He]; unfold le, SFleb, SFcompare; rewrite ?Rounding.compare_cont_Eq.
  - split; [ | reflexivity].
    destruct (Z.compare_spec ec e); [ | lia | reflexivity].
    destruct (Z.compare_spec (Zpos mc) (Zpos m)); [reflexivity | lia | reflexivity].
  - split; [reflexivity | ].
    destruct (Z.compare_spec e ec); [ | reflexivity | lia].
    destruct (Z.compare_spec (Zpos m) (Zpos mc)); [reflexivity | reflexivity | lia].
Qed.

Lemma upto_mono (mc mc' ec : Z) (x : number) :
  mc <= mc' -> upto mc ec x -> upto mc' ec x.
Proof.
  intros Hc. destruct x as [s | s | | s m e]; cbn [upto]; auto.
  intros [Hm He]. split; [exact Hm | lia].
Qed.

(** The product by 1.5 of a Number of magnitude below 0.5 stays within
    0.75: the one product of the three whose bound is not a power of 2. *)
Lemma mul_15 (s : bool) (m : positive) (e : Z) :
  Zpos m < 2 ^ 53 -> e <= -54 ->
  upto 6755399441055744 (-53)
       (S754_finite s m e * S754_finite false 6755399441055744 (-52))%js.
Proof.
  intros Hm He.
  set (M := Zpos m * 6755399441055744).
  assert (HM : 0 < M) by (unfold M; lia).
  assert (HM' : M < 2 ^ 106) by (unfold M; lia).
  destruct (Z_lt_le_dec M (2 ^ 105)) as [Hlt | Hge];
    [ | destruct (Z_le_gt_dec e (-55)) as [He' | He'] ].
  - apply upto_mono with (mc := 2 ^ 52); [lia | ].
    apply (below_upto (xorb s false) (-1)).
    apply mul_below; [lia | | lia]. fold M.
    assert (Zdigits2 M <= 105) by (apply Rounding.Zdigits2_le; lia). lia.
  - apply upto_mono with (mc := 2 ^ 52); [lia | ].
    apply (below_upto (xorb s false) (-1)).
    apply mul_below; [lia | | lia]. fold M.
    assert (Zdigits2 M <= 106) by (apply Rounding.Zdigits2_le; lia). lia.
  - assert (e = -54) by lia. subst e.
    unfold mul. cbn [SFmul]. rewrite Pos2Z.inj_mul. fold M.
    destruct (Rounding.binary_round_aux_spec (xorb s false) M (-54 + -52) loc_Exact HM)
      as [Hm1 [m2 [Hm2 ->]]].
    assert (Hd : Zdigits2 M = 106) by (apply Rounding.Zdigits2_unique; lia).
    rewrite Hd, Rounding.fexp_eq in *.
    replace (Z.max (-54 + -52) (Z.max (106 + (-54 + -52) - 53) (-1074))) with (-53) in * by lia.
    replace (-53 - (-54 + -52)) with 53 in * by lia.
    assert (Hlo : 2 ^ 52 <= M / 2 ^ 53) by (apply Z.div_le_lower_bound; lia).
    assert (Hhi : M / 2 ^ 53 < 6755399441055744)
      by (apply Z.div_lt_upper_bound; unfold M; lia).
    destruct (Z.eqb_spec m2 (2 ^ 53)) as [Heq | _]; [lia | ].
    destruct m2 as [ | p | p]; try lia.
    unfold pack. change (-53 <=? emax - prec) with true. cbv iota.
    cbn [upto]. lia.
Qed.

(** The three coordinates of a particle stay in the volume. *)
Lemma position_in_volume (x y z : number) :
  unit_interval x = true -> unit_interval y = true -> unit_interval z = true ->
  in_volume (((x - dec 5 10) * #2)%js,
             ((y - dec 5 10) * dec 15 10)%js,
             ((z - dec 5 10) * dec 5 10)%js) = true.
Proof.
  assert (H2 : #2%js = S754_finite false 4503599627370496 (-51))
    by (vm_compute; reflexivity).
  assert (H15 : dec 15 10 = S754_finite false 6755399441055744 (-52))
    by (vm_compute; reflexivity).
  assert (Hx : forall u, unit_interval u = true ->
            upto (Zpos 4503599627370496) (-52) ((u - dec 5 10) * #2)%js).
  { intros u Hu. rewrite H2.
    destruct (sub_half u Hu) as [[s ->] | [s [m [e [-> Hb]]]]]; [exact I | ].
    cbn [below] in Hb. destruct Hb as [_ [Hm [He | [-> Hm']]]].
    - apply (below_upto (xorb s false) 0).
      apply mul_below; [lia | | lia].
      change (Zpos 4503599627370496) with (2 ^ 52).
      rewrite Rounding.Zdigits2_shift by lia.
      assert (Zdigits2 (Zpos m) <= 53) by (apply Rounding.Zdigits2_le; lia). lia.
    - replace m with 4503599627370496%positive by lia.
      destruct s; vm_compute; intuition congruence. }
  assert (Hz : forall u, unit_interval u = true ->
            upto (Zpos 4503599627370496) (-54) ((u - dec 5 10) * dec 5 10)%js).
  { intros u Hu. rewrite dec_5_10 at 2.
    destruct (sub_half u Hu) as [[s ->] | [s [m [e [-> Hb]]]]]; [exact I | ].
    cbn [below] in Hb. destruct Hb as [_ [Hm [He | [-> Hm']]]].
    - apply (below_upto (xorb s false) (-2)).
      apply mul_below; [lia | | lia].
      change (Zpos 4503599627370496) with (2 ^ 52).
      rewrite Rounding.Zdigits2_shift by lia.
      assert (Zdigits2 (Zpos m) <= 53) by (apply Rounding.Zdigits2_le; lia). lia.
    - replace m with 4503599627370496%positive by lia.
      destruct s; vm_compute; intuition congruence. }
  assert (Hy : forall u, unit_interval u = true ->
            upto (Zpos 6755399441055744) (-53) ((u - dec 5 10) * dec 15 10)%js).
  { intros u Hu. rewrite H15.
    destruct (sub_half u Hu) as [[s ->] | [s [m [e [-> Hb]]]]]; [exact I | ].
    cbn [below] in Hb. destruct Hb as [_ [Hm [He | [-> Hm']]]].
    - apply mul_15; lia.
    - replace m with 4503599627370496%positive by lia.
      destruct s; vm_compute; intuition congruence. }
  intros Ux Uy Uz. unfold in_volume.
  destruct (upto_le _ _ _ (Hx x Ux)) as [X1 X2].
  destruct (upto_le _ _ _ (Hy y Uy)) as [Y1 Y2].
  destruct (upto_le _ _ _ (Hz z Uz)) as [Z1 Z2].
  replace #(-1)%js with (S754_finite true 4503599627370496 (-52)) by (vm_compute; reflexivity).
  replace (dec (-75) 100) with (S754_finite true 6755399441055744 (-53))
    by (vm_compute; reflexivity).
  replace (dec (-25) 100) with (S754_finite true 4503599627370496 (-54))
    by (vm_compute; reflexivity).
  rewrite of_Z_1, dec_75_100, dec_25_100 at 1.
  rewrite X1, X2, Y1, Y2, Z1, Z2. reflexivity.
Qed.

Lemma particle_in_volume (r : number) (i : nat) (rng : Rng) :
  fair rng ->
  in_volume (position (fst (particle r i rng))) = true /\
  fair (snd (particle r i rng)).
Proof.
  intros Hf. unfold particle, bind, ret, Math_random. cbn [fst snd position].
  split; [apply position_in_volume; apply Hf | intros j; apply Hf].
Qed.

Lemma LungsModel_some (pledgeCount r : number) (rng : Rng) (z : Z) :
  Array_from_length (Math_floor (r * #50)%js) = Some (seq 0 (Z.to_nat z)) ->
  fst (LungsModel pledgeCount r rng) =
  Some (fst (mapM (particle r) (seq 0 (Z.to_nat z)) rng)).
Proof.
  intros H. unfold LungsModel. rewrite H. unfold bind, ret.
  destruct (mapM (particle r) (seq 0 (Z.to_nat z)) rng) as [ps r']. reflexivity.
Qed.

(** *** Which draw makes which particle, and how many there are *)

Lemma drop_spec (n : nat) : forall (rng : Rng) (i : nat), drop n rng i = rng (n + i)%nat.
Proof.
  induction n as [ | n IH]; intros rng i; [reflexivity | ].
  cbn [drop]. rewrite IH. reflexivity.
Qed.

Lemma drop_add (a b : nat) : forall rng : Rng, drop (a + b) rng = drop b (drop a rng).
Proof.
  induction a as [ | a IH]; intros rng; [reflexivity | ].
  cbn [Nat.add drop]. apply IH.
Qed.


(** A callback that makes [k] calls of [Math.random]: element [j] of the
    mapped array is computed on the generator after [k * j] calls. *)
Lemma mapM_nth_error {A B : Type} (f : A -> M B) (k : nat) (l : list A) :
  (forall a r, snd (f a r) = drop k r) ->
  forall (rng : Rng) (j : nat) (b : B),
    nth_error (fst (mapM f l rng)) j = Some b ->
    exists a, nth_error l j = Some a /\ b = fst (f a (drop (k * j) rng)).
Proof.
  intros Hf. induction l as [ | a l IH]; intros rng j b.
  - destruct j; discriminate.
  - rewrite mapM_cons. cbn [fst]. destruct j as [ | j]; cbn [nth_error].
    + intros [= <-]. exists a. split; [reflexivity | ].
      rewrite Nat.mul_0_r. reflexivity.
    + intros H. destruct (IH _ _ _ H) as [a' [Ha' ->]].
      exists a'. split; [exact Ha' | ].
      rewrite Hf, <- drop_add.
      replace (k * S j)%nat with (k + k * j)%nat by lia. reflexivity.
Qed.

Lemma mapM_drop {A B : Type} (f : A -> M B) (k : nat) (l : list A) :
  (forall a r, snd (f a r) = drop k r) ->
  forall rng : Rng, snd (mapM f l rng) = drop (k * length l) rng.
Proof.
  intros Hf. induction l as [ | a l IH]; intros rng.
  - rewrite Nat.mul_0_r. reflexivity.
  - rewrite mapM_cons. cbn [snd length]. rewrite IH, Hf, <- drop_add.
    replace (k * S (length l))%nat with (k + k * length l)%nat by lia. reflexivity.
Qed.

Lemma nth_error_seq_eq (len : nat) : forall (s j a : nat),
  nth_error (seq s len) j = Some a -> a = (s + j)%nat.
Proof.
  induction len as [ | len IH]; intros s j a; [destruct j; discriminate | ].
  destruct j as [ | j]; cbn [seq nth_error].
  - intros [= <-]. lia.
  - intros H. apply IH in H. lia.
Qed.

(** Particle [j] is computed from the draws [3 j], [3 j + 1] and
    [3 j + 2]. *)
Lemma particle_nth (r : number) (len : nat) (rng : Rng) (j : nat) (p : Particle) :
  nth_error (fst (mapM (particle r) (seq 0 len) rng)) j = Some p ->
  p = {| key := j;
         position := (((rng (3 * j)%nat - dec 5 10) * #2)%js,
                      ((rng (3 * j + 1)%nat - dec 5 10) * dec 15 10)%js,
                      ((rng (3 * j + 2)%nat - dec 5 10) * dec 5 10)%js);
         radius := dec 2 100;
         emissiveIntensity := r |}.
Proof.
  intros H.
  destruct (mapM_nth_error (particle r) 3 (seq 0 len)
              ltac:(intros a r0; reflexivity) rng j p H) as [a [Ha ->]].
  apply nth_error_seq_eq in Ha. cbn [Nat.add] in Ha. subst a.
  unfold particle, bind, ret, Math_random. cbn [fst snd].
  rewrite !drop_spec, Nat.add_0_r. reflexivity.
Qed.

Lemma particles_below_200 :
  forallb (fun n =>
    match Array_from_length (Math_floor (fillLevel #n * #50)%js) with
    | Some l => Z.of_nat (length l) =?
                (if n =? 116 then markers_exact n - 1 else markers_exact n)
    | None => false
    end) (range 0 200) = true.
Proof. vm_compute. reflexivity. Qed.

(** The number of particles of every count against the exact one. *)
Lemma particles_against_exact (n : Z) (pledgeCount : number) (rng : Rng) :
  0 <= n ->
  option_map (@length Particle) (fst (LungsModel pledgeCount (fillLevel #n%js) rng)) =
  Some (Z.to_nat (if n =? 116 then markers_exact n - 1 else markers_exact n)).
Proof.
  intros Hn. destruct (Z_lt_le_dec n 200) as [Hlt | Hge].
  - pose proof (range_forall _ 0 200 particles_below_200 n ltac:(lia)) as H.
    cbv beta in H. unfold LungsModel.
    destruct (Array_from_length (Math_floor (fillLevel #n * #50)%js)) as [l | ];
      [ | discriminate].
    apply Z.eqb_eq in H. rewrite <- H, Nat2Z.id.
    unfold bind, ret. pose proof (mapM_length (particle (fillLevel #n%js)) l rng) as HL.
    destruct (mapM (particle (fillLevel #n%js)) l rng) as [ps r'].
    cbn [fst option_map] in *. rewrite HL. reflexivity.
  - rewrite (fillLevel_saturates n Hge), (markers_exact_saturates n Hge).
    destruct (Z.eqb_spec n 116) as [E | _]; [lia | ].
    reflexivity.
Qed.

(** C7, as amended.  For every fill ratio of [0, 1] the scene holds
    Math.floor(ratio * 50) particles, the product being the rounded one of
    the doubles: for a pledge count that is floor(min(count / 200, 1) * 50)
    of exact arithmetic, except at 116 pledges, which give one particle
    less.  Particle j has key j, radius 0.02, the fill level as emissive
    intensity and the position ((u - 0.5) * 2, (v - 0.5) * 1.5,
    (w - 0.5) * 0.5) for the draws 3 j, 3 j + 1 and 3 j + 2 of
    Math.random, inside the volume x in [-1, 1], y in [-0.75, 0.75],
    z in [-0.25, 0.25]; another generator gives as many particles at the
    positions of its own draws, and two generators can give different
    positions; 0 pledges give no particle and 200 pledges give exactly
    50. *)
Theorem particles_in_volume (pledgeCount r : number) (rng rng' : Rng) (n : Z) :
  valid r = true -> le #0%js r = true -> le r #1%js = true ->
  fair rng -> 0 <= n ->
  (exists ps ps',
    fst (LungsModel pledgeCount r rng) = Some ps /\
    fst (LungsModel pledgeCount r rng') = Some ps' /\
    strict_eq #(Z.of_nat (length ps))%js (Math_floor (r * #50)%js) = true /\
    length ps' = length ps /\
    Forall (fun p => in_volume (position p) = true) ps /\
    (forall j p, nth_error ps j = Some p ->
       p = {| key := j;
              position := (((rng (3 * j)%nat - dec 5 10) * #2)%js,
                           ((rng (3 * j + 1)%nat - dec 5 10) * dec 15 10)%js,
                           ((rng (3 * j + 2)%nat - dec 5 10) * dec 5 10)%js);
              radius := dec 2 100;
              emissiveIntensity := r |}) /\
    (forall j p, nth_error ps' j = Some p ->
       position p = (((rng' (3 * j)%nat - dec 5 10) * #2)%js,
                     ((rng' (3 * j + 1)%nat - dec 5 10) * dec 15 10)%js,
                     ((rng' (3 * j + 2)%nat - dec 5 10) * dec 5 10)%js))) /\
  option_map (@length Particle) (fst (LungsModel pledgeCount (fillLevel #n%js) rng)) =
    Some (Z.to_nat (if n =? 116 then markers_exact n - 1 else markers_exact n)) /\
  (exists g g', fair g /\ fair g' /\
     fst (LungsModel pledgeCount (fillLevel #4%js) g) <>
     fst (LungsModel pledgeCount (fillLevel #4%js) g')) /\
  fst (LungsModel pledgeCount (fillLevel #0%js) rng) = Some [] /\
  option_map (@length Particle)
    (fst (LungsModel pledgeCount (fillLevel #200%js) rng)) = Some 50%nat.
Proof.
  intros Hv H0 H1 Hf Hn.
  destruct (markers_count r 50 Hv H0 H1 ltac:(lia)) as [z [Hz [Ha He]]].
  split.
  { exists (fst (mapM (particle r) (seq 0 (Z.to_nat z)) rng)),
           (fst (mapM (particle r) (seq 0 (Z.to_nat z)) rng')).
    rewrite !mapM_length, !length_seq, Z2Nat.id by lia.
    split; [apply LungsModel_some; exact Ha | ].
    split; [apply LungsModel_some; exact Ha | ].
    split; [exact He | ].
    split; [reflexivity | ].
    split.
    { apply mapM_Forall with (I := fair); [ | exact Hf].
      intros a r0 Hr0. apply particle_in_volume. exact Hr0. }
    split.
    - intros j p H. exact (particle_nth _ _ _ _ _ H).
    - intros j p H. rewrite (particle_nth _ _ _ _ _ H). reflexivity. }
  split; [apply particles_against_exact; exact Hn | ].
  split; [ | split; reflexivity].
  exists (fun _ => dec 1 10), (fun _ => dec 9 10).
  split; [intros i; reflexivity | ]. split; [intros i; reflexivity | ].
  intros H. vm_compute in H. discriminate.
Qed.

Lemma particles_in_volume_witness :
  (exists ps ps',
    fst (LungsModel #116%js (dec 58 100) (fun _ => dec 1 10)) = Some ps /\
    fst (LungsModel #116%js (dec 58 100) (fun _ => dec 9 10)) = Some ps' /\
    strict_eq #(Z.of_nat (length ps))%js (Math_floor (dec 58 100 * #50)%js) = true /\
    length ps' = length ps /\
    Forall (fun p => in_volume (position p) = true) ps /\
    (forall j p, nth_error ps j = Some p ->
       p = {| key := j;
              position := (((dec 1 10 - dec 5 10) * #2)%js,
                           ((dec 1 10 - dec 5 10) * dec 15 10)%js,
                           ((dec 1 10 - dec 5 10) * dec 5 10)%js);
              radius := dec 2 100;
              emissiveIntensity := dec 58 100 |}) /\
    (forall j p, nth_error ps' j = Some p ->
       position p = (((dec 9 10 - dec 5 10) * #2)%js,
                     ((dec 9 10 - dec 5 10) * dec 15 10)%js,
                     ((dec 9 10 - dec 5 10) * dec 5 10)%js))) /\
  option_map (@length Particle)
    (fst (LungsModel #116%js (fillLevel #116%js) (fun _ => dec 1 10))) =
    Some (Z.to_nat (if 116 =? 116 then markers_exact 116 - 1 else markers_exact 116)) /\
  (exists g g', fair g /\ fair g' /\
     fst (LungsModel #116%js (fillLevel #4%js) g) <>
     fst (LungsModel #116%js (fillLevel #4%js) g')) /\
  fst (LungsModel #116%js (fillLevel #0%js) (fun _ => dec 1 10)) = Some [] /\
  option_map (@length Particle)
    (fst (LungsModel #116%js (fillLevel #200%js) (fun _ => dec 1 10))) = Some 50%nat.
Proof.
  apply (particles_in_volume #116%js (dec 58 100) (fun _ => dec 1 10)
           (fun _ => dec 9 10) 116);
    try reflexivity; try lia.
  intros i. reflexivity.
Defined.

(** C7, as stated, fails at 116 pledges: the ratio is 0.58 and
    floor(0.58 * 50) is 29, but the product of the doubles is just below
    29 and 28 particles are rendered. *)
Lemma particles_of_116 :
  markers_exact 116 = 29 /\
  Math_floor (fillLevel #116 * #50)%js = #28%js /\
  option_map (@length Particle)
    (fst (LungsModel #116%js (fillLevel #116%js) (fun _ => dec 1 10))) = Some 28%nat.
Proof.
  split; [vm_compute; reflexivity | ]. split; [vm_compute; reflexivity | ].
  exact (particles_against_exact 116 #116%js (fun _ => dec 1 10) ltac:(lia)).
Qed.

(** ** Negative pledge counts *)

Lemma of_Z_above_neg (n k : Z) : 0 <= k -> n <= - 2 ^ k -> above true k (of_Z n).
Proof.
  intros Hk Hn.
  assert (0 < 2 ^ k) by (apply Z.pow_pos_nonneg; lia).
  destruct n as [ | p | p]; try lia.
  unfold of_Z. cbn [binary_normalize].
  apply Rounding.binary_round_above; [ | lia].
  assert (k + 1 <= Zdigits2 (Zpos p)); [ | lia].
  apply Rounding.Zdigits2_ge; [ | lia].
  replace (k + 1 - 1) with k by lia. lia.
Qed.

Lemma above_negative (k : Z) (x : number) :
  above true k x ->
  Math_min x #1%js = x /\ (x < #0)%js = true /\ (x < dec 25 100)%js = true.
Proof.
  rewrite of_Z_1, dec_25_100.
  destruct x as [s | s | | s m e]; cbn [above]; try contradiction.
  - intros ->. repeat split.
  - intros [-> _]. repeat split.
Qed.

(** The product of two normal Numbers of magnitudes at least 2^kx and
    2^ky is at least 2^(kx + ky). *)
Lemma mul_above (sx : bool) (kx : Z) (x : number)
    (sy : bool) (my : positive) (ey : Z) (ky : Z) :
  above sx kx x ->
  2 ^ 52 <= Zpos my < 2 ^ 53 -> ky - 52 <= ey ->
  -1022 <= kx + ky ->
  above (xorb sx sy) (kx + ky) (x * S754_finite sy my ey)%js.
Proof.
  intros Hx Hmy Hey Hk.
  destruct x as [s | s | | s m e]; cbn [above] in Hx; try contradiction.
  - subst s. reflexivity.
  - destruct Hx as [-> [Hm He]].
    unfold mul. cbn [SFmul]. rewrite Pos2Z.inj_mul.
    assert (Hd : 105 <= Zdigits2 (Zpos m * Zpos my)).
    { apply Rounding.Zdigits2_ge; [ | lia].
      change (2 ^ (105 - 1)) with (2 ^ 52 * 2 ^ 52). nia. }
    apply Rounding.binary_round_aux_above; rewrite ?Rounding.fexp_eq; lia.
Qed.

(** The array of a negative length is empty. *)
Lemma Array_from_negative (k : Z) (y : number) :
  above true k y -> Array_from_length (Math_floor y) = Some [].
Proof.
  destruct y as [s | s | | s m e]; cbn [above]; try contradiction.
  - intros ->. reflexivity.
  - intros [-> [Hm He]]. unfold Math_floor.
    destruct (0 <=? e); [reflexivity | ].
    cbn [signed].
    assert (Hz : Z.shiftr (Zneg m) (- e) < 0) by (apply Z.shiftr_neg; lia).
    destruct (Z.eqb_spec (Z.shiftr (Zneg m) (- e)) 0) as [E | _]; [lia | ].
    pose proof (of_Z_above_neg (Z.shiftr (Zneg m) (- e)) 0 ltac:(lia) ltac:(lia)) as Ha.
    destruct (of_Z (Z.shiftr (Zneg m) (- e))) as [s' | s' | | s' m' e'];
      cbn [above] in Ha; try contradiction.
    + subst s'. reflexivity.
    + destruct Ha as [-> _]. reflexivity.
Qed.

(** A Number of at most -1 is rounded to a negative integer. *)
Lemma round_negative (k : Z) (y : number) :
  0 <= k -> above true k y -> (Math_round y < #0)%js = true.
Proof.
  intros Hk.
  destruct y as [s | s | | s m e]; cbn [above]; try contradiction.
  - intros ->. reflexivity.
  - intros [-> [Hm He]]. unfold Math_round.
    destruct (0 <=? e); [reflexivity | ].
    cbn [signed].
    set (z := Z.shiftr (2 * Zneg m + 2 ^ (- e)) (1 - e)).
    assert (Hz : z < 0).
    { apply Z.shiftr_neg.
      assert (2 ^ (- e) <= 2 ^ 52) by (apply Z.pow_le_mono_r; lia). lia. }
    destruct (Z.eqb_spec z 0) as [E | _]; [lia | ].
    pose proof (of_Z_above_neg z 0 ltac:(lia) ltac:(lia)) as Ha.
    destruct (of_Z z) as [s' | s' | | s' m' e']; cbn [above] in Ha; try contradiction.
    + subst s'. reflexivity.
    + destruct Ha as [-> _]. reflexivity.
Qed.

Lemma fillLevel_negative (n : Z) :
  n < 0 -> above true (-8) (fillLevel #n%js) /\ fillLevel #n%js = (#n / #200)%js.
Proof.
  intros Hn.
  assert (Ha : above true (0 - 8) (#n / #200)%js).
  { apply Rounding.div_200_above; [ | lia]. apply of_Z_above_neg; lia. }
  unfold fillLevel.
  destruct (above_negative _ _ Ha) as [-> _]. split; [exact Ha | reflexivity].
Qed.

Lemma fillPercentage_negative_small :
  forallb (fun n => le (fillPercentage #n%js) #0%js
                    && implb (n <=? -2) (fillPercentage #n < #0)%js)
          (range (-255) 255) = true.
Proof. vm_compute. reflexivity. Qed.

(** C10, as amended.  For every negative pledge count the fill level is
    not clamped: it is count / 200, a negative Number; the displayed
    percentage is at most 0, and negative from -2 downwards; both particle
    systems render no marker; and only the starting message is shown. *)
Theorem negative_pledgeCount (n : Z) (pledgeCount : number) (rng : Rng) :
  n < 0 ->
  fillLevel #n%js = (#n / #200)%js /\
  (fillLevel #n < #0)%js = true /\
  le (fillPercentage #n%js) #0%js = true /\
  (n <= -2 -> (fillPercentage #n < #0)%js = true) /\
  fst (LungsModel pledgeCount (fillLevel #n%js) rng) = Some [] /\
  fst (floatingParticles (fillLevel #n%js) rng) = Some [] /\
  statusMessages (fillLevel #n%js) = [starting].
Proof.
  intros Hn.
  destruct (fillLevel_negative n Hn) as [Ha Hq].
  destruct (above_negative _ _ Ha) as [_ [Hneg Hlow]].
  assert (Hle : forall x y : number, (x < y)%js = true -> le x y = true).
  { intros x y. unfold lt, le, SFltb, SFleb.
    destruct (SFcompare x y) as [[ | | ] | ]; auto. }
  assert (Hp : le (fillPercentage #n%js) #0%js = true /\
               (n <= -2 -> (fillPercentage #n < #0)%js = true)).
  { destruct (Z_le_gt_dec n (-256)) as [Hbig | Hsmall].
    - assert (Hr : (fillPercentage #n < #0)%js = true).
      { unfold fillPercentage. apply round_negative with (k := 0 + 6); [lia | ].
        change (#100)%js with (S754_finite false 7036874417766400 (-46)).
        change true with (xorb true false).
        apply mul_above; try lia.
        unfold fillLevel.
        assert (Hb : above true (8 - 8) (#n / #200)%js).
        { apply Rounding.div_200_above; [ | lia]. apply of_Z_above_neg; lia. }
        destruct (above_negative _ _ Hb) as [-> _]. exact Hb. }
      split; [apply Hle; exact Hr | intros _; exact Hr].
    - pose proof (range_forall _ (-255) 255 fillPercentage_negative_small n ltac:(lia)) as H.
      cbv beta in H. apply andb_prop in H as [H1 H2].
      split; [exact H1 | intros H2'].
      destruct (Z.leb_spec n (-2)); [exact H2 | lia]. }
  destruct Hp as [Hp1 Hp2].
  split; [exact Hq | ]. split; [exact Hneg | ].
  split; [exact Hp1 | ]. split; [exact Hp2 | ].
  split; [ | split].
  - unfold LungsModel.
    change (#50)%js with (S754_finite false 7036874417766400 (-47)).
    rewrite (Array_from_negative (-8 + 5)
               (fillLevel #n * S754_finite false 7036874417766400 (-47))%js);
      [reflexivity | ].
    change true with (xorb true false). apply mul_above; try lia. exact Ha.
  - unfold floatingParticles.
    change (#10)%js with (S754_finite false 5629499534213120 (-49)).
    rewrite (Array_from_negative (-8 + 3)
               (fillLevel #n * S754_finite false 5629499534213120 (-49))%js);
      [reflexivity | ].
    change true with (xorb true false). apply mul_above; try lia. exact Ha.
  - rewrite statusMessages_tier. unfold tier. rewrite Hlow. reflexivity.
Qed.

Lemma negative_pledgeCount_witness :
  fillLevel #(-7)%js = (#(-7) / #200)%js /\
  (fillLevel #(-7) < #0)%js = true /\
  le (fillPercentage #(-7)%js) #0%js = true /\
  (-7 <= -2 -> (fillPercentage #(-7) < #0)%js = true) /\
  fst (LungsModel #(-7)%js (fillLevel #(-7)%js) (fun _ => dec 1 10)) = Some [] /\
  fst (floatingParticles (fillLevel #(-7)%js) (fun _ => dec 1 10)) = Some [] /\
  statusMessages (fillLevel #(-7)%js) = [starting].
Proof. apply (negative_pledgeCount (-7) #(-7)%js (fun _ => dec 1 10)). lia. Defined.

(** C10, as stated, fails at -1 pledge: the percentage is -0, which is
    displayed as 0 and is not below 0. *)
Lemma negative_one_percentage :
  fillPercentage #(-1)%js = S754_zero true /\
  (fillPercentage #(-1) < #0)%js <> true.
Proof. split; [vm_compute; reflexivity | vm_compute; discriminate]. Qed.

(** ** The breathing animation *)

(** C5.  The per-frame animator is a function of the elapsed time alone:
    it sets the three scale components of the group to
    1 + sin(t * 0.5) * 0.1 and its Y rotation to sin(t * 0.2) * 0.1,
    whatever the group held before; at t = 0 the scale is 1 and the
    rotation is 0. *)
Theorem breathing_animation (Math_sin : number -> number) (time : number)
    (current other : Group) :
  Math_sin (S754_zero false) = S754_zero false ->
  let breatheScale := (#1 + Math_sin (time * dec 5 10) * dec 1 10)%js in
  let turn := (Math_sin (time * dec 2 10) * dec 1 10)%js in
  useFrame Math_sin time (Some current) =
    Some {| scale := (breatheScale, breatheScale, breatheScale);
            rotation := (fst (fst (rotation current)), turn, snd (rotation current)) |} /\
  option_map scale (useFrame Math_sin time (Some other)) =
    option_map scale (useFrame Math_sin time (Some current)) /\
  option_map (fun g => snd (fst (rotation g))) (useFrame Math_sin time (Some other)) =
    option_map (fun g => snd (fst (rotation g))) (useFrame Math_sin time (Some current)) /\
  useFrame Math_sin (S754_zero false) (Some current) =
    Some {| scale := (#1%js, #1%js, #1%js);
            rotation := (fst (fst (rotation current)), S754_zero false,
                         snd (rotation current)) |} /\
  useFrame Math_sin time None = None.
Proof.
  intros Hsin breatheScale turn.
  destruct current as [sc [[rx ry] rz]], other as [sc' [[rx' ry'] rz']].
  unfold useFrame. cbn [rotation scale fst snd option_map].
  repeat split.
  change (S754_zero false * dec 5 10)%js with (S754_zero false).
  change (S754_zero false * dec 2 10)%js with (S754_zero false).
  rewrite Hsin. reflexivity.
Qed.

Lemma breathing_animation_witness :
  useFrame (fun x : number => x) (S754_zero false)
           (Some (mkGroup (#2%js, #2%js, #2%js) (#0%js, #1%js, #0%js))) =
  Some (mkGroup (#1%js, #1%js, #1%js) (#0%js, S754_zero false, #0%js)).
Proof.
  exact (proj1 (proj2 (proj2 (proj2
    (breathing_animation (fun x : number => x) #3%js
       (mkGroup (#2%js, #2%js, #2%js) (#0%js, #1%js, #0%js))
       (mkGroup (#2%js, #2%js, #2%js) (#0%js, #1%js, #0%js)) eq_refl))))).
Defined.

(** ** The recolouring effect *)

Lemma recolor_spec (r : number) (st : Materials) (isMesh : bool)
    (material : option nat) (k : nat) :
  recolor r st isMesh material k =
  if existsb (Nat.eqb k) (match isMesh, material with
                          | true, Some j => [j]
                          | _, _ => []
                          end)
  then paint r (st k) else st k.
Proof.
  unfold recolor, paint.
  destruct isMesh; [ | reflexivity].
  destruct material as [j | ]; [ | reflexivity].
  cbn [existsb]. rewrite orb_false_r. unfold set.
  destruct (Nat.eqb_spec k j) as [-> | Hne].
  - destruct (color (st j)); [ | reflexivity].
    rewrite Nat.eqb_refl. reflexivity.
  - destruct (color (st j)); [ | reflexivity].
    destruct (Nat.eqb_spec k j); [contradiction | reflexivity].
Qed.

Lemma paint_idem (r : number) (m : Material) : paint r (paint r m) = paint r m.
Proof.
  unfold paint. destruct (color m) eqn:E; cbn [color];
    [reflexivity | rewrite E; reflexivity].
Qed.

(** After the traversal a material is recoloured exactly when a mesh of
    the scene refers to it. *)
Lemma traverse_spec (r : number) (o : Object3D) :
  forall (st : Materials) (k : nat),
    traverse r o st k =
    if existsb (Nat.eqb k) (meshes o) then paint r (st k) else st k.
Proof.
  induction o as [isMesh material children IH] using Object3D_forall.
  intros st k. cbn [traverse meshes].
  rewrite existsb_app.
  pose proof (recolor_spec r st isMesh material k) as H0.
  revert H0. generalize (recolor r st isMesh material).
  generalize (existsb (Nat.eqb k) (match isMesh, material with
                                   | true, Some j => [j]
                                   | _, _ => []
                                   end)).
  induction IH as [ | c cs Hc _ IHcs]; intros b st0 H0; cbn [fold_left flat_map existsb].
  - rewrite orb_false_r. exact H0.
  - rewrite existsb_app.
    rewrite (IHcs (b || existsb (Nat.eqb k) (meshes c))%bool (traverse r c st0)).
    + rewrite orb_assoc. reflexivity.
    + rewrite Hc, H0.
      destruct b, (existsb (Nat.eqb k) (meshes c)); cbn [orb];
        rewrite ?paint_idem; reflexivity.
Qed.

Lemma existsb_eqb_In (k : nat) (l : list nat) :
  existsb (Nat.eqb k) l = true <-> In k l.
Proof.
  rewrite existsb_exists. split.
  - intros [j [Hj E]]. apply Nat.eqb_eq in E. subst j. exact Hj.
  - intros H. exists k. split; [exact H | apply Nat.eqb_refl].
Qed.

(** C6, as amended.  For every fill ratio the effect gives every mesh
    material that carries a colour the hue 120 + ratio * 60, the lightness
    40 + ratio * 20 percent (at 70 percent saturation), the opacity
    0.8 + ratio * 0.2, and marks it transparent; a mesh material without a
    colour and the materials of no mesh are left as they were. *)
Theorem recolor_coloured_meshes (r : number) (scene : Object3D)
    (st : Materials) (k : nat) :
  (In k (meshes scene) -> color (st k) <> None ->
     color (useEffect r (Some scene) st k) =
       Some (hsl (#120 + r * #60)%js #70%js (#40 + r * #20)%js) /\
     opacity (useEffect r (Some scene) st k) = (dec 8 10 + r * dec 2 10)%js /\
     transparent (useEffect r (Some scene) st k) = true) /\
  (In k (meshes scene) -> color (st k) = None ->
     useEffect r (Some scene) st k = st k) /\
  (~ In k (meshes scene) -> useEffect r (Some scene) st k = st k) /\
  useEffect r None st = st.
Proof.
  unfold useEffect. rewrite traverse_spec.
  split; [ | split; [ | split; [ | reflexivity]]].
  - intros Hin Hc. apply existsb_eqb_In in Hin. rewrite Hin.
    unfold paint. destruct (color (st k)); [ | congruence].
    cbn [color opacity transparent]. auto.
  - intros Hin Hc. apply existsb_eqb_In in Hin. rewrite Hin.
    unfold paint. rewrite Hc. reflexivity.
  - intros Hin. destruct (existsb (Nat.eqb k) (meshes scene)) eqn:E; [ | reflexivity].
    apply existsb_eqb_In in E. contradiction.
Qed.

Lemma recolor_coloured_meshes_witness :
  color (useEffect (dec 5 10)
           (Some (Obj false None [Obj true (Some 0%nat) []]))
           (fun _ => mkMaterial (Some (hsl #0%js #0%js #0%js)) #1%js false) 0%nat) =
    Some (hsl (#120 + dec 5 10 * #60)%js #70%js (#40 + dec 5 10 * #20)%js) /\
  opacity (useEffect (dec 5 10)
           (Some (Obj false None [Obj true (Some 0%nat) []]))
           (fun _ => mkMaterial (Some (hsl #0%js #0%js #0%js)) #1%js false) 0%nat) =
    (dec 8 10 + dec 5 10 * dec 2 10)%js /\
  transparent (useEffect (dec 5 10)
           (Some (Obj false None [Obj true (Some 0%nat) []]))
           (fun _ => mkMaterial (Some (hsl #0%js #0%js #0%js)) #1%js false) 0%nat) = true.
Proof.
  apply (proj1 (recolor_coloured_meshes (dec 5 10)
           (Obj false None [Obj true (Some 0%nat) []])
           (fun _ => mkMaterial (Some (hsl #0%js #0%js #0%js)) #1%js false) 0%nat)).
  - simpl. auto.
  - simpl. discriminate.
Defined.

(** C6, as stated, fails on a mesh whose material has no colour: the
    guard of line 33 skips it, and it is not marked transparent. *)
Lemma recolor_skips_colourless :
  In 0%nat (meshes (Obj true (Some 0%nat) [])) /\
  transparent (useEffect (dec 5 10) (Some (Obj true (Some 0%nat) []))
                 (fun _ => mkMaterial None #1%js false) 0%nat) <> true.
Proof. split; [simpl; auto | simpl; discriminate]. Qed.

(** ** One render pass of [LungsModel3D] *)

Lemma fillLevel_unit_below_200 :
  forallb (fun n => valid (fillLevel #n%js) && le #0%js (fillLevel #n%js)
                    && le (fillLevel #n%js) #1%js) (range 0 200) = true.
Proof. vm_compute. reflexivity. Qed.

(** The fill level of a non-negative count is a valid Number of [0, 1]. *)
Lemma fillLevel_unit (n : Z) :
  0 <= n ->
  valid (fillLevel #n%js) = true /\
  le #0%js (fillLevel #n%js) = true /\ le (fillLevel #n%js) #1%js = true.
Proof.
  intros Hn. destruct (Z_lt_le_dec n 200) as [Hlt | Hge].
  - pose proof (range_forall _ 0 200 fillLevel_unit_below_200 n ltac:(lia)) as H.
    cbv beta in H. apply andb_prop in H as [H H1]. apply andb_prop in H as [Hv H0].
    auto.
  - rewrite (fillLevel_saturates n Hge). repeat split.
Qed.

Lemma floatingParticles_run (r : number) (rng : Rng) (z : Z) :
  Array_from_length (Math_floor (r * #10)%js) = Some (seq 0 (Z.to_nat z)) ->
  floatingParticles r rng =
  (Some (fst (mapM floating (seq 0 (Z.to_nat z)) rng)),
   snd (mapM floating (seq 0 (Z.to_nat z)) rng)).
Proof.
  intros H. unfold floatingParticles. rewrite H. unfold bind, ret.
  destruct (mapM floating (seq 0 (Z.to_nat z)) rng) as [fs r']. reflexivity.
Qed.

Lemma LungsModel_run (pledgeCount r : number) (rng : Rng) (z : Z) :
  Array_from_length (Math_floor (r * #50)%js) = Some (seq 0 (Z.to_nat z)) ->
  LungsModel pledgeCount r rng =
  (Some (fst (mapM (particle r) (seq 0 (Z.to_nat z)) rng)),
   snd (mapM (particle r) (seq 0 (Z.to_nat z)) rng)).
Proof.
  intros H. unfold LungsModel. rewrite H. unfold bind, ret.
  destruct (mapM (particle r) (seq 0 (Z.to_nat z)) rng) as [ps r']. reflexivity.
Qed.

(** A render with a non-negative count never fails, and the page shows the
    derived state. *)
Lemma LungsModel3D_renders (n : Z) (rng : Rng) :
  0 <= n ->
  exists v,
    fst (LungsModel3D #n%js rng) = Some v /\
    caption v = (#n%js, fillPercentage #n%js) /\
    barWidth v = fillPercentage #n%js /\
    status v = statusMessages (fillLevel #n%js) /\
    strict_eq #(Z.of_nat (length (floats v)))%js
              (Math_floor (fillLevel #n * #10)%js) = true /\
    strict_eq #(Z.of_nat (length (particles v)))%js
              (Math_floor (fillLevel #n * #50)%js) = true.
Proof.
  intros Hn. destruct (fillLevel_unit n Hn) as [Hv [H0 H1]].
  destruct (markers_count _ 10 Hv H0 H1 ltac:(lia)) as [z [Hz [Ha He]]].
  destruct (markers_count _ 50 Hv H0 H1 ltac:(lia)) as [z' [Hz' [Ha' He']]].
  unfold LungsModel3D, bind.
  rewrite (floatingParticles_run _ rng z Ha).
  rewrite (LungsModel_run _ _ _ z' Ha').
  unfold ret. cbn [fst].
  eexists. split; [reflexivity | ].
  cbn [caption barWidth status floats particles].
  rewrite !mapM_length, !length_seq, !Z2Nat.id by lia. auto.
Qed.

Lemma percentage_below_200 :
  forallb (fun n =>
    same (fillPercentage #n%js)
         #(if short_percentage n then percentage_exact n - 1
           else percentage_exact n)%js
    && (0 <=? percentage_exact n) && (percentage_exact n <=? 100))
    (range 0 200) = true.
Proof. vm_compute. reflexivity. Qed.

Lemma short_percentage_above (n : Z) : 200 <= n -> short_percentage n = false.
Proof.
  intros Hn. unfold short_percentage. cbn [existsb].
  destruct (Z.eqb_spec n 29) as [E | _]; [lia | ].
  destruct (Z.eqb_spec n 57) as [E | _]; [lia | ].
  destruct (Z.eqb_spec n 113) as [E | _]; [lia | ].
  destruct (Z.eqb_spec n 115) as [E | _]; [lia | ]. reflexivity.
Qed.

(** The percentage of every count against the exact one. *)
Lemma percentage_against_exact (n : Z) :
  0 <= n ->
  fillPercentage #n%js =
    #(if short_percentage n then percentage_exact n - 1 else percentage_exact n)%js /\
  0 <= percentage_exact n <= 100.
Proof.
  intros Hn. destruct (Z_lt_le_dec n 200) as [Hlt | Hge].
  - pose proof (range_forall _ 0 200 percentage_below_200 n ltac:(lia)) as H.
    cbv beta in H. apply andb_prop in H as [H H3]. apply andb_prop in H as [H1 H2].
    apply same_eq in H1. apply Z.leb_le in H2, H3. split; [exact H1 | lia].
  - rewrite (short_percentage_above n Hge), (percentage_exact_saturates n Hge).
    split; [ | lia].
    unfold fillPercentage. rewrite (fillLevel_saturates n Hge). vm_compute. reflexivity.
Qed.

(** C3, as amended.  For every non-negative integer pledge count the
    percentage displayed in the caption and as the width of the bar is an
    integer of [0, 100]: it is round(ratio(count) * 100) of exact
    arithmetic, except at 29, 57, 113 and 115 pledges, where the doubles
    give one less (14, 28, 56 and 57 percent). *)
Theorem fillPercentage_range (n : Z) (rng : Rng) :
  0 <= n ->
  (exists v, fst (LungsModel3D #n%js rng) = Some v /\
             caption v = (#n%js, fillPercentage #n%js) /\
             barWidth v = fillPercentage #n%js) /\
  fillPercentage #n%js =
    #(if short_percentage n then percentage_exact n - 1 else percentage_exact n)%js /\
  0 <= percentage_exact n <= 100 /\
  (exists k, 0 <= k <= 100 /\ fillPercentage #n%js = #k%js) /\
  le #0%js (fillPercentage #n%js) = true /\
  le (fillPercentage #n%js) #100%js = true.
Proof.
  intros Hn. split.
  { destruct (LungsModel3D_renders n rng Hn) as [v [Hv [Hc [Hb _]]]]. eauto. }
  destruct (percentage_against_exact n Hn) as [He Hr].
  split; [exact He | ]. split; [exact Hr | ].
  assert (Hk : exists k, 0 <= k <= 100 /\ fillPercentage #n%js = #k%js).
  { destruct (short_percentage n) eqn:Es.
    - exists (percentage_exact n - 1). split; [ | exact He].
      unfold short_percentage in Es. cbn [existsb] in Es.
      destruct (Z.eqb_spec n 29) as [-> | _]; [vm_compute; split; discriminate | ].
      destruct (Z.eqb_spec n 57) as [-> | _]; [vm_compute; split; discriminate | ].
      destruct (Z.eqb_spec n 113) as [-> | _]; [vm_compute; split; discriminate | ].
      destruct (Z.eqb_spec n 115) as [-> | _]; [vm_compute; split; discriminate | ].
      discriminate.
    - exists (percentage_exact n). split; [exact Hr | exact He]. }
  split; [exact Hk | ].
  destruct Hk as [k [Hk ->]].
  pose proof (range_forall _ 0 101 percent_range k ltac:(lia)) as H.
  cbv beta in H. apply andb_prop in H. exact H.
Qed.

Lemma fillPercentage_range_witness :
  (exists v, fst (LungsModel3D #57%js (fun _ => dec 1 10)) = Some v /\
             caption v = (#57%js, fillPercentage #57%js) /\
             barWidth v = fillPercentage #57%js) /\
  fillPercentage #57%js =
    #(if short_percentage 57 then percentage_exact 57 - 1 else percentage_exact 57)%js /\
  0 <= percentage_exact 57 <= 100 /\
  (exists k, 0 <= k <= 100 /\ fillPercentage #57%js = #k%js) /\
  le #0%js (fillPercentage #57%js) = true /\
  le (fillPercentage #57%js) #100%js = true.
Proof. apply (fillPercentage_range 57 (fun _ => dec 1 10)). lia. Defined.

(** C3, as stated, fails at 29 pledges: round(0.145 * 100) is 15, but
    29 / 200 * 100 is the double just below 14.5 and the page shows 14
    percent. *)
Lemma percentage_of_29 :
  percentage_exact 29 = 15 /\
  fillPercentage #29%js = #14%js /\
  exists v, fst (LungsModel3D #29%js (fun _ => dec 1 10)) = Some v /\
            caption v = (#29%js, #14%js) /\ barWidth v = #14%js.
Proof.
  split; [vm_compute; reflexivity | ].
  assert (H : fillPercentage #29%js = #14%js) by (vm_compute; reflexivity).
  split; [exact H | ].
  destruct (LungsModel3D_renders 29 (fun _ => dec 1 10) ltac:(lia)) as [v [Hv [Hc [Hb _]]]].
  exists v. split; [exact Hv | ]. rewrite Hc, Hb, H. split; reflexivity.
Qed.

(** C2.  The status message is selected by a first-match step function of
    the fill ratio with closed-open breakpoints at 0.25, 0.5, 0.75 and 1,
    that is at 50, 100, 150 and 200 pledges; 0, 50, 100, 150, 200 and 500
    pledges give starting, growing, halfway, almost-full, complete and
    complete, the render of 500 pledges succeeding like any other. *)
Theorem tier_step_function (r : number) (n : Z) (rng : Rng) :
  statusMessages r = match tier r with Some t => [t] | None => [] end /\
  (0 <= n -> tier (fillLevel #n%js) = Some (tier_of_count n)
             /\ statusMessages (fillLevel #n%js) = [tier_of_count n]) /\
  statusMessages (fillLevel #0%js) = [starting] /\
  statusMessages (fillLevel #50%js) = [growing] /\
  statusMessages (fillLevel #100%js) = [halfway] /\
  statusMessages (fillLevel #150%js) = [almost_full] /\
  statusMessages (fillLevel #200%js) = [complete] /\
  statusMessages (fillLevel #500%js) = [complete] /\
  (exists v, fst (LungsModel3D #500%js rng) = Some v /\ status v = [complete]).
Proof.
  split; [apply statusMessages_tier | ].
  split.
  - intros Hn. pose proof (tier_of_fillLevel n Hn) as H.
    split; [exact H | ]. rewrite statusMessages_tier, H. reflexivity.
  - assert (H500 : statusMessages (fillLevel #500%js) = [complete])
      by (rewrite statusMessages_tier, tier_of_fillLevel by lia; reflexivity).
    repeat split;
      try (rewrite statusMessages_tier, tier_of_fillLevel by lia; reflexivity).
    destruct (LungsModel3D_renders 500 rng ltac:(lia)) as [v [Hv [_ [_ [Hst _]]]]].
    exists v. split; [exact Hv | ]. rewrite Hst. exact H500.
Qed.

Lemma tier_step_function_witness :
  tier (fillLevel #57%js) = Some growing /\
  statusMessages (fillLevel #57%js) = [growing].
Proof.
  apply (proj1 (proj2 (tier_step_function #0%js 57 (fun _ => dec 1 10)))). lia.
Defined.

(** C4.  For every non-negative integer pledge count exactly one of the
    five status messages is rendered: on every fill ratio (every Number
    but NaN) the five conditions are exclusive and exhaustive, and the
    five messages are distinct. *)
Theorem exactly_one_status (n : Z) (r : number) (rng : Rng) :
  (0 <= n -> exists v t, fst (LungsModel3D #n%js rng) = Some v /\ status v = [t]) /\
  (0 <= n -> exists t, statusMessages (fillLevel #n%js) = [t]) /\
  (is_nan r = false -> exists t, statusMessages r = [t]) /\
  (forall t t', message t = message t' -> t = t').
Proof.
  assert (Hs : 0 <= n -> statusMessages (fillLevel #n%js) = [tier_of_count n]).
  { intros Hn. rewrite statusMessages_tier, tier_of_fillLevel by exact Hn. reflexivity. }
  split; [ | split; [ | split]].
  - intros Hn. destruct (LungsModel3D_renders n rng Hn) as [v [Hv [_ [_ [Hst _]]]]].
    exists v, (tier_of_count n). split; [exact Hv | ]. rewrite Hst. exact (Hs Hn).
  - intros Hn. exists (tier_of_count n). exact (Hs Hn).
  - intros Hr. destruct (tier_total r Hr) as [t Ht].
    exists t. rewrite statusMessages_tier, Ht. reflexivity.
  - intros t t'. destruct t, t'; cbn; intros H; try reflexivity; discriminate H.
Qed.

Lemma exactly_one_status_witness :
  (exists v t, fst (LungsModel3D #57%js (fun _ => dec 1 10)) = Some v /\ status v = [t]) /\
  (exists t, statusMessages (dec 3 10) = [t]).
Proof.
  split.
  - apply (proj1 (exactly_one_status 57 (dec 3 10) (fun _ => dec 1 10))). lia.
  - apply (proj1 (proj2 (proj2 (exactly_one_status 57 (dec 3 10) (fun _ => dec 1 10))))).
    reflexivity.
Defined.

(** * Further properties *)

(** ** Every correctly rounded result is a double *)

Module Rounded.

Lemma pack_valid (s : bool) (m e : Z) :
  0 <= m ->
  m = 0 \/ fexp prec emax (Zdigits2 m + e) = e ->
  valid (pack s m e) = true.
Proof.
  intros Hm Hc. unfold pack.
  destruct m as [ | p | p]; [reflexivity | | lia].
  destruct Hc as [Hc | Hc]; [discriminate | ].
  destruct (Z.leb_spec e (emax - prec)) as [Hle | Hgt]; [ | reflexivity].
  unfold valid, valid_binary, bounded, canonical_mantissa.
  cbn [Zdigits2] in Hc. rewrite Hc, Z.eqb_refl.
  apply Z.leb_le in Hle. rewrite Hle. reflexivity.
Qed.

Lemma pack_sign (s : bool) (m e : Z) :
  0 <= m -> if s then nonpos (pack s m e) else nonneg (pack s m e).
Proof.
  intros Hm. unfold pack. destruct m as [ | p | p]; try lia.
  - destruct s; exact I.
  - destruct (e <=? emax - prec), s; exact I.
Qed.

Lemma nonneg_le (x : number) : nonneg x -> le #0%js x = true.
Proof. destruct x as [[ | ] | [ | ] | | [ | ] m e]; cbn; intros H; auto; contradiction. Qed.

(** A positive mantissa at or below its canonical exponent is rounded to a
    canonical one (or to zero, or overflows), with the sign asked for. *)
Lemma binary_round_aux_pack (s : bool) (m e : Z) (l : location) :
  0 < m ->
  e <= fexp prec emax (Zdigits2 m + e) ->
  exists m2 e2,
    0 <= m2 /\ (m2 = 0 \/ fexp prec emax (Zdigits2 m2 + e2) = e2) /\
    binary_round_aux prec emax s m e l = pack s m2 e2.
Proof.
  intros Hm He.
  destruct (Rounding.binary_round_aux_spec s m e l Hm) as [Hm1 [m2 [Hm2 ->]]].
  pose proof (Rounding.Zdigits2_bounds m Hm) as [Hlo Hhi].
  pose proof (Rounding.Zdigits2_pos m Hm) as Hd.
  rewrite Rounding.fexp_eq in *.
  set (d := Zdigits2 m) in *.
  replace (Z.max e (Z.max (d + e - 53) (-1074))) with (Z.max (d + e - 53) (-1074)) in * by lia.
  set (e1 := Z.max (d + e - 53) (-1074)) in *.
  assert (Hp : 0 < 2 ^ (e1 - e)) by (apply Z.pow_pos_nonneg; lia).
  assert (H0 : 0 <= m / 2 ^ (e1 - e)) by (apply Z.div_pos; lia).
  destruct (Z.eqb_spec m2 (2 ^ 53)) as [Heq | Hne].
  - exists (2 ^ 52), (e1 + 1). split; [lia | ]. split; [right | reflexivity].
    change (Zdigits2 (2 ^ 52)) with 53. rewrite Rounding.fexp_eq. lia.
  - exists m2, e1. split; [lia | ]. split; [ | reflexivity].
    destruct (Z.eq_dec m2 0) as [Hz | Hnz]; [left; exact Hz | right].
    rewrite Rounding.fexp_eq.
    assert (Hd2 : Zdigits2 m2 <= 53) by (apply Rounding.Zdigits2_le; lia).
    destruct (Z_le_gt_dec (-1074) (d + e - 53)) as [Hn | Hs].
    + assert (He1 : e1 = d + e - 53) by (unfold e1; lia).
      assert (Hge : 2 ^ 52 <= m / 2 ^ (e1 - e)).
      { apply Z.div_le_lower_bound; [lia | ].
        rewrite Z.mul_comm, <- Z.pow_add_r by lia.
        replace (52 + (e1 - e)) with (d - 1) by lia. exact Hlo. }
      assert (53 <= Zdigits2 m2) by (apply Rounding.Zdigits2_ge; lia).
      lia.
    + assert (He1 : e1 = -1074) by (unfold e1; lia). lia.
Qed.

(** Rounding nothing: the result is a zero or the least subnormal. *)
Lemma binary_round_aux_zero (s : bool) (l : location) :
  binary_round_aux prec emax s 0 (-1074) l = pack s 0 (-1074) \/
  binary_round_aux prec emax s 0 (-1074) l = pack s 1 (-1074).
Proof. destruct s, l as [ | [ | | ]]; vm_compute; auto. Qed.

(** The quotient by 200 of a valid finite Number: a double of the same
    sign, possibly a zero. *)
Lemma div_200_pack (s : bool) (m : positive) (e : Z) :
  valid (S754_finite s m e) = true ->
  exists m2 e2,
    0 <= m2 /\ (m2 = 0 \/ fexp prec emax (Zdigits2 m2 + e2) = e2) /\
    (S754_finite s m e / #200)%js = pack s m2 e2.
Proof.
  intros Hv.
  change (#200)%js with (S754_finite false 7036874417766400 (-45)).
  destruct (valid_mantissa _ _ _ Hv) as [Hm [He Hn]].
  pose proof (Rounding.Zdigits2_bounds (Zpos m) ltac:(lia)) as [Hlo Hhi].
  pose proof (Rounding.Zdigits2_pos (Zpos m) ltac:(lia)) as Hd.
  assert (Hd53 : Zdigits2 (Zpos m) <= 53) by (apply Rounding.Zdigits2_le; lia).
  unfold div, SFdiv, SFdiv_core_binary.
  change (Zdigits2 (Zpos 7036874417766400)) with 53.
  rewrite Rounding.fexp_eq, Rounding.xorb_false_r'.
  set (d := Zdigits2 (Zpos m)) in *.
  replace (Z.min (Z.max (d + e - (53 + -45) - 53) (-1074)) (e - -45))
    with (Z.max (d + e - 61) (-1074)) by lia.
  set (e' := Z.max (d + e - 61) (-1074)).
  destruct (e - -45 - e') as [ | p | p] eqn:Es; try lia.
  rewrite Z.shiftl_mul_pow2 by lia.
  assert (Hp : 0 < 2 ^ Zpos p) by (apply Z.pow_pos_nonneg; lia).
  pose proof (Z_div_mod (Zpos m * 2 ^ Zpos p) 7036874417766400 ltac:(lia)) as Hdm.
  destruct (Z.div_eucl (Zpos m * 2 ^ Zpos p) 7036874417766400) as [q r].
  destruct Hdm as [Hq Hr].
  assert (Hq0 : 0 <= q) by nia.
  assert (Hnormal : -1074 < d + e - 61 -> 2 ^ 52 <= q).
  { intros Hs.
    assert (Hpd : Zpos p = 106 - d) by (unfold e' in Es; lia).
    assert (H105 : 2 ^ 105 <= Zpos m * 2 ^ Zpos p).
    { replace 105 with (d - 1 + Zpos p) by lia.
      rewrite Z.pow_add_r by lia. nia. }
    lia. }
  destruct (Z.eq_dec q 0) as [-> | Hqn].
  - assert (He' : e' = -1074).
    { destruct (Z_le_gt_dec (d + e - 61) (-1074)) as [Hs | Hs]; [unfold e'; lia | ].
      specialize (Hnormal ltac:(lia)). lia. }
    rewrite He'.
    destruct (binary_round_aux_zero s (new_location 7036874417766400 r)) as [-> | ->].
    + exists 0, (-1074). auto with zarith.
    + exists 1, (-1074). split; [lia | ]. split; [right; reflexivity | reflexivity].
  - apply binary_round_aux_pack; [lia | ].
    rewrite Rounding.fexp_eq.
    destruct (Z_le_gt_dec (d + e - 61) (-1074)) as [Hs | Hs]; [unfold e'; lia | ].
    specialize (Hnormal ltac:(lia)).
    assert (53 <= Zdigits2 q) by (apply Rounding.Zdigits2_ge; lia).
    unfold e'. lia.
Qed.

(** The quotient by 200 of a valid non-negative Number is one. *)
Lemma div_200_valid (x : number) :
  valid x = true -> le #0%js x = true ->
  valid (x / #200)%js = true /\ le #0%js (x / #200)%js = true.
Proof.
  intros Hv H0.
  destruct x as [s | [ | ] | | [ | ] m e]; try discriminate.
  - destruct s; split; reflexivity.
  - split; reflexivity.
  - destruct (div_200_pack false m e Hv) as [m2 [e2 [Hm2 [Hc ->]]]].
    split; [apply pack_valid; assumption | ].
    apply nonneg_le. exact (pack_sign false m2 e2 Hm2).
Qed.

(** The product of a finite Number by a normal one: a double of the
    product of the signs, possibly a zero. *)
Lemma mul_pack (sx : bool) (mx : positive) (ex : Z)
    (sy : bool) (my : positive) (ey : Z) :
  2 ^ 52 <= Zpos my ->
  exists m2 e2,
    0 <= m2 /\ (m2 = 0 \/ fexp prec emax (Zdigits2 m2 + e2) = e2) /\
    (S754_finite sx mx ex * S754_finite sy my ey)%js = pack (xorb sx sy) m2 e2.
Proof.
  intros Hy. unfold mul. cbn [SFmul]. rewrite Pos2Z.inj_mul.
  assert (H52 : 53 <= Zdigits2 (Zpos mx * Zpos my)).
  { apply Rounding.Zdigits2_ge; [ | lia]. nia. }
  apply binary_round_aux_pack; [lia | ].
  rewrite Rounding.fexp_eq. lia.
Qed.

End Rounded.

(** ** The derived state of an arbitrary non-negative Number *)

Lemma Math_min_one (q : number) :
  valid q = true -> le #0%js q = true ->
  valid (Math_min q #1%js) = true /\
  le #0%js (Math_min q #1%js) = true /\
  le (Math_min q #1%js) #1%js = true.
Proof.
  intros Hv H0. rewrite of_Z_1.
  destruct q as [s | [ | ] | | [ | ] m e]; try discriminate.
  - destruct s; repeat split.
  - repeat split.
  - unfold Math_min, SFcompare. rewrite Rounding.compare_cont_Eq.
    destruct (Z.compare_spec e (-52)) as [He | He | He].
    + destruct (Z.compare_spec (Zpos m) 4503599627370496) as [Hm | Hm | Hm].
      * repeat split.
      * repeat split; try assumption.
        unfold le, SFleb, SFcompare. rewrite Rounding.compare_cont_Eq.
        destruct (Z.compare_spec e (-52)); try lia.
        destruct (Z.compare_spec (Zpos m) 4503599627370496); try lia; reflexivity.
      * repeat split.
    + repeat split; try assumption.
      unfold le, SFleb, SFcompare.
      destruct (Z.compare_spec e (-52)); try lia; reflexivity.
    + repeat split.
Qed.

(** Whatever non-negative Number the parent passes as pledge count, an
    integer or not, +Infinity included, the fill level is a double of
    [0, 1]. *)
Lemma fillLevel_unit_any (x : number) :
  valid x = true -> le #0%js x = true ->
  valid (fillLevel x) = true /\
  le #0%js (fillLevel x) = true /\ le (fillLevel x) #1%js = true.
Proof.
  intros Hv H0. destruct (Rounded.div_200_valid x Hv H0) as [Hq Hq0].
  exact (Math_min_one _ Hq Hq0).
Qed.

(** The product of a finite Number of magnitude below 1 by a normal
    constant is at most the constant in magnitude. *)
Lemma mul_const_upto (s : bool) (m : positive) (e : Z) (c : positive) (ec : Z) :
  Zpos m < 2 ^ 53 -> e <= -53 ->
  2 ^ 52 <= Zpos c < 2 ^ 53 -> -1073 <= ec <= 971 ->
  upto (Zpos c) ec (S754_finite s m e * S754_finite false c ec)%js.
Proof.
  intros Hm He Hc Hec.
  set (M := Zpos m * Zpos c).
  assert (HM : 0 < M) by (unfold M; lia).
  assert (HM' : M < 2 ^ 106).
  { unfold M. change (2 ^ 106) with (2 ^ 53 * 2 ^ 53). nia. }
  destruct (Z_lt_le_dec M (2 ^ 105)) as [Hlt | Hge];
    [ | destruct (Z_le_gt_dec e (-54)) as [He' | He'] ].
  - apply upto_mono with (mc := 2 ^ 52); [lia | ].
    replace ec with (ec + 52 - 52) at 1 by lia.
    apply (below_upto (xorb s false) (ec + 52)).
    apply mul_below; [lia | | lia]. fold M.
    assert (Zdigits2 M <= 105) by (apply Rounding.Zdigits2_le; lia). lia.
  - apply upto_mono with (mc := 2 ^ 52); [lia | ].
    replace ec with (ec + 52 - 52) at 1 by lia.
    apply (below_upto (xorb s false) (ec + 52)).
    apply mul_below; [lia | | lia]. fold M.
    assert (Zdigits2 M <= 106) by (apply Rounding.Zdigits2_le; lia). lia.
  - assert (e = -53) by lia. subst e.
    unfold mul. cbn [SFmul]. rewrite Pos2Z.inj_mul. fold M.
    destruct (Rounding.binary_round_aux_spec (xorb s false) M (-53 + ec) loc_Exact HM)
      as [Hm1 [m2 [Hm2 ->]]].
    assert (Hd : Zdigits2 M = 106) by (apply Rounding.Zdigits2_unique; lia).
    rewrite Hd, Rounding.fexp_eq in *.
    replace (Z.max (-53 + ec) (Z.max (106 + (-53 + ec) - 53) (-1074))) with ec in * by lia.
    replace (ec - (-53 + ec)) with 53 in * by lia.
    assert (Hlo : 2 ^ 52 <= M / 2 ^ 53) by (apply Z.div_le_lower_bound; lia).
    assert (Hhi : M / 2 ^ 53 < Zpos c)
      by (apply Z.div_lt_upper_bound; unfold M; [lia | nia]).
    destruct (Z.eqb_spec m2 (2 ^ 53)) as [Heq | _]; [lia | ].
    destruct m2 as [ | p | p]; try lia.
    unfold pack. destruct (Z.leb_spec ec (emax - prec)) as [_ | Hgt].
    + cbn [upto]. lia.
    + unfold emax, prec in Hgt. lia.
Qed.

Lemma round_percent_values :
  forallb (fun z => strict_eq (integral z) #z%js && le #0%js (integral z)
                    && le (integral z) #100%js) (range 0 101) = true.
Proof. vm_compute. reflexivity. Qed.

(** Rounding a Number of [0, 100] gives an integer of [0, 100]. *)
Lemma Math_round_percent (y : number) :
  le #0%js y = true -> upto 7036874417766400 (-46) y ->
  exists k, 0 <= k <= 100 /\ strict_eq (Math_round y) #k%js = true /\
            le #0%js (Math_round y) = true /\ le (Math_round y) #100%js = true.
Proof.
  intros H0 Hu.
  destruct y as [s | [ | ] | | [ | ] m e]; try discriminate; cbn [upto] in Hu;
    try contradiction.
  - exists 0. destruct s; repeat split; lia.
  - destruct Hu as [Hm He].
    unfold Math_round. destruct (Z.leb_spec 0 e) as [Hge | _]; [lia | ].
    cbn [signed]. rewrite Z.shiftr_div_pow2 by lia.
    set (P := 2 ^ (- e)).
    assert (HP : 2 ^ 46 <= P) by (apply Z.pow_le_mono_r; lia).
    assert (HP2 : 2 ^ (1 - e) = 2 * P).
    { unfold P. replace (1 - e) with (Z.succ (- e)) by lia.
      apply Z.pow_succ_r. lia. }
    rewrite HP2.
    set (z := (2 * Zpos m + P) / (2 * P)).
    assert (Hz : 0 <= z <= 100).
    { split; [apply Z.div_pos; lia | ].
      assert (z < 101); [ | lia].
      apply Z.div_lt_upper_bound; [lia | ].
      destruct He as [He | [He Hm']].
      - assert (2 ^ 47 <= P) by (apply Z.pow_le_mono_r; lia). lia.
      - assert (P = 2 ^ 46) by (unfold P; rewrite He; reflexivity). lia. }
    exists z. split; [exact Hz | ].
    pose proof (range_forall _ 0 101 round_percent_values z ltac:(lia)) as H.
    cbv beta in H. apply andb_prop in H as [H H3]. apply andb_prop in H as [H1 H2].
    fold (integral z). auto.
Qed.

(** X2.  For every non-negative Number the displayed percentage is an
    integer of [0, 100]. *)
Theorem fillPercentage_any (x : number) :
  valid x = true -> le #0%js x = true ->
  exists k, 0 <= k <= 100 /\ strict_eq (fillPercentage x) #k%js = true /\
            le #0%js (fillPercentage x) = true /\
            le (fillPercentage x) #100%js = true.
Proof.
  intros Hv H0. destruct (fillLevel_unit_any x Hv H0) as [Hr [Hr0 Hr1]].
  unfold fillPercentage.
  change (#100)%js with (S754_finite false 7036874417766400 (-46)).
  destruct (unit_below _ Hr Hr0 Hr1) as [[s ->] | [m [e [-> Hb]]]].
  - exists 0. destruct s; repeat split; lia.
  - cbn [below] in Hb. destruct Hb as [_ [Hm [He | [-> Hm']]]].
    + apply Math_round_percent.
      * destruct (Rounded.mul_pack false m e false 7036874417766400 (-46) ltac:(lia))
          as [m2 [e2 [Hm2 [_ ->]]]].
        apply Rounded.nonneg_le. exact (Rounded.pack_sign false m2 e2 Hm2).
      * apply mul_const_upto; lia.
    + replace m with 4503599627370496%positive by lia.
      exists 100. repeat split; lia.
Qed.

Lemma fillPercentage_any_witness :
  exists k, 0 <= k <= 100 /\ strict_eq (fillPercentage (dec 1135 10)) #k%js = true /\
            le #0%js (fillPercentage (dec 1135 10)) = true /\
            le (fillPercentage (dec 1135 10)) #100%js = true.
Proof. apply (fillPercentage_any (dec 1135 10)); reflexivity. Defined.

(** ** Rounding is to nearest *)

Module Nearest.

Lemma tracks_step (m k : Z) (mrs : shr_record) :
  0 <= m -> 0 <= k -> tracks m k mrs -> tracks m (k + 1) (shr_1 mrs).
Proof.
  intros Hm Hk [Hq Hrs].
  assert (Hp : 0 < 2 ^ k) by (apply Z.pow_pos_nonneg; lia).
  assert (Hp1 : 2 ^ (k + 1) = 2 ^ k * 2) by (rewrite Z.pow_add_r by lia; reflexivity).
  assert (Hmod : m mod 2 ^ (k + 1) = m mod 2 ^ k + 2 ^ k * ((m / 2 ^ k) mod 2)).
  { rewrite Hp1. apply Z.rem_mul_r; lia. }
  assert (Hdiv : m / 2 ^ (k + 1) = m / 2 ^ k / 2).
  { rewrite Hp1, Z.div_div by lia. reflexivity. }
  pose proof (Z.mod_pos_bound m (2 ^ k) Hp) as Hrem.
  assert (Hq0 : 0 <= m / 2 ^ k) by (apply Z.div_pos; lia).
  destruct mrs as [q r s]. cbn [shr_m shr_r shr_s] in *. subst q.
  unfold tracks. rewrite Hmod, Hdiv, Hp1.
  destruct (m / 2 ^ k) as [ | [p | p | ] | p] eqn:Eq; try lia;
    cbn [shr_1 shr_m shr_r shr_s].
  - change (0 mod 2) with 0. change (0 / 2) with 0.
    split; [reflexivity | ]. destruct r, s; cbn [orb]; lia.
  - replace (Zpos p~1 mod 2) with 1
      by (apply Z.mod_unique with (q := Zpos p); lia).
    split; [apply Z.div_unique with (r := 1); lia | ].
    destruct r, s; cbn [orb]; lia.
  - replace (Zpos p~0 mod 2) with 0
      by (apply Z.mod_unique with (q := Zpos p); lia).
    split; [apply Z.div_unique with (r := 0); lia | ].
    destruct r, s; cbn [orb]; lia.
  - change (1 mod 2) with 1. change (1 / 2) with 0.
    split; [reflexivity | ]. destruct r, s; cbn [orb]; lia.
Qed.

Lemma tracks_iter (m : Z) (p : positive) :
  0 <= m ->
  forall k mrs, 0 <= k -> tracks m k mrs ->
    tracks m (k + Zpos p) (iter_pos shr_1 p mrs).
Proof.
  intros Hm. induction p as [p IH | p IH | ]; intros k mrs Hk Ht; cbn [iter_pos].
  - replace (k + Zpos p~1) with (k + 1 + Zpos p + Zpos p) by lia.
    apply IH; [lia | ]. apply IH; [lia | ]. apply tracks_step; assumption.
  - replace (k + Zpos p~0) with (k + Zpos p + Zpos p) by lia.
    apply IH; [lia | ]. apply IH; assumption.
  - apply tracks_step; assumption.
Qed.

(** The rounded mantissa is within half a unit of the exact one. *)
Lemma tracks_nearest (m n : Z) (mrs : shr_record) :
  0 <= m -> 0 <= n -> tracks m n mrs ->
  2 * m - 2 ^ n <= 2 * round_nearest_even (shr_m mrs) (loc_of_shr_record mrs) * 2 ^ n
    <= 2 * m + 2 ^ n.
Proof.
  intros Hm Hn [Hq Hrs].
  assert (Hp : 0 < 2 ^ n) by (apply Z.pow_pos_nonneg; lia).
  pose proof (Z.div_mod m (2 ^ n) ltac:(lia)) as Hdm.
  pose proof (Z.mod_pos_bound m (2 ^ n) Hp) as Hrem.
  destruct mrs as [q r s]. cbn [shr_m shr_r shr_s] in *. subst q.
  set (q := m / 2 ^ n) in *. set (rem := m mod 2 ^ n) in *.
  destruct r, s; cbn [loc_of_shr_record round_nearest_even];
    try destruct (Z.even q); nia.
Qed.

(** The shape of a result rounded from an exact mantissa, with the error
    of the rounding. *)
Lemma binary_round_aux_nearest (s : bool) (m e : Z) :
  0 < m ->
  let e1 := Z.max e (fexp prec emax (Zdigits2 m + e)) in
  exists m2,
    2 * m - 2 ^ (e1 - e) <= 2 * m2 * 2 ^ (e1 - e) <= 2 * m + 2 ^ (e1 - e) /\
    0 <= m2 <= 2 ^ 53 /\
    binary_round_aux prec emax s m e loc_Exact =
      if m2 =? 2 ^ 53 then pack s (2 ^ 52) (e1 + 1) else pack s m2 e1.
Proof.
  intros Hm e1.
  pose proof (Rounding.Zdigits2_bounds m Hm) as [_ Hhi].
  pose proof (Rounding.Zdigits2_pos m Hm) as Hd.
  assert (He1 : -1074 <= e1 /\ e <= e1) by (unfold e1; rewrite Rounding.fexp_eq; lia).
  assert (Hp : 0 < 2 ^ (e1 - e)) by (apply Z.pow_pos_nonneg; lia).
  assert (Hm1 : 0 <= m / 2 ^ (e1 - e) < 2 ^ 53).
  { split; [apply Z.div_pos; lia | ].
    apply Z.div_lt_upper_bound; [lia | ].
    rewrite <- Z.pow_add_r by lia.
    apply Z.lt_le_trans with (1 := Hhi).
    apply Z.pow_le_mono_r; [lia | ].
    unfold e1; rewrite Rounding.fexp_eq; lia. }
  assert (Ht : tracks m (e1 - e) (fst (shr_fexp prec emax m e loc_Exact)) /\
               snd (shr_fexp prec emax m e loc_Exact) = e1).
  { unfold shr_fexp, shr. cbn [shr_record_of_loc].
    assert (T0 : tracks m 0 {| shr_m := m; shr_r := false; shr_s := false |}).
    { split; cbn [shr_m shr_r shr_s]; [rewrite Z.div_1_r; reflexivity | apply Z.mod_1_r]. }
    fold e1 in He1.
    destruct (fexp prec emax (Zdigits2 m + e) - e) as [ | p | p] eqn:En; cbn [fst snd].
    - replace (e1 - e) with 0 by (unfold e1; lia). split; [exact T0 | unfold e1; lia].
    - replace (e1 - e) with (0 + Zpos p) by (unfold e1; lia).
      split; [apply tracks_iter; [lia | lia | exact T0] | unfold e1; lia].
    - replace (e1 - e) with 0 by (unfold e1; lia). split; [exact T0 | unfold e1; lia]. }
  destruct Ht as [Ht Hs].
  unfold binary_round_aux.
  destruct (shr_fexp prec emax m e loc_Exact) as [mrs' e'] eqn:E1.
  cbn [fst snd] in Ht, Hs. subst e'.
  pose proof (tracks_nearest m (e1 - e) mrs' ltac:(lia) ltac:(lia) Ht) as Hn.
  pose proof (Rounding.round_nearest_even_range (shr_m mrs') (loc_of_shr_record mrs')) as Hr.
  set (m2 := round_nearest_even (shr_m mrs') (loc_of_shr_record mrs')) in *.
  destruct Ht as [Hq _]. rewrite Hq in Hr.
  exists m2. split; [exact Hn | ]. split; [lia | ].
  assert (Hm2 : 0 <= m2) by lia.
  pose proof (Rounding.shr_fexp_spec m2 e1 loc_Exact Hm2) as [Ht1 Ht2].
  destruct (shr_fexp prec emax m2 e1 loc_Exact) as [mrs'' e''] eqn:E2.
  cbn [fst snd] in Ht1, Ht2. subst e''. rewrite Ht2.
  destruct (Z.eqb_spec m2 (2 ^ 53)) as [Heq | Hne].
  - rewrite Heq. change (Zdigits2 (2 ^ 53)) with 54.
    rewrite Rounding.fexp_eq.
    replace (Z.max e1 (Z.max (54 + e1 - 53) (-1074))) with (e1 + 1) by lia.
    replace (e1 + 1 - e1) with 1 by lia. reflexivity.
  - assert (Hf : fexp prec emax (Zdigits2 m2 + e1) <= e1).
    { rewrite Rounding.fexp_eq.
      destruct (Z.eq_dec m2 0) as [-> | Hnz]; [simpl; lia | ].
      assert (Zdigits2 m2 <= 53) by (apply Rounding.Zdigits2_le; lia). lia. }
    replace (Z.max e1 (fexp prec emax (Zdigits2 m2 + e1))) with e1 by lia.
    rewrite Z.sub_diag, Z.div_1_r. reflexivity.
Qed.

End Nearest.

(** ** Rounding is monotone against a double *)

Module Monotone.

(** A value below the midpoint that follows the double [B * 2^eb] is
    rounded to at most that double. *)
Lemma round_le (s : bool) (m e B eb : Z) :
  0 < m -> e <= eb -> -1074 <= eb <= 971 -> 2 ^ 52 <= B < 2 ^ 53 ->
  2 * m < (2 * B + 1) * 2 ^ (eb - e) ->
  atmost s B eb (binary_round_aux prec emax s m e loc_Exact).
Proof.
  intros Hm He Heb HB Hv.
  destruct (Nearest.binary_round_aux_nearest s m e Hm) as [m2 [Hn [Hm2 ->]]].
  pose proof (Rounding.Zdigits2_bounds m Hm) as [Hlo _].
  pose proof (Rounding.Zdigits2_pos m Hm) as Hd.
  rewrite Rounding.fexp_eq in *.
  set (d := Zdigits2 m) in *.
  set (e1 := Z.max e (Z.max (d + e - 53) (-1074))) in *.
  assert (Hpn : 0 < 2 ^ (eb - e)) by (apply Z.pow_pos_nonneg; lia).
  assert (He1 : e1 <= eb).
  { destruct (Z_le_gt_dec e1 eb) as [H | H]; [exact H | exfalso].
    assert (Hde : 53 + (eb - e) <= d - 1) by (unfold e1 in H; lia).
    assert (2 ^ (53 + (eb - e)) <= 2 ^ (d - 1)) by (apply Z.pow_le_mono_r; lia).
    rewrite Z.pow_add_r in * by lia. nia. }
  assert (Hp1 : 0 < 2 ^ (e1 - e)) by (apply Z.pow_pos_nonneg; unfold e1; lia).
  assert (Hcase : e1 < eb \/ (e1 = eb /\ m2 <= B)).
  { destruct (Z.eq_dec e1 eb) as [Heq | Hne]; [right | left; lia].
    split; [exact Heq | ]. rewrite Heq in Hn. nia. }
  destruct (Z.eqb_spec m2 (2 ^ 53)) as [Heq | Hne].
  - unfold pack. change (2 ^ 52) with (Zpos 4503599627370496). cbv iota.
    destruct (Z.leb_spec (e1 + 1) (emax - prec)) as [_ | Hgt];
      [ | unfold emax, prec in Hgt; lia].
    cbn [atmost]. change (Zpos 4503599627370496) with (2 ^ 52).
    split; [reflexivity | ]. lia.
  - unfold pack. destruct m2 as [ | p | p]; [reflexivity | | lia].
    destruct (Z.leb_spec e1 (emax - prec)) as [_ | Hgt];
      [ | unfold emax, prec in Hgt; lia].
    cbn [atmost]. split; [reflexivity | ]. lia.
Qed.

(** A value at or above the double [B * 2^eb], or above the midpoint that
    precedes it, is rounded to at least that double. *)
Lemma round_ge (s : bool) (m e B eb : Z) :
  0 < m -> e <= eb -> -1074 <= eb -> 2 ^ 52 <= B < 2 ^ 53 ->
  B * 2 ^ (eb - e) <= m \/ (2 ^ 52 < B /\ (2 * B - 1) * 2 ^ (eb - e) < 2 * m) ->
  atleast s B eb (binary_round_aux prec emax s m e loc_Exact).
Proof.
  intros Hm He Heb HB Hv.
  destruct (Nearest.binary_round_aux_nearest s m e Hm) as [m2 [Hn [Hm2 ->]]].
  pose proof (Rounding.Zdigits2_bounds m Hm) as [_ Hhi].
  pose proof (Rounding.Zdigits2_pos m Hm) as Hd.
  rewrite Rounding.fexp_eq in *.
  set (d := Zdigits2 m) in *.
  set (e1 := Z.max e (Z.max (d + e - 53) (-1074))) in *.
  assert (Hpn : 0 < 2 ^ (eb - e)) by (apply Z.pow_pos_nonneg; lia).
  assert (H52 : 2 ^ 52 * 2 ^ (eb - e) <= m) by nia.
  assert (He1 : eb <= e1).
  { assert (52 + (eb - e) < d); [ | unfold e1; lia].
    destruct (Z_lt_le_dec (52 + (eb - e)) d) as [H | H]; [exact H | exfalso].
    assert (2 ^ d <= 2 ^ (52 + (eb - e))) by (apply Z.pow_le_mono_r; lia).
    rewrite Z.pow_add_r in * by lia. lia. }
  assert (Hp1 : 0 < 2 ^ (e1 - e)) by (apply Z.pow_pos_nonneg; unfold e1; lia).
  assert (Hcase : eb < e1 \/ (e1 = eb /\ B <= m2)).
  { destruct (Z.eq_dec e1 eb) as [Heq | Hne]; [right | left; lia].
    split; [exact Heq | ]. rewrite Heq in Hn. nia. }
  assert (Hm2pos : 0 < m2).
  { destruct (Z.eq_dec m2 0) as [Hz | Hz]; [exfalso | lia].
    rewrite Hz in Hn.
    assert (Hde : e1 - e <= d - 53).
    { unfold e1. lia. }
    assert (2 ^ (e1 - e) <= 2 ^ (d - 53)) by (apply Z.pow_le_mono_r; lia).
    assert (Hs : 2 ^ (d - 1) = 2 ^ 52 * 2 ^ (d - 53)).
    { rewrite <- Z.pow_add_r by lia. f_equal. lia. }
    pose proof (Rounding.Zdigits2_bounds m Hm) as [Hlo _]. fold d in Hlo.
    assert (0 < 2 ^ (d - 53)) by (apply Z.pow_pos_nonneg; lia).
    nia. }
  destruct (Z.eqb_spec m2 (2 ^ 53)) as [Heq | Hne].
  - unfold pack. change (2 ^ 52) with (Zpos 4503599627370496). cbv iota.
    destruct (e1 + 1 <=? emax - prec); [ | reflexivity].
    cbn [atleast]. split; [reflexivity | ]. lia.
  - unfold pack. destruct m2 as [ | p | p]; [lia | | lia].
    destruct (e1 <=? emax - prec); [ | reflexivity].
    cbn [atleast]. split; [reflexivity | ]. lia.
Qed.

(** [binary_round] shifts the mantissa to the left, which keeps the value. *)
Lemma binary_round_exact (s : bool) (m : positive) (e : Z) :
  exists m' e',
    binary_round prec emax s m e = binary_round_aux prec emax s (Zpos m') e' loc_Exact /\
    e' <= e /\ Zpos m' = Zpos m * 2 ^ (e - e').
Proof.
  unfold binary_round.
  pose proof (Rounding.shl_align_spec m e (fexp prec emax (Zpos (digits2_pos m) + e))) as [H1 H2].
  destruct (shl_align m e (fexp prec emax (Zpos (digits2_pos m) + e))) as [mz ez].
  cbn [fst snd] in H1, H2.
  exists mz, ez. split; [reflexivity | ]. split; [lia | ]. rewrite H2, H1. reflexivity.
Qed.

Lemma binary_round_le (s : bool) (m : positive) (e B eb : Z) :
  e <= eb -> -1074 <= eb <= 971 -> 2 ^ 52 <= B < 2 ^ 53 ->
  2 * Zpos m < (2 * B + 1) * 2 ^ (eb - e) ->
  atmost s B eb (binary_round prec emax s m e).
Proof.
  intros He Heb HB Hv.
  destruct (binary_round_exact s m e) as [m' [e' [-> [He' Hm']]]].
  apply round_le; try lia.
  rewrite Hm'. replace (eb - e') with (eb - e + (e - e')) by lia.
  rewrite Z.pow_add_r by lia.
  assert (0 < 2 ^ (e - e')) by (apply Z.pow_pos_nonneg; lia). nia.
Qed.

Lemma binary_round_ge (s : bool) (m : positive) (e B eb : Z) :
  e <= eb -> -1074 <= eb -> 2 ^ 52 <= B < 2 ^ 53 ->
  B * 2 ^ (eb - e) <= Zpos m \/ (2 ^ 52 < B /\ (2 * B - 1) * 2 ^ (eb - e) < 2 * Zpos m) ->
  atleast s B eb (binary_round prec emax s m e).
Proof.
  intros He Heb HB Hv.
  destruct (binary_round_exact s m e) as [m' [e' [-> [He' Hm']]]].
  apply round_ge; try lia.
  rewrite Hm'. replace (eb - e') with (eb - e + (e - e')) by lia.
  rewrite Z.pow_add_r by lia.
  assert (0 < 2 ^ (e - e')) by (apply Z.pow_pos_nonneg; lia).
  assert (0 < 2 ^ (eb - e)) by (apply Z.pow_pos_nonneg; lia).
  destruct Hv as [Hv | [HB' Hv]]; [left | right; split; [exact HB' | ]]; nia.
Qed.

(** The sum of two finite Numbers: the exact sum of the aligned mantissas,
    rounded. *)
Lemma add_finite (sx : bool) (mx : positive) (ex : Z)
    (sy : bool) (my : positive) (ey : Z) :
  (S754_finite sx mx ex + S754_finite sy my ey)%js =
  binary_normalize prec emax
    (cond_Zopp sx (Zpos mx * 2 ^ (ex - Z.min ex ey))
     + cond_Zopp sy (Zpos my * 2 ^ (ey - Z.min ex ey)))
    (Z.min ex ey) false.
Proof.
  unfold add, SFadd.
  destruct (Rounding.shl_align_spec mx ex (Z.min ex ey)) as [_ ->].
  destruct (Rounding.shl_align_spec my ey (Z.min ex ey)) as [_ ->].
  replace (Z.min ex (Z.min ex ey)) with (Z.min ex ey) by lia.
  replace (Z.min ey (Z.min ex ey)) with (Z.min ex ey) by lia.
  reflexivity.
Qed.

Lemma atmost_le (s : bool) (B : positive) (eb : Z) (x : number) :
  atmost s (Zpos B) eb x ->
  le (S754_finite true B eb) x = true /\ le x (S754_finite false B eb) = true.
Proof.
  intros H. apply upto_le.
  destruct x as [s' | s' | | s' m e]; cbn [atmost] in H; cbn [upto]; auto.
  destruct H as [_ H]. exact H.
Qed.

Lemma atleast_le (B : positive) (eb : Z) (x : number) :
  atleast false (Zpos B) eb x -> le (S754_finite false B eb) x = true.
Proof.
  destruct x as [s' | s' | | s' m e]; cbn [atleast]; try contradiction.
  - intros ->. reflexivity.
  - intros [-> He]. unfold le, SFleb, SFcompare. rewrite Rounding.compare_cont_Eq.
    destruct (Z.compare_spec eb e); [ | reflexivity | lia].
    destruct (Z.compare_spec (Zpos B) (Zpos m)); [reflexivity | reflexivity | lia].
Qed.

End Monotone.

(** ** One render pass, whatever Number the pledge count is *)

(** The integer part of a non-negative Number that is at most the
    integer [c]. *)
Lemma floor_upto (y : number) (c cm ce : Z) :
  nonneg y -> upto cm ce y ->
  cm = c * 2 ^ (- ce) -> -52 <= ce < 0 -> 2 ^ (52 + ce) <= c ->
  exists z, 0 <= z <= c /\ Math_floor y = integral z.
Proof.
  intros Hs Hu Hcm Hce Hc.
  assert (Hc0 : 0 < c) by (pose proof (Z.pow_pos_nonneg 2 (52 + ce)); lia).
  destruct y as [[ | ] | [ | ] | | [ | ] m e]; cbn [nonneg] in Hs; try contradiction;
    cbn [upto] in Hu; try contradiction.
  - exists 0. split; [lia | reflexivity].
  - destruct Hu as [Hm He].
    exists (Zpos m / 2 ^ (- e)).
    assert (Hp : 0 < 2 ^ (- e)) by (apply Z.pow_pos_nonneg; lia).
    split.
    + split; [apply Z.div_pos; lia | ].
      destruct He as [He | [-> Hm']].
      * assert (Zpos m / 2 ^ (- e) < c); [ | lia].
        apply Z.div_lt_upper_bound; [lia | ].
        assert (2 ^ (1 - ce) <= 2 ^ (- e)) by (apply Z.pow_le_mono_r; lia).
        assert (2 ^ 53 = 2 ^ (52 + ce) * 2 ^ (1 - ce)).
        { rewrite <- Z.pow_add_r by lia. f_equal. lia. }
        assert (0 < 2 ^ (1 - ce)) by (apply Z.pow_pos_nonneg; lia).
        nia.
      * apply Z.div_le_upper_bound; [lia | ]. nia.
    + unfold Math_floor. destruct (Z.leb_spec 0 e) as [Hge | _]; [lia | ].
      cbn [signed]. rewrite Z.shiftr_div_pow2 by lia. reflexivity.
Qed.

(** A particle system of a fill level of [0, 1]: at most [c] markers. *)
Lemma markers_count_tight (r : number) (c : Z) :
  valid r = true -> le #0%js r = true -> le r #1%js = true ->
  c = 50 \/ c = 10 ->
  exists z, 0 <= z <= c /\
    Array_from_length (Math_floor (r * #c)%js) = Some (seq 0 (Z.to_nat z)) /\
    strict_eq #z%js (Math_floor (r * #c)%js) = true.
Proof.
  intros Hv H0 H1 Hc.
  destruct (unit_below r Hv H0 H1) as [[s ->] | [m [e [-> Hb]]]].
  { exists 0. split; [lia | ]. destruct Hc as [-> | ->], s; split; reflexivity. }
  assert (Hfl : exists z, 0 <= z <= c /\
                  Math_floor (S754_finite false m e * #c)%js = integral z).
  { cbn [below] in Hb. destruct Hb as [_ [Hm [He | [-> Hm']]]].
    - destruct Hc as [-> | ->].
      + change (#50)%js with (S754_finite false 7036874417766400 (-47)).
        apply floor_upto with (cm := 7036874417766400) (ce := -47); try lia.
        * destruct (Rounded.mul_pack false m e false 7036874417766400 (-47) ltac:(lia))
            as [m2 [e2 [Hm2 [_ ->]]]].
          exact (Rounded.pack_sign false m2 e2 Hm2).
        * apply mul_const_upto; lia.
      + change (#10)%js with (S754_finite false 5629499534213120 (-49)).
        apply floor_upto with (cm := 5629499534213120) (ce := -49); try lia.
        * destruct (Rounded.mul_pack false m e false 5629499534213120 (-49) ltac:(lia))
            as [m2 [e2 [Hm2 [_ ->]]]].
          exact (Rounded.pack_sign false m2 e2 Hm2).
        * apply mul_const_upto; lia.
    - replace m with 4503599627370496%positive by lia.
      exists c. split; [lia | ]. destruct Hc as [-> | ->]; vm_compute; reflexivity. }
  destruct Hfl as [z [Hz ->]].
  exists z. split; [exact Hz | ].
  pose proof (range_forall _ 0 65 Array_from_small z ltac:(lia)) as H.
  cbv beta in H. apply andb_prop in H as [H1' H2]. apply Z.eqb_eq in H1'.
  split; [ | exact H2].
  unfold Array_from_length. cbv zeta. rewrite H1'.
  destruct (Z.leb_spec z (2 ^ 32 - 1)); [reflexivity | lia].
Qed.

(** X1.  Whatever non-negative Number the parent passes as pledge count
    (an integer or not, +Infinity included), the fill level is a double of
    [0, 1], the render succeeds, shows exactly one status message and
    holds at most 10 floating markers and at most 50 particles. *)
Theorem render_any_count (x : number) (rng : Rng) :
  valid x = true -> le #0%js x = true ->
  valid (fillLevel x) = true /\
  le #0%js (fillLevel x) = true /\ le (fillLevel x) #1%js = true /\
  exists v t,
    fst (LungsModel3D x rng) = Some v /\
    caption v = (x, fillPercentage x) /\ barWidth v = fillPercentage x /\
    status v = [t] /\
    (length (floats v) <= 10)%nat /\ (length (particles v) <= 50)%nat /\
    strict_eq #(Z.of_nat (length (floats v)))%js
              (Math_floor (fillLevel x * #10)%js) = true /\
    strict_eq #(Z.of_nat (length (particles v)))%js
              (Math_floor (fillLevel x * #50)%js) = true.
Proof.
  intros Hx Hx0. destruct (fillLevel_unit_any x Hx Hx0) as [Hv [H0 H1]].
  split; [exact Hv | ]. split; [exact H0 | ]. split; [exact H1 | ].
  destruct (markers_count_tight _ 10 Hv H0 H1 ltac:(lia)) as [z [Hz [Ha He]]].
  destruct (markers_count_tight _ 50 Hv H0 H1 ltac:(lia)) as [z' [Hz' [Ha' He']]].
  assert (Hnan : is_nan (fillLevel x) = false).
  { destruct (fillLevel x); try reflexivity; discriminate. }
  destruct (tier_total _ Hnan) as [t Ht].
  unfold LungsModel3D, bind.
  rewrite (floatingParticles_run _ rng z Ha).
  rewrite (LungsModel_run _ _ _ z' Ha').
  unfold ret. cbn [fst].
  eexists. exists t. split; [reflexivity | ].
  cbn [caption barWidth status floats particles].
  rewrite !mapM_length, !length_seq, !Z2Nat.id by lia.
  rewrite statusMessages_tier, Ht.
  repeat split; try assumption; lia.
Qed.

Lemma render_any_count_witness :
  valid (fillLevel (dec 1135 10)) = true /\
  le #0%js (fillLevel (dec 1135 10)) = true /\
  le (fillLevel (dec 1135 10)) #1%js = true /\
  exists v t,
    fst (LungsModel3D (dec 1135 10) (fun _ => dec 1 10)) = Some v /\
    caption v = (dec 1135 10, fillPercentage (dec 1135 10)) /\
    barWidth v = fillPercentage (dec 1135 10) /\
    status v = [t] /\
    (length (floats v) <= 10)%nat /\ (length (particles v) <= 50)%nat /\
    strict_eq #(Z.of_nat (length (floats v)))%js
              (Math_floor (fillLevel (dec 1135 10) * #10)%js) = true /\
    strict_eq #(Z.of_nat (length (particles v)))%js
              (Math_floor (fillLevel (dec 1135 10) * #50)%js) = true.
Proof. apply (render_any_count (dec 1135 10) (fun _ => dec 1 10)); reflexivity. Defined.

(** ** Saturation, for every Number *)

Lemma fillLevel_saturates_any (x : number) :
  valid x = true -> le #200%js x = true -> fillLevel x = #1%js.
Proof.
  intros Hv H200. unfold fillLevel. apply Rounding.min_one_above.
  revert H200. change (#200)%js with (S754_finite false 7036874417766400 (-45)).
  destruct x as [s | [ | ] | | [ | ] m e]; try discriminate.
  - intros _. reflexivity.
  - unfold le, SFleb, SFcompare. rewrite Rounding.compare_cont_Eq. intros H200.
    destruct (valid_mantissa _ _ _ Hv) as [Hm [He Hn]].
    assert (Hme : -45 < e \/ (e = -45 /\ 7036874417766400 <= Zpos m)).
    { destruct (Z.compare_spec (-45) e); [right | left; lia | discriminate].
      split; [lia | ].
      destruct (Z.compare_spec 7036874417766400 (Zpos m)); [lia | lia | discriminate]. }
    assert (Hd : Zdigits2 (Zpos m) = 53) by (apply Rounding.Zdigits2_unique; lia).
    rewrite Rounding.div_normal; [ | exact Hd | reflexivity | lia].
    cbn [xorb].
    assert (Hq : 2 ^ 52 <= Zpos m * 2 ^ 53 / 7036874417766400)
      by (apply Z.div_le_lower_bound; lia).
    assert (Hdq : 53 <= Zdigits2 (Zpos m * 2 ^ 53 / 7036874417766400))
      by (apply Rounding.Zdigits2_ge; [exact Hq | lia]).
    assert (Hdq' : e = -45 -> 54 <= Zdigits2 (Zpos m * 2 ^ 53 / 7036874417766400)).
    { intros ->. apply Rounding.Zdigits2_ge; [ | lia].
      apply Z.div_le_lower_bound; lia. }
    apply Rounding.binary_round_aux_above; rewrite ?Rounding.fexp_eq; lia.
Qed.

(** X3.  From 200 on, integer or not and +Infinity included, the fill
    level is exactly 1: the page shows 100 percent, the last message, 10
    floating markers and 50 particles. *)
Theorem saturation_any (x : number) (rng : Rng) :
  valid x = true -> le #200%js x = true ->
  fillLevel x = #1%js /\ fillPercentage x = #100%js /\
  exists v,
    fst (LungsModel3D x rng) = Some v /\
    caption v = (x, #100%js) /\ barWidth v = #100%js /\ status v = [complete] /\
    length (floats v) = 10%nat /\ length (particles v) = 50%nat.
Proof.
  intros Hv H200. pose proof (fillLevel_saturates_any x Hv H200) as Hs.
  assert (Hp : fillPercentage x = #100%js)
    by (unfold fillPercentage; rewrite Hs; vm_compute; reflexivity).
  split; [exact Hs | ]. split; [exact Hp | ].
  unfold LungsModel3D. rewrite Hs, Hp.
  eexists. split; [reflexivity | ]. repeat split.
Qed.

Lemma saturation_any_witness :
  fillLevel (dec 2005 10) = #1%js /\ fillPercentage (dec 2005 10) = #100%js /\
  exists v,
    fst (LungsModel3D (dec 2005 10) (fun _ => dec 1 10)) = Some v /\
    caption v = (dec 2005 10, #100%js) /\ barWidth v = #100%js /\
    status v = [complete] /\
    length (floats v) = 10%nat /\ length (particles v) = 50%nat.
Proof. apply (saturation_any (dec 2005 10) (fun _ => dec 1 10)); reflexivity. Defined.

(** ** Negative Numbers and NaN as pledge count *)

Lemma nonpos_facts (x : number) :
  nonpos x ->
  Math_min x #1%js = x /\ le x #0%js = true /\ (x < dec 25 100)%js = true /\
  is_nan x = false.
Proof.
  rewrite of_Z_1, dec_25_100.
  destruct x as [[ | ] | [ | ] | | [ | ] m e]; cbn [nonpos]; try contradiction;
    intros _; repeat split.
Qed.

Lemma mul_nonpos (r : number) (c : positive) (ec : Z) :
  nonpos r -> 2 ^ 52 <= Zpos c -> nonpos (r * S754_finite false c ec)%js.
Proof.
  intros Hr Hc.
  destruct r as [[ | ] | [ | ] | | [ | ] m e]; cbn [nonpos] in Hr; try contradiction;
    try exact I.
  destruct (Rounded.mul_pack true m e false c ec Hc) as [m2 [e2 [Hm2 [_ ->]]]].
  exact (Rounded.pack_sign true m2 e2 Hm2).
Qed.

(** The array whose length is not above zero is empty. *)
Lemma Array_from_nonpos (y : number) :
  nonpos y -> Array_from_length (Math_floor y) = Some [].
Proof.
  destruct y as [[ | ] | [ | ] | | [ | ] m e]; cbn [nonpos]; try contradiction;
    intros _; try reflexivity.
  unfold Math_floor. destruct (0 <=? e); [reflexivity | ].
  cbn [signed].
  assert (Hz : Z.shiftr (Zneg m) (- e) < 0) by (apply Z.shiftr_neg; lia).
  destruct (Z.eqb_spec (Z.shiftr (Zneg m) (- e)) 0) as [E | _]; [lia | ].
  pose proof (of_Z_above_neg (Z.shiftr (Zneg m) (- e)) 0 ltac:(lia) ltac:(lia)) as Ha.
  destruct (of_Z (Z.shiftr (Zneg m) (- e))) as [s' | s' | | s' m' e'];
    cbn [above] in Ha; try contradiction.
  - subst s'. reflexivity.
  - destruct Ha as [-> _]. reflexivity.
Qed.

(** Rounding a Number that is not above zero gives one that is not. *)
Lemma round_nonpos (y : number) : nonpos y -> le (Math_round y) #0%js = true.
Proof.
  destruct y as [[ | ] | [ | ] | | [ | ] m e]; cbn [nonpos]; try contradiction;
    intros _; try reflexivity.
  unfold Math_round. destruct (Z.leb_spec 0 e) as [_ | He]; [reflexivity | ].
  cbn [signed]. rewrite Z.shiftr_div_pow2 by lia.
  set (P := 2 ^ (- e)).
  assert (HP : 0 < P) by (apply Z.pow_pos_nonneg; lia).
  assert (HP2 : 2 ^ (1 - e) = 2 * P).
  { unfold P. replace (1 - e) with (Z.succ (- e)) by lia. apply Z.pow_succ_r. lia. }
  rewrite HP2.
  set (z := (2 * Zneg m + P) / (2 * P)).
  assert (Hz : z <= 0).
  { assert (z < 1); [ | lia]. apply Z.div_lt_upper_bound; lia. }
  destruct (Z.eqb_spec z 0) as [_ | Hne]; [reflexivity | ].
  pose proof (of_Z_above_neg z 0 ltac:(lia) ltac:(lia)) as Ha.
  destruct (of_Z z) as [s' | s' | | s' m' e']; cbn [above] in Ha; try contradiction.
  - subst s'. reflexivity.
  - destruct Ha as [-> _]. reflexivity.
Qed.

Lemma fillLevel_nonpos (x : number) :
  valid x = true -> (x < #0)%js = true ->
  nonpos (fillLevel x) /\ fillLevel x = (x / #200)%js.
Proof.
  intros Hv Hneg.
  assert (Hq : nonpos (x / #200)%js).
  { destruct x as [[ | ] | [ | ] | | [ | ] m e]; try discriminate.
    - exact I.
    - destruct (Rounded.div_200_pack true m e Hv) as [m2 [e2 [Hm2 [_ ->]]]].
      exact (Rounded.pack_sign true m2 e2 Hm2). }
  unfold fillLevel. destruct (nonpos_facts _ Hq) as [-> _]. split; [exact Hq | reflexivity].
Qed.

(** X5.  For every negative Number, an integer or not and -Infinity
    included, the fill level is count / 200, never clamped and never above
    zero (it is -0 when the quotient underflows); the percentage is not
    above zero; the render succeeds with the starting message and without
    any marker. *)
Theorem negative_any (x : number) (rng : Rng) :
  valid x = true -> (x < #0)%js = true ->
  fillLevel x = (x / #200)%js /\
  le (fillLevel x) #0%js = true /\
  le (fillPercentage x) #0%js = true /\
  exists v,
    fst (LungsModel3D x rng) = Some v /\
    caption v = (x, fillPercentage x) /\
    status v = [starting] /\ floats v = [] /\ particles v = [].
Proof.
  intros Hv Hneg.
  destruct (fillLevel_nonpos x Hv Hneg) as [Hr Hq].
  destruct (nonpos_facts _ Hr) as [_ [Hle [Hlow _]]].
  split; [exact Hq | ]. split; [exact Hle | ].
  split.
  { unfold fillPercentage.
    change (#100)%js with (S754_finite false 7036874417766400 (-46)).
    apply round_nonpos, mul_nonpos; [exact Hr | lia]. }
  unfold LungsModel3D, floatingParticles, LungsModel.
  change (#10)%js with (S754_finite false 5629499534213120 (-49)).
  change (#50)%js with (S754_finite false 7036874417766400 (-47)).
  rewrite (Array_from_nonpos _ (mul_nonpos _ 5629499534213120 (-49) Hr ltac:(lia))).
  rewrite (Array_from_nonpos _ (mul_nonpos _ 7036874417766400 (-47) Hr ltac:(lia))).
  eexists. split; [reflexivity | ].
  cbn [caption status floats particles].
  repeat split.
  rewrite statusMessages_tier. unfold tier. rewrite Hlow. reflexivity.
Qed.

Lemma negative_any_witness :
  fillLevel (dec (-75) 10) = (dec (-75) 10 / #200)%js /\
  le (fillLevel (dec (-75) 10)) #0%js = true /\
  le (fillPercentage (dec (-75) 10)) #0%js = true /\
  exists v,
    fst (LungsModel3D (dec (-75) 10) (fun _ => dec 1 10)) = Some v /\
    caption v = (dec (-75) 10, fillPercentage (dec (-75) 10)) /\
    status v = [starting] /\ floats v = [] /\ particles v = [].
Proof. apply (negative_any (dec (-75) 10) (fun _ => dec 1 10)); reflexivity. Defined.

(** The fill level is NaN exactly when the count is. *)
Lemma fillLevel_nan (x : number) :
  valid x = true -> is_nan (fillLevel x) = is_nan x.
Proof.
  intros Hv.
  destruct x as [[ | ] | [ | ] | | [ | ] m e]; try reflexivity.
  - destruct (fillLevel_nonpos _ Hv eq_refl) as [Hr _].
    destruct (nonpos_facts _ Hr) as [_ [_ [_ ->]]]. reflexivity.
  - destruct (fillLevel_unit_any _ Hv eq_refl) as [_ [H0 _]].
    destruct (fillLevel (S754_finite false m e)); try reflexivity; discriminate.
Qed.

(** X4.  The status area is empty exactly when the pledge count is NaN
    (what a missing prop becomes): every other Number shows one message.
    With NaN the render still succeeds: the caption and the bar carry
    NaN, and there is no message and no marker. *)
Theorem status_empty_iff_nan (x : number) (rng : Rng) :
  valid x = true ->
  (statusMessages (fillLevel x) = [] <-> is_nan x = true) /\
  (is_nan x = false -> exists t, statusMessages (fillLevel x) = [t]) /\
  fst (LungsModel3D S754_nan rng) =
    Some {| caption := (S754_nan, S754_nan); barWidth := S754_nan;
            status := []; floats := []; particles := [] |}.
Proof.
  intros Hv.
  assert (Hone : is_nan x = false -> exists t, statusMessages (fillLevel x) = [t]).
  { intros Hn. rewrite <- (fillLevel_nan x Hv) in Hn.
    destruct (tier_total _ Hn) as [t Ht]. exists t.
    rewrite statusMessages_tier, Ht. reflexivity. }
  split; [ | split; [exact Hone | reflexivity]].
  split.
  - intros He. destruct (is_nan x) eqn:En; [reflexivity | ].
    destruct (Hone eq_refl) as [t Ht]. rewrite Ht in He. discriminate.
  - intros Hn. destruct x; try discriminate. reflexivity.
Qed.

Lemma status_empty_iff_nan_witness :
  (statusMessages (fillLevel (dec 1135 10)) = [] <-> is_nan (dec 1135 10) = true) /\
  (is_nan (dec 1135 10) = false ->
   exists t, statusMessages (fillLevel (dec 1135 10)) = [t]) /\
  fst (LungsModel3D S754_nan (fun _ => dec 1 10)) =
    Some {| caption := (S754_nan, S754_nan); barWidth := S754_nan;
            status := []; floats := []; particles := [] |}.
Proof.
  apply (status_empty_iff_nan (dec 1135 10) (fun _ => dec 1 10)). reflexivity.
Defined.

(** ** Products and sums of the source, within their double bounds *)

Lemma atmost_weaken (s : bool) (B eb B' eb' : Z) (x : number) :
  atmost s B eb x -> eb < eb' \/ (eb = eb' /\ B <= B') -> atmost s B' eb' x.
Proof.
  intros H Hw. destruct x as [s' | s' | | s' m e]; cbn [atmost] in *; auto.
  destruct H as [Hs [Hm He]]. split; [exact Hs | split; [exact Hm | lia]].
Qed.

Lemma atleast_weaken (s : bool) (B eb B' eb' : Z) (x : number) :
  atleast s B eb x -> eb' < eb \/ (eb' = eb /\ B' <= B) -> atleast s B' eb' x.
Proof.
  intros H Hw. destruct x as [s' | s' | | s' m e]; cbn [atleast] in *; auto.
  destruct H as [Hs He]. split; [exact Hs | lia].
Qed.

Lemma atmost_nonneg (B eb : Z) (x : number) :
  atmost false B eb x -> le #0%js x = true /\ upto B eb x.
Proof.
  destruct x as [s' | s' | | s' m e]; cbn [atmost upto]; try contradiction.
  - intros ->. split; [reflexivity | exact I].
  - intros [-> H]. split; [reflexivity | exact H].
Qed.

(** A Number of magnitude at most 1 times a normal constant: at most the
    constant in magnitude. *)
Lemma mul_unit_atmost (s : bool) (m : positive) (e : Z) (mc : positive) (ec : Z) :
  below s 0 (S754_finite s m e) ->
  2 ^ 52 <= Zpos mc < 2 ^ 53 -> -1074 <= ec <= 971 ->
  atmost s (Zpos mc) ec (S754_finite s m e * S754_finite false mc ec)%js.
Proof.
  intros Hb Hc Hec. cbn [below] in Hb. destruct Hb as [_ [Hm He]].
  unfold mul. cbn [SFmul]. rewrite Rounding.xorb_false_r', Pos2Z.inj_mul.
  assert (Hp : 0 < 2 ^ (- e)) by (apply Z.pow_pos_nonneg; lia).
  assert (Hme : Zpos m <= 2 ^ (- e)).
  { destruct He as [He | [-> ->]]; [ | reflexivity].
    assert (2 ^ 53 <= 2 ^ (- e)) by (apply Z.pow_le_mono_r; lia). lia. }
  apply Monotone.round_le; try lia.
  replace (ec - (e + ec)) with (- e) by lia. nia.
Qed.

(** The Numbers of [-1, 1]. *)
Lemma unit_ball_cases (x : number) :
  valid x = true -> le #(-1)%js x = true -> le x #1%js = true ->
  (exists s, x = S754_zero s) \/
  (exists s m e, x = S754_finite s m e /\ below s 0 x).
Proof.
  intros Hv Hlo Hhi. rewrite of_Z_1 in Hhi.
  change #(-1)%js with (S754_finite true 4503599627370496 (-52)) in Hlo.
  destruct x as [s | [ | ] | | s m e]; try discriminate.
  - left. eauto.
  - right. exists s, m, e. split; [reflexivity | ].
    destruct (valid_mantissa _ _ _ Hv) as [Hm [He Hn]].
    cbn [below]. split; [reflexivity | split; [exact Hm | ]].
    unfold le, SFleb, SFcompare in Hlo, Hhi.
    rewrite ?Rounding.compare_cont_Eq in Hlo, Hhi.
    destruct s.
    + destruct (Z.compare_spec (-52) e) as [He' | He' | He']; [ | discriminate | lia].
      destruct (Z.compare_spec 4503599627370496 (Zpos m)); try discriminate; lia.
    + destruct (Z.compare_spec e (-52)) as [He' | He' | He']; [ | lia | discriminate].
      destruct (Z.compare_spec (Zpos m) 4503599627370496); try discriminate; lia.
Qed.

(** [r * c] for a valid [r] of [0, 1] and a normal constant [c]: a Number
    of [0, c]. *)
Lemma scaled_unit (r : number) (mc : positive) (ec : Z) :
  valid r = true -> le #0%js r = true -> le r #1%js = true ->
  2 ^ 52 <= Zpos mc < 2 ^ 53 -> -1074 <= ec <= 971 ->
  le #0%js (r * S754_finite false mc ec)%js = true /\
  upto (Zpos mc) ec (r * S754_finite false mc ec)%js.
Proof.
  intros Hv H0 H1 Hc Hec.
  destruct (unit_below r Hv H0 H1) as [[s ->] | [m [e [-> Hb]]]].
  - destruct s; split; reflexivity || exact I.
  - apply atmost_nonneg. apply mul_unit_atmost; assumption.
Qed.

(** [r * c] for a valid [r] of [-1, 1]: a Number of [-c, c]. *)
Lemma scaled_ball (r : number) (mc : positive) (ec : Z) :
  valid r = true -> le #(-1)%js r = true -> le r #1%js = true ->
  2 ^ 52 <= Zpos mc < 2 ^ 53 -> -1074 <= ec <= 971 ->
  upto (Zpos mc) ec (r * S754_finite false mc ec)%js.
Proof.
  intros Hv Hlo Hhi Hc Hec.
  destruct (unit_ball_cases r Hv Hlo Hhi) as [[s ->] | [s [m [e [-> Hb]]]]].
  - exact I.
  - pose proof (mul_unit_atmost s m e mc ec Hb Hc Hec) as H.
    destruct (S754_finite s m e * S754_finite false mc ec)%js as [s' | s' | | s' m' e'];
      cbn [atmost upto] in *; auto.
    destruct H as [_ H]. exact H.
Qed.

(** [a + w] for a normal constant [a] and a Number [w] of [0, c]: between
    [a] and any double [B * 2^eb] that is not below the exact [a + c]
    by half a unit or more. *)
Lemma affine_up (ma : positive) (ea : Z) (mc : Z) (ec : Z) (B eb : Z) (w : number) :
  le #0%js w = true -> upto mc ec w ->
  2 ^ 52 <= Zpos ma < 2 ^ 53 -> 2 ^ 52 <= mc -> 2 ^ 52 <= B < 2 ^ 53 ->
  ec <= ea -> ea <= eb -> -1074 <= ea -> eb <= 971 ->
  2 * (Zpos ma * 2 ^ (ea - ec) + mc) < (2 * B + 1) * 2 ^ (eb - ec) ->
  atleast false (Zpos ma) ea (S754_finite false ma ea + w)%js /\
  atmost false B eb (S754_finite false ma ea + w)%js.
Proof.
  intros H0 Hu Ha Hc HB Hec Hea Hlo Hhi Hsum.
  assert (Hj : 0 < 2 ^ (ea - ec)) by (apply Z.pow_pos_nonneg; lia).
  assert (Hk : 0 < 2 ^ (eb - ec)) by (apply Z.pow_pos_nonneg; lia).
  assert (Hab : ea < eb \/ (ea = eb /\ Zpos ma <= B)).
  { destruct (Z.eq_dec ea eb) as [E | E]; [right | left; lia].
    split; [exact E | ]. rewrite E in *. nia. }
  assert (Hself : atleast false (Zpos ma) ea (S754_finite false ma ea) /\
                  atmost false B eb (S754_finite false ma ea)).
  { cbn [atleast atmost]. repeat split; lia. }
  destruct w as [s | [ | ] | | [ | ] mw ew]; try discriminate; cbn [upto] in Hu;
    try contradiction.
  - destruct s; exact Hself.
  - destruct Hu as [Hmw Hew].
    rewrite Monotone.add_finite. cbn [cond_Zopp].
    replace (Z.min ea ew) with ew by lia.
    rewrite Z.sub_diag, Z.pow_0_r, Z.mul_1_r.
    set (P := 2 ^ (ec - ew)).
    assert (HP : 1 <= P) by (unfold P; pose proof (Z.pow_pos_nonneg 2 (ec - ew)); lia).
    assert (HP2 : ew < ec -> 2 <= P).
    { intros H. unfold P. change 2 with (2 ^ 1) at 1. apply Z.pow_le_mono_r; lia. }
    assert (Eja : 2 ^ (ea - ew) = 2 ^ (ea - ec) * P).
    { unfold P. rewrite <- Z.pow_add_r by lia. f_equal. lia. }
    assert (Ejb : 2 ^ (eb - ew) = 2 ^ (eb - ec) * P).
    { unfold P. rewrite <- Z.pow_add_r by lia. f_equal. lia. }
    assert (H2a : 0 < Zpos ma * 2 ^ (ea - ew)).
    { apply Z.mul_pos_pos; [lia | apply Z.pow_pos_nonneg; lia]. }
    destruct (Zpos ma * 2 ^ (ea - ew) + Zpos mw) as [ | p | p] eqn:Ep; try lia.
    cbn [binary_normalize]. split.
    + apply Monotone.binary_round_ge; lia.
    + apply Monotone.binary_round_le; try lia.
      rewrite <- Ep, Eja, Ejb.
      destruct Hew as [Hew | [Hew Hmw']].
      * specialize (HP2 Hew). nia.
      * assert (P = 1) by (unfold P; rewrite Hew, Z.sub_diag; reflexivity). nia.
Qed.

(** [a + w] for a normal constant [a] and a Number [w] of [-c, 0]: between
    any double [L * 2^el] that is not above the exact [a - c] by half a
    unit or more, and [a]. *)
Lemma affine_down (ma : positive) (ea : Z) (mc : Z) (ec : Z) (L el : Z) (w : number) :
  le w #0%js = true -> upto mc ec w ->
  2 ^ 52 <= Zpos ma < 2 ^ 53 -> 2 ^ 52 <= mc -> 2 ^ 52 < L < 2 ^ 53 ->
  ec <= el -> el <= ea -> -1074 <= el -> ea <= 971 ->
  (2 * L - 1) * 2 ^ (el - ec) + 2 * mc < 2 * Zpos ma * 2 ^ (ea - ec) ->
  atleast false L el (S754_finite false ma ea + w)%js /\
  atmost false (Zpos ma) ea (S754_finite false ma ea + w)%js.
Proof.
  intros H0 Hu Ha Hc HL Hec Hel Hlo Hhi Hsum.
  assert (Hj : 0 < 2 ^ (ea - ec)) by (apply Z.pow_pos_nonneg; lia).
  assert (Hk : 0 < 2 ^ (el - ec)) by (apply Z.pow_pos_nonneg; lia).
  assert (Hla : el < ea \/ (el = ea /\ L <= Zpos ma)).
  { destruct (Z.eq_dec el ea) as [E | E]; [right | left; lia].
    split; [exact E | ]. rewrite E in *. nia. }
  assert (Hself : atleast false L el (S754_finite false ma ea) /\
                  atmost false (Zpos ma) ea (S754_finite false ma ea)).
  { cbn [atleast atmost]. repeat split; lia. }
  destruct w as [s | [ | ] | | [ | ] mw ew]; try discriminate; cbn [upto] in Hu;
    try contradiction.
  - destruct s; exact Hself.
  - destruct Hu as [Hmw Hew].
    rewrite Monotone.add_finite. cbn [cond_Zopp].
    replace (Z.min ea ew) with ew by lia.
    rewrite Z.sub_diag, Z.pow_0_r, Z.mul_1_r.
    set (P := 2 ^ (ec - ew)).
    assert (HP : 1 <= P) by (unfold P; pose proof (Z.pow_pos_nonneg 2 (ec - ew)); lia).
    assert (HP2 : ew < ec -> 2 <= P).
    { intros H. unfold P. change 2 with (2 ^ 1) at 1. apply Z.pow_le_mono_r; lia. }
    assert (Eja : 2 ^ (ea - ew) = 2 ^ (ea - ec) * P).
    { unfold P. rewrite <- Z.pow_add_r by lia. f_equal. lia. }
    assert (Ejl : 2 ^ (el - ew) = 2 ^ (el - ec) * P).
    { unfold P. rewrite <- Z.pow_add_r by lia. f_equal. lia. }
    assert (Hbig : (2 * L - 1) * 2 ^ (el - ew) < 2 * (Zpos ma * 2 ^ (ea - ew) + - Zpos mw)).
    { rewrite Eja, Ejl.
      destruct Hew as [Hew | [Hew Hmw']].
      - specialize (HP2 Hew). nia.
      - assert (P = 1) by (unfold P; rewrite Hew, Z.sub_diag; reflexivity). nia. }
    assert (H2j : 0 < 2 ^ (el - ew)) by (apply Z.pow_pos_nonneg; lia).
    assert (H2l : 0 <= (2 * L - 1) * 2 ^ (el - ew)) by (apply Z.mul_nonneg_nonneg; lia).
    destruct (Zpos ma * 2 ^ (ea - ew) + - Zpos mw) as [ | p | p] eqn:Ep; try lia.
    cbn [binary_normalize]. split.
    + apply Monotone.binary_round_ge; lia.
    + apply Monotone.binary_round_le; lia.
Qed.

(** ** Ranges of the colours, of the animation and of the overlay timing *)

Lemma within_of (B L : positive) (eb el : Z) (x : number) :
  atleast false (Zpos L) el x -> atmost false (Zpos B) eb x ->
  within (S754_finite false L el) (S754_finite false B eb) x = true.
Proof.
  intros Hlo Hhi. unfold within.
  rewrite (Monotone.atleast_le _ _ _ Hlo).
  rewrite (proj2 (Monotone.atmost_le _ _ _ _ Hhi)). reflexivity.
Qed.

(** The three expressions of the recolouring, for a fill level of
    [0, 1]. *)
Lemma colour_ranges (r : number) :
  valid r = true -> le #0%js r = true -> le r #1%js = true ->
  within #120%js #180%js (#120 + r * #60)%js = true /\
  within #40%js #60%js (#40 + r * #20)%js = true /\
  within (dec 8 10) #1%js (dec 8 10 + r * dec 2 10)%js = true.
Proof.
  intros Hv H0 H1.
  split; [ | split].
  - change #120%js with (S754_finite false 8444249301319680 (-46)).
    change #60%js with (S754_finite false 8444249301319680 (-47)).
    change #180%js with (S754_finite false 6333186975989760 (-45)).
    destruct (scaled_unit r 8444249301319680 (-47) Hv H0 H1 ltac:(numeric) ltac:(numeric))
      as [Hp Hu].
    destruct (affine_up 8444249301319680 (-46) _ (-47) 6333186975989760 (-45) _ Hp Hu
        ltac:(numeric) ltac:(numeric) ltac:(numeric) ltac:(numeric)
        ltac:(numeric) ltac:(numeric) ltac:(numeric) ltac:(numeric))
      as [Hlo Hhi].
    apply within_of; assumption.
  - change #40%js with (S754_finite false 5629499534213120 (-47)).
    change #20%js with (S754_finite false 5629499534213120 (-48)).
    change #60%js with (S754_finite false 8444249301319680 (-47)).
    destruct (scaled_unit r 5629499534213120 (-48) Hv H0 H1 ltac:(numeric) ltac:(numeric))
      as [Hp Hu].
    destruct (affine_up 5629499534213120 (-47) _ (-48) 8444249301319680 (-47) _ Hp Hu
        ltac:(numeric) ltac:(numeric) ltac:(numeric) ltac:(numeric)
        ltac:(numeric) ltac:(numeric) ltac:(numeric) ltac:(numeric))
      as [Hlo Hhi].
    apply within_of; assumption.
  - change (dec 8 10) with (S754_finite false 7205759403792794 (-53)).
    change (dec 2 10) with (S754_finite false 7205759403792794 (-55)).
    change #1%js with (S754_finite false 4503599627370496 (-52)).
    destruct (scaled_unit r 7205759403792794 (-55) Hv H0 H1 ltac:(numeric) ltac:(numeric))
      as [Hp Hu].
    destruct (affine_up 7205759403792794 (-53) _ (-55) 4503599627370496 (-52) _ Hp Hu
        ltac:(numeric) ltac:(numeric) ltac:(numeric) ltac:(numeric)
        ltac:(numeric) ltac:(numeric) ltac:(numeric) ltac:(numeric))
      as [Hlo Hhi].
    apply within_of; assumption.
Qed.

(** A zero or a finite Number is not above zero or not below it. *)
Lemma upto_sign (mc ec : Z) (x : number) :
  upto mc ec x -> le #0%js x = true \/ le x #0%js = true.
Proof.
  destruct x as [[ | ] | s | | [ | ] m e]; cbn [upto]; try contradiction; intros _;
    (left; reflexivity) || (right; reflexivity).
Qed.

(** [1 + s * 0.1] and [s * 0.1] for a sine [s] of [-1, 1]. *)
Lemma breathe_ranges (s : number) :
  valid s = true -> le #(-1)%js s = true -> le s #1%js = true ->
  within (dec 9 10) (dec 11 10) (#1 + s * dec 1 10)%js = true /\
  within (dec (-1) 10) (dec 1 10) (s * dec 1 10)%js = true.
Proof.
  intros Hv Hlo Hhi.
  change (dec 1 10) with (S754_finite false 7205759403792794 (-56)).
  pose proof (scaled_ball s 7205759403792794 (-56) Hv Hlo Hhi ltac:(numeric) ltac:(numeric))
    as Hu.
  split.
  - change #1%js with (S754_finite false 4503599627370496 (-52)).
    change (dec 9 10) with (S754_finite false 8106479329266893 (-53)).
    change (dec 11 10) with (S754_finite false 4953959590107546 (-52)).
    destruct (upto_sign _ _ _ Hu) as [Hp | Hn].
    + destruct (affine_up 4503599627370496 (-52) _ (-56) 4953959590107546 (-52) _ Hp Hu
          ltac:(numeric) ltac:(numeric) ltac:(numeric) ltac:(numeric)
          ltac:(numeric) ltac:(numeric) ltac:(numeric) ltac:(numeric))
        as [Hl Hh].
      apply within_of; [ | exact Hh].
      apply (atleast_weaken _ _ _ _ _ _ Hl). left. lia.
    + destruct (affine_down 4503599627370496 (-52) _ (-56) 8106479329266893 (-53) _ Hn Hu
          ltac:(numeric) ltac:(numeric) ltac:(numeric) ltac:(numeric)
          ltac:(numeric) ltac:(numeric) ltac:(numeric) ltac:(numeric))
        as [Hl Hh].
      apply within_of; [exact Hl | ].
      apply (atmost_weaken _ _ _ _ _ _ Hh). right. split; numeric.
  - unfold within.
    change (dec (-1) 10) with (S754_finite true 7205759403792794 (-56)).
    destruct (upto_le _ _ _ Hu) as [-> ->]. reflexivity.
Qed.

(** [2 + u * 2] for a draw [u] of [0, 1). *)
Lemma duration_range (u : number) :
  unit_interval u = true -> within #2%js #4%js (#2 + u * #2)%js = true.
Proof.
  unfold unit_interval. intros H.
  apply andb_prop in H as [H H1]. apply andb_prop in H as [Hv H0].
  assert (H1' : le u #1%js = true).
  { revert H1. unfold lt, le, SFltb, SFleb.
    destruct (SFcompare u #1%js) as [[ | | ] | ]; auto. }
  change #2%js with (S754_finite false 4503599627370496 (-51)).
  change #4%js with (S754_finite false 4503599627370496 (-50)).
  destruct (scaled_unit u 4503599627370496 (-51) Hv H0 H1' ltac:(numeric) ltac:(numeric))
    as [Hp Hu].
  destruct (affine_up 4503599627370496 (-51) _ (-51) 4503599627370496 (-50) _ Hp Hu
      ltac:(numeric) ltac:(numeric) ltac:(numeric) ltac:(numeric)
      ltac:(numeric) ltac:(numeric) ltac:(numeric) ltac:(numeric))
    as [Hlo Hhi].
  apply within_of; assumption.
Qed.

(** ** The recolouring effect, for every pledge count *)

Lemma paint_paint (r r' : number) (m : Material) : paint r' (paint r m) = paint r' m.
Proof.
  unfold paint. destruct (color m) eqn:E; cbn [color];
    [reflexivity | rewrite E; reflexivity].
Qed.

Lemma paint_color_none (r : number) (m : Material) :
  color (paint r m) = None <-> color m = None.
Proof.
  unfold paint. destruct (color m) eqn:E; cbn [color]; [ | rewrite E]; split; auto;
    discriminate.
Qed.

(** X6.  Whatever non-negative Number the pledge count is, the effect
    gives every coloured mesh material a hue of [120, 180], the saturation
    70, a lightness of [40, 60] and an opacity of [0.8, 1], and marks it
    transparent; from 200 pledges on the colour is hsl(180, 70%, 60%) at
    opacity 1, and at no pledge it is hsl(120, 70%, 40%) at opacity 0.8. *)
Theorem colour_gamut (x : number) (scene : Object3D) (st : Materials) (k : nat) :
  valid x = true -> le #0%js x = true ->
  In k (meshes scene) -> color (st k) <> None ->
  exists h l,
    color (useEffect (fillLevel x) (Some scene) st k) = Some (hsl h #70%js l) /\
    within #120%js #180%js h = true /\
    within #40%js #60%js l = true /\
    within (dec 8 10) #1%js (opacity (useEffect (fillLevel x) (Some scene) st k)) = true /\
    transparent (useEffect (fillLevel x) (Some scene) st k) = true /\
    (le #200%js x = true ->
       h = #180%js /\ l = #60%js /\
       opacity (useEffect (fillLevel x) (Some scene) st k) = #1%js) /\
    (strict_eq x #0%js = true ->
       h = #120%js /\ l = #40%js /\
       opacity (useEffect (fillLevel x) (Some scene) st k) = dec 8 10).
Proof.
  intros Hx Hx0 Hin Hc.
  destruct (fillLevel_unit_any x Hx Hx0) as [Hv [H0 H1]].
  destruct (colour_ranges _ Hv H0 H1) as [Hh [Hl Ho]].
  unfold useEffect. rewrite traverse_spec.
  apply existsb_eqb_In in Hin. rewrite Hin. unfold paint.
  destruct (color (st k)) as [c | ]; [ | contradiction].
  cbn [color opacity transparent].
  exists (#120 + fillLevel x * #60)%js, (#40 + fillLevel x * #20)%js.
  split; [reflexivity | ]. split; [exact Hh | ]. split; [exact Hl | ].
  split; [exact Ho | ]. split; [reflexivity | ]. split.
  - intros H200. rewrite (fillLevel_saturates_any x Hx H200).
    split; [ | split]; vm_compute; reflexivity.
  - intros Hz.
    assert (Ez : exists s, x = S754_zero s).
    { clear - Hz. destruct x as [s | [ | ] | | [ | ] m e]; try discriminate Hz. eauto. }
    destruct Ez as [s ->].
    destruct s; (split; [ | split]); vm_compute; reflexivity.
Qed.

Lemma colour_gamut_witness :
  exists h l,
    color (useEffect (fillLevel (dec 1135 10)) (Some (Obj true (Some 0%nat) []))
             (fun _ => mkMaterial (Some (hsl #0%js #0%js #0%js)) #1%js false) 0%nat)
      = Some (hsl h #70%js l) /\
    within #120%js #180%js h = true /\
    within #40%js #60%js l = true /\
    within (dec 8 10) #1%js
      (opacity (useEffect (fillLevel (dec 1135 10)) (Some (Obj true (Some 0%nat) []))
                  (fun _ => mkMaterial (Some (hsl #0%js #0%js #0%js)) #1%js false) 0%nat))
      = true /\
    transparent (useEffect (fillLevel (dec 1135 10)) (Some (Obj true (Some 0%nat) []))
                   (fun _ => mkMaterial (Some (hsl #0%js #0%js #0%js)) #1%js false) 0%nat)
      = true /\
    (le #200%js (dec 1135 10) = true ->
       h = #180%js /\ l = #60%js /\
       opacity (useEffect (fillLevel (dec 1135 10)) (Some (Obj true (Some 0%nat) []))
                  (fun _ => mkMaterial (Some (hsl #0%js #0%js #0%js)) #1%js false) 0%nat)
         = #1%js) /\
    (strict_eq (dec 1135 10) #0%js = true ->
       h = #120%js /\ l = #40%js /\
       opacity (useEffect (fillLevel (dec 1135 10)) (Some (Obj true (Some 0%nat) []))
                  (fun _ => mkMaterial (Some (hsl #0%js #0%js #0%js)) #1%js false) 0%nat)
         = dec 8 10).
Proof.
  apply (colour_gamut (dec 1135 10) (Obj true (Some 0%nat) [])
           (fun _ => mkMaterial (Some (hsl #0%js #0%js #0%js)) #1%js false) 0%nat).
  - reflexivity.
  - reflexivity.
  - simpl. left. reflexivity.
  - simpl. discriminate.
Defined.

(** X7.  Running the effect again with another fill level leaves every
    material as if only the last run had happened: nothing accumulates
    from one pledge count to the next, and a second run at the same level
    changes nothing.  The effect never gives a colour to a material that
    had none, nor takes one away. *)
Theorem useEffect_last_wins (r r' : number) (scene : option Object3D)
    (st : Materials) (k : nat) :
  useEffect r' scene (useEffect r scene st) k = useEffect r' scene st k /\
  useEffect r scene (useEffect r scene st) k = useEffect r scene st k /\
  (color (useEffect r scene st k) = None <-> color (st k) = None).
Proof.
  assert (H : forall a b, useEffect b scene (useEffect a scene st) k = useEffect b scene st k).
  { intros a b. destruct scene as [o | ]; [ | reflexivity].
    unfold useEffect. rewrite !traverse_spec.
    destruct (existsb (Nat.eqb k) (meshes o)); [apply paint_paint | reflexivity]. }
  split; [apply H | ]. split; [apply H | ].
  destruct scene as [o | ]; [ | reflexivity].
  unfold useEffect. rewrite traverse_spec.
  destruct (existsb (Nat.eqb k) (meshes o)); [apply paint_color_none | reflexivity].
Qed.

(** ** The breathing animation within its bounds *)

(** X10.  Whenever the two sines are Numbers of [-1, 1], the frame
    callback sets a uniform scale of [0.9, 1.1] and a Y rotation of
    [-0.1, 0.1], and leaves the X and Z rotations as they were. *)
Theorem breathing_bounds (Math_sin : number -> number) (time : number)
    (current : Group) :
  valid (Math_sin (time * dec 5 10)%js) = true ->
  within #(-1)%js #1%js (Math_sin (time * dec 5 10)%js) = true ->
  valid (Math_sin (time * dec 2 10)%js) = true ->
  within #(-1)%js #1%js (Math_sin (time * dec 2 10)%js) = true ->
  exists b t,
    useFrame Math_sin time (Some current) =
      Some {| scale := (b, b, b);
              rotation := (fst (fst (rotation current)), t, snd (rotation current)) |} /\
    within (dec 9 10) (dec 11 10) b = true /\
    within (dec (-1) 10) (dec 1 10) t = true.
Proof.
  intros Hv1 Hw1 Hv2 Hw2.
  unfold within in Hw1, Hw2.
  apply andb_prop in Hw1 as [Hl1 Hh1]. apply andb_prop in Hw2 as [Hl2 Hh2].
  exists (#1 + Math_sin (time * dec 5 10) * dec 1 10)%js,
         (Math_sin (time * dec 2 10) * dec 1 10)%js.
  split.
  - unfold useFrame. destruct (rotation current) as [[rx ry] rz]. reflexivity.
  - split.
    + exact (proj1 (breathe_ranges _ Hv1 Hl1 Hh1)).
    + exact (proj2 (breathe_ranges _ Hv2 Hl2 Hh2)).
Qed.

Lemma breathing_bounds_witness :
  exists b t,
    useFrame (fun _ => dec (-5) 10) #3%js
             (Some {| scale := (#1, #1, #1)%js; rotation := (#0, #0, #0)%js |}) =
      Some {| scale := (b, b, b); rotation := (#0%js, t, #0%js) |} /\
    within (dec 9 10) (dec 11 10) b = true /\
    within (dec (-1) 10) (dec 1 10) t = true.
Proof.
  apply (breathing_bounds (fun _ => dec (-5) 10) #3%js
           {| scale := (#1, #1, #1)%js; rotation := (#0, #0, #0)%js |});
    reflexivity.
Defined.

(** ** One render pass and the random generator *)

(** Floating marker [i] is computed from the draw [i]. *)
Lemma floating_nth (len : nat) (rng : Rng) (i : nat) (f : Floating) :
  nth_error (fst (mapM floating (seq 0 len) rng)) i = Some f ->
  (i < len)%nat /\
  f = {| fkey := i;
         left := (#10 + #(Z.of_nat i) * #8)%js;
         top := (#15 + #(Z.of_nat i) * #6)%js;
         animationDelay := (#(Z.of_nat i) * dec 5 10)%js;
         animationDuration := (#2 + rng i * #2)%js |}.
Proof.
  intros H.
  assert (Hi : (i < len)%nat).
  { assert (Hn : nth_error (fst (mapM floating (seq 0 len) rng)) i <> None)
      by (rewrite H; discriminate).
    apply nth_error_Some in Hn. rewrite mapM_length, length_seq in Hn. exact Hn. }
  split; [exact Hi | ].
  destruct (mapM_nth_error floating 1 (seq 0 len)
              ltac:(intros a r0; reflexivity) rng i f H) as [a [Ha ->]].
  apply nth_error_seq_eq in Ha. cbn [Nat.add] in Ha. subst a.
  unfold floating, bind, ret, Math_random. cbn [fst snd].
  rewrite drop_spec, Nat.mul_1_l, Nat.add_0_r. reflexivity.
Qed.

(** One render pass of a non-negative count, step by step. *)
Lemma LungsModel3D_run (x : number) (rng : Rng) :
  valid x = true -> le #0%js x = true ->
  exists F P : nat, (F <= 10)%nat /\ (P <= 50)%nat /\
    LungsModel3D x rng =
    (Some {| caption := (x, fillPercentage x);
             barWidth := fillPercentage x;
             status := statusMessages (fillLevel x);
             floats := fst (mapM floating (seq 0 F) rng);
             particles := fst (mapM (particle (fillLevel x)) (seq 0 P) (drop F rng)) |},
     drop (F + 3 * P) rng).
Proof.
  intros Hx Hx0. destruct (fillLevel_unit_any x Hx Hx0) as [Hv [H0 H1]].
  destruct (markers_count_tight _ 10 Hv H0 H1 ltac:(lia)) as [z [Hz [Ha _]]].
  destruct (markers_count_tight _ 50 Hv H0 H1 ltac:(lia)) as [z' [Hz' [Ha' _]]].
  exists (Z.to_nat z), (Z.to_nat z').
  split; [lia | ]. split; [lia | ].
  unfold LungsModel3D, bind.
  rewrite (floatingParticles_run _ rng z Ha).
  rewrite (LungsModel_run _ _ _ z' Ha').
  unfold ret.
  rewrite (mapM_drop floating 1) by (intros a r0; reflexivity).
  rewrite (mapM_drop (particle (fillLevel x)) 3) by (intros a r0; reflexivity).
  rewrite !length_seq, Nat.mul_1_l, <- drop_add. reflexivity.
Qed.

Lemma delays :
  forallb (fun i => same (#i * dec 5 10)%js (dec (5 * i) 10)) (range 0 10) = true.
Proof. vm_compute. reflexivity. Qed.

(** X8.  In a render of a non-negative count with a generator of [0, 1),
    floating marker i (there are at most ten) has key i, starts its
    animation after i / 2 seconds and runs it for 2 + 2 u seconds, u being
    draw i: a duration of [2, 4].  The bound 4 is reached: the largest
    double below 1 gives exactly 4. *)
Theorem overlay_timing (x : number) (rng : Rng) :
  valid x = true -> le #0%js x = true -> fair rng ->
  (exists v, fst (LungsModel3D x rng) = Some v /\
     forall i f, nth_error (floats v) i = Some f ->
       (i < 10)%nat /\ fkey f = i /\
       animationDelay f = dec (5 * Z.of_nat i) 10 /\
       animationDuration f = (#2 + rng i * #2)%js /\
       within #2%js #4%js (animationDuration f) = true) /\
  (exists u, unit_interval u = true /\ (#2 + u * #2)%js = #4%js).
Proof.
  intros Hx Hx0 Hf. split.
  - destruct (LungsModel3D_run x rng Hx Hx0) as [F [P [HF [_ ->]]]].
    eexists. split; [reflexivity | ]. cbn [fst floats].
    intros i f H. apply floating_nth in H as [Hi ->].
    cbn [fkey animationDelay animationDuration].
    split; [lia | ]. split; [reflexivity | ]. split.
    + pose proof (range_forall _ 0 10 delays (Z.of_nat i) ltac:(lia)) as Hd.
      cbv beta in Hd. apply same_eq in Hd. exact Hd.
    + split; [reflexivity | ]. apply duration_range. apply Hf.
  - exists (S754_finite false 9007199254740991 (-53)).
    split; vm_compute; reflexivity.
Qed.

Lemma overlay_timing_witness :
  (exists v, fst (LungsModel3D (dec 1135 10) (fun _ => dec 1 10)) = Some v /\
     forall i f, nth_error (floats v) i = Some f ->
       (i < 10)%nat /\ fkey f = i /\
       animationDelay f = dec (5 * Z.of_nat i) 10 /\
       animationDuration f = (#2 + dec 1 10 * #2)%js /\
       within #2%js #4%js (animationDuration f) = true) /\
  (exists u, unit_interval u = true /\ (#2 + u * #2)%js = #4%js).
Proof.
  apply (overlay_timing (dec 1135 10) (fun _ => dec 1 10));
    try reflexivity.
  intros i. reflexivity.
Defined.


